(** * dbMAP: adaptive-kernel diffusion maps (src/dbmap/diffusion.py)

    A shallow embedding of the three estimators of [diffusion.py]
    ([NMSlibTransformer], [multiscale], [Diffusor]) and of the numpy / scipy
    array operations they are written with.

    - Python objects are records; a method takes the object and returns the
      updated object, so attribute assignments ([self.n_neighbors = ...]) are
      visible in the result.
    - Exceptions are the [Raise] case of [result]; calls into external
      libraries (nmslib, scikit-learn, ARPACK through scipy, kneed) are
      fields of [externals] and leave an [event] in the trace of the run.
    - Array code is written once over a table of scalar operations
      ([dtype]) and used at two scalar types: IEEE binary64 ([float],
      what numpy computes with) and the real numbers ([R], the exact
      arithmetic that float64 approximates).
    - Of the timing reports and [print] calls only the divisions by the
      number of rows are modelled: they raise [ZeroDivisionError] for an
      input without rows. *)

From Stdlib Require Import String.
From Stdlib Require Import List ZArith Bool Arith Lia.
From Stdlib Require Import Floats.
From Stdlib Require Import Reals Lra.
From Stdlib Require Import Sorted Permutation.
Import ListNotations.

Set Implicit Arguments.

(** ** Python exceptions, results and traces *)

Inductive exn : Type :=
| KeyError
| IndexError
| ValueError
| TypeError
| AttributeError
| ZeroDivisionError
| LibraryError (origin : string).

Inductive result (X : Type) : Type :=
| Ok (x : X)
| Raise (e : exn).

Arguments Ok {X} x.
Arguments Raise {X} e.

Definition rbind {X Y : Type} (r : result X) (f : X -> result Y) : result Y :=
  match r with
  | Ok x => f x
  | Raise e => Raise e
  end.

Fixpoint result_mapM {X Y : Type} (f : X -> result Y) (l : list X) : result (list Y) :=
  match l with
  | [] => Ok []
  | x :: t =>
      rbind (f x) (fun y => rbind (result_mapM f t) (fun ys => Ok (y :: ys)))
  end.

(** The calls into the external libraries that a run records: building
    the nmslib index, the neighbour searches and the eigensolver.
    [setQueryTimeParams], which only stores [efSearch] in the index, leaves
    no event: it is read off the index the batch query is made on. *)
Inductive event : Type :=
| NmslibInit (method space : string)
| NmslibAddDataPointBatch (n_points : nat)
| NmslibCreateIndex
| NmslibKnnQueryBatch (k : Z)
| SklearnKneighborsGraph (k : Z) (metric : string)
| ScipyEigs (k : Z).

Definition is_neighbor_search (e : event) : bool :=
  match e with
  | ScipyEigs _ => false
  | _ => true
  end.

(** A run: its outcome and the external calls it made, oldest first. *)
Definition py (X : Type) : Type := (result X * list event)%type.

Definition ret {X : Type} (x : X) : py X := (Ok x, []).
Definition throw {X : Type} (e : exn) : py X := (Raise e, []).
Definition lift {X : Type} (r : result X) : py X := (r, []).
Definition call {X : Type} (e : event) (r : result X) : py X := (r, [e]).

Definition bind {X Y : Type} (m : py X) (f : X -> py Y) : py Y :=
  match m with
  | (Ok x, tr) => let (r, tr') := f x in (r, tr ++ tr')
  | (Raise e, tr) => (Raise e, tr)
  end.

Declare Scope py_scope.
Delimit Scope py_scope with py.
Notation "x <- m ;; k" := (bind m (fun x => k))
  (at level 61, m at next level, right associativity) : py_scope.

(** ** Python sequences *)

(** [l[i]] with Python's negative indices. *)
Definition py_index {X : Type} (l : list X) (i : Z) : result X :=
  let n := Z.of_nat (List.length l) in
  let j := if (i <? 0)%Z then (i + n)%Z else i in
  if ((0 <=? j) && (j <? n))%Z
  then match nth_error l (Z.to_nat j) with
       | Some x => Ok x
       | None => Raise IndexError
       end
  else Raise IndexError.

(** [l[a:b]] for non-negative bounds. *)
Definition py_slice {X : Type} (l : list X) (a b : nat) : list X :=
  firstn (b - a) (skipn a l).

(** [range(a, b)] over Python integers. *)
Definition py_range (a b : Z) : list Z :=
  map (fun i => (a + Z.of_nat i)%Z) (seq 0 (Z.to_nat (b - a))).

(** [np.arange(start, stop, step)] over integers:
    [max 0 (ceil ((stop - start) / step))] elements. *)
Definition np_arange (start stop step : Z) : result (list Z) :=
  if (step =? 0)%Z then Raise ZeroDivisionError
  else
    let n := Z.max 0 (- ((- (stop - start)) / step))%Z in
    Ok (map (fun i => (start + Z.of_nat i * step)%Z) (seq 0 (Z.to_nat n))).

(** [np.vstack(rows)]: the rows must exist and have one length. *)
Definition np_vstack {X : Type} (rows : list (list X)) : result (list (list X)) :=
  match rows with
  | [] => Raise ValueError
  | r :: _ =>
      if forallb (fun r' => List.length r' =? List.length r) rows
      then Ok rows
      else Raise ValueError
  end.

(** [a.ravel()] of a 2-d array given by its rows. *)
Definition np_ravel {X : Type} (rows : list (list X)) : list X := concat rows.

(** Stable insertion sort by a boolean order; [np.sort] and [np.argsort]
    are instances.  numpy leaves the order of ties of [argsort] to the
    implementation; the properties below do not depend on it. *)
Fixpoint insert_by {X : Type} (le : X -> X -> bool) (x : X) (l : list X) : list X :=
  match l with
  | [] => [x]
  | y :: t => if le x y then x :: l else y :: insert_by le x t
  end.

Definition sort_by {X : Type} (le : X -> X -> bool) (l : list X) : list X :=
  fold_right (insert_by le) [] l.

(** ** Scalars

    The operations numpy applies elementwise, as a table. *)
Record dtype (A : Type) : Type := {
  zero : A;
  one : A;
  add : A -> A -> A;
  sub : A -> A -> A;
  mul : A -> A -> A;
  div : A -> A -> A;
  neg : A -> A;
  sqrt : A -> A;
  eqb : A -> A -> bool;
  ltb : A -> A -> bool;
  leb : A -> A -> bool
}.

(** The two transcendental functions the pipeline uses: [np.exp] and the
    power operator [**]. *)
Record ufuncs (A : Type) : Type := {
  exp : A -> A;
  pow : A -> A -> A
}.

(** ** scipy sparse matrices *)

(** A CSR matrix as [csr_matrix((data, indices, indptr), shape)] stores it. *)
Record csr (A : Type) : Type := {
  csr_data : list A;
  csr_indices : list nat;
  csr_indptr : list nat;
  csr_shape : (nat * nat)%type
}.

(** A matrix given by coordinates, [csr_matrix((data, (row, col)), shape)]:
    the entry at [(i, j)] is the sum of the values stored at [(i, j)]. *)
Definition coo (A : Type) : Type := list (nat * nat * A).

(** The sample matrix handed to the estimators. *)
Inductive samples (A : Type) : Type :=
| Dense (rows : list (list A))
| Sparse (m : csr A).

Definition issparse {A : Type} (data : samples A) : bool :=
  match data with
  | Dense _ => false
  | Sparse _ => true
  end.

(** [data.shape[0]] *)
Definition shape0 {A : Type} (data : samples A) : nat :=
  match data with
  | Dense rows => List.length rows
  | Sparse m => fst (csr_shape m)
  end.

(** An nmslib index object: what [nmslib.init] fixed and what was added. *)
Module nmslib.

Inductive DataType : Type := DENSE_VECTOR | SPARSE_VECTOR | OBJECT_AS_STRING.

Record index_time_params : Type := {
  M : Z;
  indexThreadQty : Z;
  efConstruction : Z;
  post : Z
}.

Record Index (A : Type) : Type := {
  method : string;
  space : string;
  data_type : DataType;
  points : option (samples A);
  index_params : option index_time_params;
  efSearch : option Z
}.

Definition init (A : Type) (method space : string) (data_type : DataType) : Index A :=
  {| method := method; space := space; data_type := data_type;
     points := None; index_params := None; efSearch := None |}.

Definition addDataPointBatch {A : Type} (ix : Index A) (data : samples A) : Index A :=
  {| method := method ix; space := space ix; data_type := data_type ix;
     points := Some data; index_params := index_params ix; efSearch := efSearch ix |}.

Definition createIndex {A : Type} (ix : Index A) (params : index_time_params) : Index A :=
  {| method := method ix; space := space ix; data_type := data_type ix;
     points := points ix; index_params := Some params; efSearch := efSearch ix |}.

Definition setQueryTimeParams {A : Type} (ix : Index A) (ef : Z) : Index A :=
  {| method := method ix; space := space ix; data_type := data_type ix;
     points := points ix; index_params := index_params ix; efSearch := Some ef |}.

End nmslib.

(** The external collaborators.  Each is a function of its arguments; a
    failure inside the library is a [Raise].
    - [nmslib_knnQueryBatch ix data k num_threads]: per query row, the ids
      and the distances of the neighbours found;
    - [sklearn_kneighbors_graph n_neighbors metric n_jobs data]:
      [NearestNeighbors(n_neighbors, metric, n_jobs).fit(data)
         .kneighbors_graph(data, mode='distance')];
    - [scipy_eigs T k]: [eigs(T, k, tol=1e-4, maxiter=1000)], each complex
      eigenvalue with its eigenvector (a column of [V]), a complex number
      being a pair (real part, imaginary part);
    - [kneed_knee y S]: the attribute [knee] of [KneeLocator(range(1,
      len(y)+1), y, S=S, curve='convex', direction='decreasing')], an
      integer of the range or [None]. *)
Record externals (A : Type) : Type := {
  nmslib_knnQueryBatch :
    nmslib.Index A -> samples A -> Z -> Z -> result (list (list nat * list A));
  sklearn_kneighbors_graph :
    Z -> string -> Z -> samples A -> result (csr A);
  scipy_eigs :
    coo A -> Z -> result (list ((A * A) * list (A * A)));
  kneed_knee :
    list A -> A -> result (option Z)
}.

(** ** numpy and scipy operations over a scalar table *)

Section Arrays.

Context {A : Type} (O : dtype A) (U : ufuncs A).

(** [np.sort(a)] *)
Definition np_sort (a : list A) : list A := sort_by (leb O) a.

(** [np.argsort(a)] *)
Definition np_argsort (a : list A) : list nat :=
  map fst (sort_by (fun p q => leb O (snd p) (snd q))
                   (combine (seq 0 (List.length a)) a)).

(** Sum of a vector, accumulated from the left starting at zero, as the
    CSR row kernel of scipy does. *)
Definition np_sum (a : list A) : A := fold_left (add O) a (zero O).

(** [np.maximum(a, b)] *)
Definition np_maximum (a b : A) : A := if leb O a b then b else a.

(** [d[d != 0] = f(d[d != 0])] *)
Definition mask_nonzero (f : A -> A) (d : list A) : list A :=
  map (fun x => if eqb O x (zero O) then x else f x) d.

(** [np.linalg.norm(v)] of a real vector. *)
Definition norm (v : list A) : A :=
  sqrt O (np_sum (map (fun x => mul O x x) v)).

(** [csr_matrix((data, indices, indptr), shape)] with the checks scipy
    makes on construction ([check_format(full_check=False)]) and the
    pruning to [indptr[-1]] stored entries. *)
Definition csr_matrix (data : list A) (indices : list nat) (indptr : list Z)
           (shape : nat * nat) : result (csr A) :=
  if negb (List.length indptr =? S (fst shape)) then Raise ValueError
  else if negb (hd 0%Z indptr =? 0)%Z then Raise ValueError
  else if negb (List.length indices =? List.length data) then Raise ValueError
  else if (Z.of_nat (List.length indices) <? last indptr 0%Z)%Z then Raise ValueError
  else
    let nnz := Z.to_nat (last indptr 0%Z) in
    Ok {| csr_data := firstn nnz data;
          csr_indices := firstn nnz indices;
          csr_indptr := map Z.to_nat indptr;
          csr_shape := shape |}.

(** [m.data[m.indptr[i] : m.indptr[i + 1]]]; [indptr] has one entry more
    than the matrix has rows. *)
Definition csr_row_data (m : csr A) (i : nat) : list A :=
  py_slice (csr_data m) (nth i (csr_indptr m) 0) (nth (S i) (csr_indptr m) 0).

Definition csr_row (m : csr A) (i : nat) : list (nat * A) :=
  py_slice (combine (csr_indices m) (csr_data m))
           (nth i (csr_indptr m) 0) (nth (S i) (csr_indptr m) 0).

(** [m.tocoo()]: the stored entries, row by row. *)
Definition csr_tocoo (m : csr A) : coo A :=
  flat_map (fun i => map (fun jv => (i, fst jv, snd jv)) (csr_row m i))
           (seq 0 (fst (csr_shape m))).

(** [coo.sum_duplicates()]: values stored at one coordinate are added.
    scipy also sorts the coordinates; nothing below reads their order. *)
Fixpoint coo_accumulate (i j : nat) (v : A) (acc : coo A) : coo A :=
  match acc with
  | [] => [(i, j, v)]
  | (i', j', v') :: t =>
      if (i =? i') && (j =? j')
      then (i', j', add O v' v) :: t
      else (i', j', v') :: coo_accumulate i j v t
  end.

Definition sum_duplicates (m : coo A) : coo A :=
  fold_left (fun acc e => coo_accumulate (fst (fst e)) (snd (fst e)) (snd e) acc) m [].

(** [x, y, dists = find(m)]: the coordinates and values of the nonzero
    entries, kept together as triples [(x, y, dists)]. *)
Definition find (m : csr A) : coo A :=
  filter (fun e => negb (eqb O (snd e) (zero O))) (sum_duplicates (csr_tocoo m)).

(** [dists / adaptive_std[x]] *)
Definition normalize (edges : coo A) (adaptive_std : list A) : coo A :=
  map (fun e => (fst e, div O (snd e) (nth (fst (fst e)) adaptive_std (zero O)))) edges.

(** [np.exp(-dists)] *)
Definition np_exp_neg (edges : coo A) : coo A :=
  map (fun e => (fst e, exp U (neg O (snd e)))) edges.

(** [csr_matrix((vals, (x, y)), shape=[N, N])]: coordinates outside the
    shape are a [ValueError]. *)
Definition csr_matrix_coo (entries : coo A) (N : nat) : result (coo A) :=
  if forallb (fun e => (fst (fst e) <? N) && (snd (fst e) <? N)) entries
  then Ok entries
  else Raise ValueError.

(** The matrix entry at [(i, j)]. *)
Definition entry (m : coo A) (i j : nat) : A :=
  np_sum (map snd (filter (fun e => (fst (fst e) =? i) && (snd (fst e) =? j)) m)).

(** The stored values of row [i]. *)
Definition row_values (m : coo A) (i : nat) : list A :=
  map snd (filter (fun e => fst (fst e) =? i) m).

(** [m.T] *)
Definition transpose (m : coo A) : coo A :=
  map (fun e => (snd (fst e), fst (fst e), snd e)) m.

(** [a + b] *)
Definition sp_add (a b : coo A) : coo A := a ++ b.

(** [a.dot(b)] *)
Definition dot (a b : coo A) : coo A :=
  flat_map (fun e =>
    flat_map (fun f =>
      if snd (fst e) =? fst (fst f)
      then [(fst (fst e), snd (fst f), mul O (snd e) (snd f))]
      else []) b) a.

(** [np.ravel(m.sum(axis=1))] for a matrix with [N] rows. *)
Definition sum_axis1 (N : nat) (m : coo A) : list A :=
  map (fun i => np_sum (row_values m i)) (seq 0 N).

(** [csr_matrix((D, (range(N), range(N))), shape=[N, N])] *)
Definition diag (N : nat) (D : list A) : coo A :=
  map (fun id => (fst id, fst id, snd id)) (combine (seq 0 N) D).

(** [np.ravel(m.max(axis=1).todense())]: the largest stored value of each
    row, and zero as well when the row stores fewer values than it has
    columns.  Rows are taken to hold a column once, as the graphs of
    [kneighbors_graph] do. *)
Definition csr_max_axis1 (m : csr A) : list A :=
  map (fun i =>
         let row := csr_row_data m i in
         match row with
         | [] => zero O
         | v :: t =>
             let mx := fold_left np_maximum t v in
             if List.length row <? snd (csr_shape m)
             then np_maximum mx (zero O)
             else mx
         end)
      (seq 0 (fst (csr_shape m))).

(** Lines 353-362 of [Diffusor.fit_transform]: the kernel and its row
    sums [D]. *)
Definition kernel_construction (alpha : A) (N : nat) (W : coo A) : coo A * list A :=
  let kernel := sp_add W (transpose W) in
  let D := sum_axis1 N kernel in
  if ltb O (zero O) alpha then
    let D := mask_nonzero (fun d => pow U d (neg O alpha)) D in
    let mat := diag N D in
    let kernel := dot (dot mat kernel) mat in
    (kernel, sum_axis1 N kernel)
  else (kernel, D).

(** Lines 363-366: the diffusion operator [T]. *)
Definition diffusion_operator (N : nat) (kernel : coo A) (D : list A) : coo A :=
  let D := mask_nonzero (fun d => div O (one O) d) D in
  dot (diag N D) kernel.

(** [np.real(z)] *)
Definition np_real (z : A * A) : A := fst z.

(** Lines 370-378: real parts, descending order, unit columns.  The 2-d
    array [V] is kept as the list of its columns. *)
Definition eigen_postprocess (pairs : list ((A * A) * list (A * A)))
  : list A * list (list A) :=
  let D := map (fun p => np_real (fst p)) pairs in
  let V := map (fun p => map np_real (snd p)) pairs in
  let inds := rev (np_argsort D) in
  let D := map (fun i => nth i D (zero O)) inds in
  let V := map (fun i => nth i V []) inds in
  let V := map (fun c => map (fun x => div O x (norm c)) c) V in
  (D, V).

End Arrays.

(** The dictionary [res] returned by [Diffusor.fit_transform];
    [EigenVectors] is the list of the columns of the data frame. *)
Record bundle (A : Type) : Type := {
  T : coo A;
  EigenVectors : list (list A);
  EigenValues : list A;
  kernel : coo A
}.

(** ** class NMSlibTransformer *)

Module NMSlibTransformer.

Record t (A : Type) : Type := {
  n_neighbors : Z;
  method : string;
  metric : string;
  n_jobs : Z;
  M : Z;
  efC : Z;
  efS : Z;
  p : option A;
  space : string;
  n_samples_fit_ : option nat;
  nmslib_ : option (nmslib.Index A)
}.

(** The dictionary of [__init__]: metric identifier to nmslib space. *)
Definition space_table : list (string * string) :=
  [ ("sqeuclidean", "l2");
    ("euclidean", "l2");
    ("euclidean_sparse", "l2_sparse");
    ("cosine", "cosinesimil");
    ("cosine_sparse", "cosinesimil_sparse_fast");
    ("l1", "l1");
    ("l1_sparse", "l1_sparse");
    ("linf", "linf");
    ("linf_sparse", "linf_sparse");
    ("angular", "angulardist");
    ("angular_sparse", "angulardist_sparse_fast");
    ("levenshtein", "leven");
    ("hamming", "bit_hamming");
    ("jaccard", "bit_jaccard");
    ("jaccard_sparse", "jaccard_sparse");
    ("jansen-shan", "jsmetrfastapprox") ]%string.

Fixpoint dict_get (d : list (string * string)) (key : string) : result string :=
  match d with
  | [] => Raise KeyError
  | (k, v) :: rest => if String.eqb k key then Ok v else dict_get rest key
  end.

Definition supported (metric : string) : bool :=
  existsb (fun kv => String.eqb (fst kv) metric) space_table.

Section Methods.

Context {A : Type} (O : dtype A) (ext : externals A).

Definition __init__ (n_neighbors : Z) (metric method : string)
           (n_jobs M efC efS : Z) (p : option A) : result (t A) :=
  rbind (dict_get space_table metric) (fun space =>
    Ok {| n_neighbors := n_neighbors; method := method; metric := metric;
          n_jobs := n_jobs; M := M; efC := efC; efS := efS; p := p;
          space := space; n_samples_fit_ := None; nmslib_ := None |}).

(** [fit]: a sample matrix that is not sparse reaches [data.tocsr()],
    which arrays and data frames do not have; the [except SyntaxError]
    around it does not catch the [AttributeError]. *)
Definition fit (self : t A) (data : samples A) : py (t A) :=
  if issparse data then
    let index_time_params :=
      {| nmslib.M := M self; nmslib.indexThreadQty := n_jobs self;
         nmslib.efConstruction := efC self; nmslib.post := 0 |} in
    let ix := nmslib.init A "hnsw" "cosinesimil_sparse_fast" nmslib.SPARSE_VECTOR in
    let ix := nmslib.addDataPointBatch ix data in
    let ix := nmslib.createIndex ix index_time_params in
    (Ok {| n_neighbors := n_neighbors self; method := method self;
           metric := metric self; n_jobs := n_jobs self; M := M self;
           efC := efC self; efS := efS self; p := p self;
           space := space self;
           n_samples_fit_ := Some (shape0 data);
           nmslib_ := Some ix |},
     [ NmslibInit "hnsw" "cosinesimil_sparse_fast";
       NmslibAddDataPointBatch (shape0 data);
       NmslibCreateIndex ])
  else throw AttributeError.

(** [transform]: the graph (or the exception) and the object after the
    call.  [distances **= 2] is numpy's square, [d * d].  The timing
    report before [return] divides by [query_qty = data.shape[0]]. *)
Definition transform (self : t A) (data : samples A) : py (csr A) * t A :=
  match nmslib_ self, n_samples_fit_ self with
  | Some ix, Some n_fit =>
      let n_samples_transform := shape0 data in
      let ix := nmslib.setQueryTimeParams ix (efS self) in
      let k := (n_neighbors self + 1)%Z in
      let self' :=
        {| n_neighbors := k; method := method self;
           metric := metric self; n_jobs := n_jobs self; M := M self;
           efC := efC self; efS := efS self; p := p self;
           space := space self;
           n_samples_fit_ := n_samples_fit_ self;
           nmslib_ := Some ix |} in
      (bind (call (NmslibKnnQueryBatch k)
                  (nmslib_knnQueryBatch ext ix data k (n_jobs self)))
         (fun results =>
            lift
              (rbind (np_vstack (map fst results)) (fun indices =>
               rbind (np_vstack (map snd results)) (fun distances =>
               let distances :=
                 if String.eqb (metric self) "sqeuclidean"
                 then map (map (fun d => mul O d d)) distances
                 else distances in
               rbind (np_arange 0 (Z.of_nat n_samples_transform * k + 1) k)
                 (fun indptr =>
               rbind (csr_matrix (np_ravel distances) (np_ravel indices) indptr
                                 (n_samples_transform, n_fit))
                 (fun kneighbors_graph =>
               let query_qty := n_samples_transform in
               if query_qty =? 0 then Raise ZeroDivisionError
               else Ok kneighbors_graph)))))),
       self')
  | _, _ => (throw AttributeError, self)
  end.

End Methods.

End NMSlibTransformer.

(** ** class multiscale *)

Module multiscale.

Record t (A : Type) : Type := {
  n_eigs : option Z;
  sensitivity : A;
  plot : bool
}.

Definition set_n_eigs {A : Type} (self : t A) (m : Z) : t A :=
  {| n_eigs := Some m; sensitivity := sensitivity self; plot := plot self |}.

Section Methods.

Context {A : Type} (O : dtype A) (ext : externals A).

(** [fit]: [round(kneedle.knee)] of a knee that is [None] is a
    [TypeError]. *)
Definition fit (self : t A) (res : bundle A) : result (t A) :=
  match n_eigs self with
  | Some _ =>
      if plot self
      then rbind (kneed_knee ext (EigenValues res) (sensitivity self))
                 (fun _ => Ok self)
      else Ok self
  | None =>
      rbind (kneed_knee ext (EigenValues res) (sensitivity self))
            (fun knee =>
               match knee with
               | Some k => Ok (set_n_eigs self k)
               | None => Raise TypeError
               end)
  end.

(** Lines 249-254: the embedding for a given [n_eigs]. *)
Definition scale (res : bundle A) (n_eigs : Z) : result (list (list A)) :=
  let use_eigs := py_range 1 n_eigs in
  rbind (result_mapM
           (fun j => match nth_error (EigenValues res) (Z.to_nat j) with
                     | Some v => Ok v
                     | None => Raise KeyError
                     end) use_eigs) (fun eig_vals =>
  rbind (result_mapM
           (fun j => match nth_error (EigenVectors res) (Z.to_nat j) with
                     | Some c => Ok c
                     | None => Raise IndexError
                     end) use_eigs) (fun cols =>
  let factors := map (fun l => div O l (sub O (one O) l)) eig_vals in
  Ok (map (fun cf => map (fun v => mul O v (snd cf)) (fst cf))
          (combine cols factors)))).

(** Lines 242-246: the dimension chosen from the largest eigenvalue gap
    when [n_eigs] is [None]; each assignment to [self.n_eigs] is kept. *)
Definition select (self : t A) (res : bundle A) : result Z * t A :=
  match n_eigs self with
  | Some m => (Ok m, self)
  | None =>
      let vals := EigenValues res in
      let gaps := map (fun ab => sub O (fst ab) (snd ab))
                      (combine (py_slice vals 0 (List.length vals - 1))
                               (skipn 1 vals)) in
      match py_index (np_argsort O gaps) (-1) with
      | Raise e => (Raise e, self)
      | Ok i1 =>
          let m1 := (Z.of_nat i1 + 1)%Z in
          if (m1 <? 3)%Z then
            match py_index (np_argsort O gaps) (-2) with
            | Raise e => (Raise e, set_n_eigs self m1)
            | Ok i2 =>
                let m2 := (Z.of_nat i2 + 2)%Z in
                (Ok m2, set_n_eigs self m2)
            end
          else (Ok m1, set_n_eigs self m1)
      end
  end.

Definition transform (self : t A) (res : bundle A)
  : result (list (list A)) * t A :=
  match select self res with
  | (Ok m, self') => (scale res m, self')
  | (Raise e, self') => (Raise e, self')
  end.

End Methods.

End multiscale.

(** ** class Diffusor *)

Module Diffusor.

Record t (A : Type) : Type := {
  n_components : Z;
  n_neighbors : Z;
  alpha : A;
  n_jobs : Z;
  ann : bool;
  ann_dist : string;
  M : Z;
  efC : Z;
  efS : Z;
  knn_dist : string;
  plot_knee : option bool
}.

Definition set_plot_knee {A : Type} (self : t A) (b : bool) : t A :=
  {| n_components := n_components self; n_neighbors := n_neighbors self;
     alpha := alpha self; n_jobs := n_jobs self; ann := ann self;
     ann_dist := ann_dist self; M := M self; efC := efC self;
     efS := efS self; knn_dist := knn_dist self; plot_knee := Some b |}.

Definition set_knn_dist {A : Type} (self : t A) (metric : string) : t A :=
  {| n_components := n_components self; n_neighbors := n_neighbors self;
     alpha := alpha self; n_jobs := n_jobs self; ann := ann self;
     ann_dist := ann_dist self; M := M self; efC := efC self;
     efS := efS self; knn_dist := metric; plot_knee := plot_knee self |}.

(** [int(np.floor(self.n_neighbors / 2))] *)
Definition adaptive_k {A : Type} (self : t A) : Z := (n_neighbors self / 2)%Z.

Section Methods.

Context {A : Type} (O : dtype A) (U : ufuncs A) (ext : externals A).

(** Lines 327-331: the bandwidths of the approximate branch. *)
Definition adaptive_std_ann (self : t A) (akNN : csr A) (N : nat)
  : result (list A) :=
  result_mapM
    (fun i => py_index (np_sort O (csr_row_data akNN i)) (adaptive_k self - 1))
    (seq 0 N).

(** Lines 316-324: the approximate neighbour graph. *)
Definition ann_graph (self : t A) (data : samples A) : py (csr A) :=
  (anbrs <- lift (NMSlibTransformer.__init__
                   (n_neighbors self) (ann_dist self) "hnsw" (n_jobs self)
                   (M self) (efC self) (efS self) None) ;;
   anbrs <- NMSlibTransformer.fit anbrs data ;;
   fst (NMSlibTransformer.transform O ext anbrs data))%py.

(** Lines 340-342: the exact neighbour graph under [knn_dist]. *)
Definition exact_graph (self : t A) (data : samples A) : py (csr A) :=
  call (SklearnKneighborsGraph (n_neighbors self) (knn_dist self))
       (sklearn_kneighbors_graph ext (n_neighbors self) (knn_dist self)
                                 (n_jobs self) data).

(** Lines 344-347: the bandwidths of the exact branch. *)
Definition adaptive_std_exact (self : t A) (data : samples A) : py (list A) :=
  (g <- call (SklearnKneighborsGraph (adaptive_k self) "euclidean")
             (sklearn_kneighbors_graph ext (adaptive_k self) "euclidean"
                                       (n_jobs self) data) ;;
   ret (csr_max_axis1 O g))%py.

(** Lines 333-336 and 349-352: the weights [W] from a graph and its
    bandwidths. *)
Definition weights (graph : csr A) (adaptive_std : list A) (N : nat)
  : result (coo A) :=
  csr_matrix_coo (np_exp_neg O U (normalize O (find O graph) adaptive_std)) N.

(** Lines 314-352. *)
Definition neighbor_stage (self : t A) (data : samples A) (N : nat) : py (coo A) :=
  if ann self then
    (akNN <- ann_graph self data ;;
     adaptive_std <- lift (adaptive_std_ann self akNN N) ;;
     lift (weights akNN adaptive_std N))%py
  else
    (knn <- exact_graph self data ;;
     adaptive_std <- adaptive_std_exact self data ;;
     lift (weights knn adaptive_std N))%py.

(** [fit_transform]: the bundle (or the exception) with the trace of
    the run, and the object after the call.  The closing timing report
    divides by [N]. *)
Definition fit_transform (self : t A) (data : samples A) (plot_knee : bool)
  : py (bundle A) * t A :=
  let self := set_plot_knee self plot_knee in
  let N := shape0 data in
  ((W <- neighbor_stage self data N ;;
    let KD := kernel_construction O U (alpha self) N W in
    let T := diffusion_operator O N (fst KD) (snd KD) in
    pairs <- call (ScipyEigs (n_components self))
                  (scipy_eigs ext T (n_components self)) ;;
    let DV := eigen_postprocess O pairs in
    if N =? 0 then throw ZeroDivisionError
    else ret {| T := T; EigenVectors := snd DV; EigenValues := fst DV;
                kernel := fst KD |})%py,
   self).

End Methods.

End Diffusor.

(** ** The two scalar types *)

(** IEEE 754 binary64, the [float64] of numpy.  Division by zero and the
    other exceptional cases return infinities and NaN; they do not raise. *)
Definition binary64 : dtype float :=
  {| zero := 0%float;
     one := 1%float;
     add := PrimFloat.add;
     sub := PrimFloat.sub;
     mul := PrimFloat.mul;
     div := PrimFloat.div;
     neg := PrimFloat.opp;
     sqrt := PrimFloat.sqrt;
     eqb := PrimFloat.eqb;
     ltb := PrimFloat.ltb;
     leb := PrimFloat.leb |}.

Definition Req_bool (x y : R) : bool := if Req_dec_T x y then true else false.
Definition Rlt_bool (x y : R) : bool := if Rlt_dec x y then true else false.
Definition Rle_bool (x y : R) : bool := if Rle_dec x y then true else false.

(** Exact real arithmetic: no rounding, no overflow, no infinities.
    [div] is the division of the real numbers where the divisor is not
    zero ([x / 0] is the library's [x * / 0], which is not what numpy
    computes); what binary64 does at a zero divisor, at an overflow and
    under rounding is read off [binary64], never off this table. *)
Definition real : dtype R :=
  {| zero := 0%R;
     one := 1%R;
     add := Rplus;
     sub := Rminus;
     mul := Rmult;
     div := Rdiv;
     neg := Ropp;
     sqrt := R_sqrt.sqrt;
     eqb := Req_bool;
     ltb := Rlt_bool;
     leb := Rle_bool |}.

(** [x ** y] on the reals: [exp (y * ln x)] for a positive base, and
    [0 ** y] for [y >= 0].  A negative base, or zero to a negative power,
    has no real value in numpy either (nan, inf); the pipeline raises only
    positive row sums to a power. *)
Definition Rnp_power (x y : R) : R :=
  if Rlt_dec 0 x then Rpower x y
  else if Req_dec_T y 0 then 1%R else 0%R.

Definition real_ufuncs : ufuncs R :=
  {| exp := Rtrigo_def.exp; pow := Rnp_power |}.

(** ** Reading the specification

    Two notions the specification words in its own way, next to the code's. *)

(** The bandwidth as section 4.2 of the specification words it: "sort that
    row's nonzero distances ascending and take the adaptive_k-th smallest
    (1-indexed)". *)
Definition spec_adaptive_bandwidth {A : Type} (O : dtype A) (akNN : csr A)
           (N : nat) (adaptive_k : Z) : result (list A) :=
  result_mapM
    (fun i =>
       py_index (np_sort O (filter (fun d => negb (eqb O d (zero O)))
                                   (csr_row_data akNN i)))
                (adaptive_k - 1))
    (seq 0 N).

(** [v] is the [k]-th smallest element of [l] (1-indexed, repetitions
    counted): it occurs in [l], fewer than [k] elements are below it and at
    least [k] are not above it. *)
Definition kth_smallest (k : nat) (l : list R) (v : R) : Prop :=
  In v l /\
  List.length (filter (fun x => Rlt_bool x v) l) < k /\
  k <= List.length (filter (fun x => Rle_bool x v) l).

(** ** Sample inputs *)

Local Open Scope float_scope.

(** Five points on a line at 0, 1, 2, 3, 4 and, for [n_neighbors = 4], the
    graph [NMSlibTransformer.transform] returns: per row the point itself
    and its four neighbours, nearest first. *)
Definition line_graph : csr float :=
  {| csr_data := [0; 1; 2; 3; 4;  0; 1; 1; 2; 3;  0; 1; 1; 2; 2;
                  0; 1; 1; 2; 3;  0; 1; 2; 3; 4];
     csr_indices := [0; 1; 2; 3; 4;  1; 0; 2; 3; 4;  2; 1; 3; 0; 4;
                     3; 2; 4; 1; 0;  4; 3; 2; 1; 0]%nat;
     csr_indptr := [0; 5; 10; 15; 20; 25]%nat;
     csr_shape := (5, 5)%nat |}.

(** Five points at 0, 0, 1, 2, 3: point 1 duplicates point 0. *)
Definition duplicate_graph : csr float :=
  {| csr_data := [0; 0; 1; 2; 3;  0; 0; 1; 2; 3;  0; 1; 1; 1; 2;
                  0; 1; 1; 2; 2;  0; 1; 2; 3; 3];
     csr_indices := [0; 1; 2; 3; 4;  1; 0; 2; 3; 4;  2; 0; 1; 3; 4;
                     3; 2; 4; 0; 1;  4; 3; 2; 0; 1]%nat;
     csr_indptr := [0; 5; 10; 15; 20; 25]%nat;
     csr_shape := (5, 5)%nat |}.

(** [Diffusor(n_components=n, n_neighbors=4, ann=a)], the other options at
    their defaults. *)
Definition diffusor4 (n_components : Z) (a : bool) : Diffusor.t float :=
  {| Diffusor.n_components := n_components;
     Diffusor.n_neighbors := 4;
     Diffusor.alpha := 1;
     Diffusor.n_jobs := -2;
     Diffusor.ann := a;
     Diffusor.ann_dist := "angular_sparse";
     Diffusor.M := 30;
     Diffusor.efC := 100;
     Diffusor.efS := 100;
     Diffusor.knn_dist := "euclidean";
     Diffusor.plot_knee := None |}.

Local Close Scope float_scope.

(** ** Stand-ins for the external libraries

    Deterministic collaborators that answer from a table, for running the
    estimators on the sample inputs. *)

Section Tables.

Context {A : Type} (O : dtype A).

(** A neighbour table: per point, the ids and distances of all points,
    nearest first (the point itself leads its row). *)
Definition neighbor_table : Type := list (list nat * list A).

(** nmslib answering a batch query with the [k] nearest of each row. *)
Definition table_knnQueryBatch (table : neighbor_table)
           (ix : nmslib.Index A) (data : samples A) (k num_threads : Z)
  : result (list (list nat * list A)) :=
  Ok (map (fun r => (firstn (Z.to_nat k) (fst r), firstn (Z.to_nat k) (snd r)))
          table).

(** scikit-learn's [kneighbors_graph]: [n_neighbors] must be positive and
    at most the number of samples. *)
Definition table_kneighbors_graph (table : neighbor_table)
           (n_neighbors : Z) (metric : string) (n_jobs : Z) (data : samples A)
  : result (csr A) :=
  let n := List.length table in
  if ((n_neighbors <=? 0) || (Z.of_nat n <? n_neighbors))%Z
  then Raise ValueError
  else
    let k := Z.to_nat n_neighbors in
    Ok {| csr_data := concat (map (fun r => firstn k (snd r)) table);
          csr_indices := concat (map (fun r => firstn k (fst r)) table);
          csr_indptr := map (fun i => i * k) (seq 0 (S n));
          csr_shape := (n, n) |}.

(** scipy's [eigs] on a sparse operator of order [N]: [k >= N - 1] is a
    [TypeError]; otherwise the first [k] of the given eigenpairs. *)
Definition table_eigs (N : nat) (pairs : list ((A * A) * list (A * A)))
           (T : coo A) (k : Z) : result (list ((A * A) * list (A * A))) :=
  if (Z.of_nat N - 1 <=? k)%Z then Raise TypeError
  else Ok (firstn (Z.to_nat k) pairs).

Definition table_externals (table : neighbor_table)
           (pairs : list ((A * A) * list (A * A))) : externals A :=
  {| nmslib_knnQueryBatch := table_knnQueryBatch table;
     sklearn_kneighbors_graph := table_kneighbors_graph table;
     scipy_eigs := table_eigs (List.length table) pairs;
     kneed_knee := fun _ _ => Ok None |}.

End Tables.

Local Open Scope float_scope.

(** The neighbour table of the five points 0, 1, 2, 3, 4 on a line. *)
Definition line_table : neighbor_table (A := float) :=
  [ ([0; 1; 2; 3; 4]%nat, [0; 1; 2; 3; 4]);
    ([1; 0; 2; 3; 4]%nat, [0; 1; 1; 2; 3]);
    ([2; 1; 3; 0; 4]%nat, [0; 1; 1; 2; 2]);
    ([3; 2; 4; 1; 0]%nat, [0; 1; 1; 2; 3]);
    ([4; 3; 2; 1; 0]%nat, [0; 1; 2; 3; 4]) ].

(** The five points as a sparse 5 x 1 sample matrix. *)
Definition line_points : samples float :=
  Sparse {| csr_data := [1; 2; 3; 4];
            csr_indices := [0; 0; 0; 0]%nat;
            csr_indptr := [0; 0; 1; 2; 3; 4]%nat;
            csr_shape := (5, 1)%nat |}.

Definition line_externals : externals float := table_externals line_table [].

(** The five points 0, 0, 1, 2, 3 (point 1 duplicates point 0): neighbour
    table and sparse 5 x 1 sample matrix. *)
Definition duplicate_table : neighbor_table (A := float) :=
  [ ([0; 1; 2; 3; 4]%nat, [0; 0; 1; 2; 3]);
    ([1; 0; 2; 3; 4]%nat, [0; 0; 1; 2; 3]);
    ([2; 0; 1; 3; 4]%nat, [0; 1; 1; 1; 2]);
    ([3; 2; 4; 0; 1]%nat, [0; 1; 1; 2; 2]);
    ([4; 3; 2; 0; 1]%nat, [0; 1; 2; 3; 3]) ].

Definition duplicate_points : samples float :=
  Sparse {| csr_data := [1; 2; 3];
            csr_indices := [0; 0; 0]%nat;
            csr_indptr := [0; 0; 0; 1; 2; 3]%nat;
            csr_shape := (5, 1)%nat |}.

Definition duplicate_externals : externals float :=
  table_externals duplicate_table [].




(** The five points on a line with an eigensolver that knows three pairs,
    given in ascending order of the eigenvalue. *)
Definition line_spectrum_externals : externals float :=
  table_externals line_table
    [ ((0.25, 0), [(1, 0); (-1, 0); (0, 0); (1, 0); (-1, 0)]);
      ((0.5, 0), [(2, 0); (1, 0); (0, 0); (-1, 0); (-2, 0)]);
      ((1, 0), [(1, 0); (1, 0); (1, 0); (1, 0); (1, 0)]) ].

(** ** The C library at the sample inputs

    [np.exp] and the power operator on float64 go through functions that
    the primitive floats of Rocq do not have.  For running the pipeline on
    the sample inputs in binary64, [exp] is the table of the values of the
    C library at the arguments these inputs meet, and [**] is given at the
    one exponent numpy evaluates itself: [x ** -1] is [np.reciprocal(x)],
    that is [1 / x].  Outside the table both are NaN; nothing is proved
    from such a value. *)
Definition libm_exp_table : list (float * float) :=
  [ (-1, 0x1.78b56362cef38p-2);
    (-2, 0x1.152aaa3bf81ccp-3);
    (-3, 0x1.97db0ccceb0afp-5);
    (-4, 0x1.2c155b8213cf4p-6);
    (-720, 0x0.0000993b4dc95p-1022);
    (-721, 0x0.0000385eeb2abp-1022);
    (-722, 0x0.000014bcd6996p-1022);
    (neg_infinity, 0) ].

Definition table_exp (x : float) : float :=
  match List.find (fun p => PrimFloat.eqb (fst p) x) libm_exp_table with
  | Some p => snd p
  | None => nan
  end.

Definition sample_ufuncs : ufuncs float :=
  {| exp := table_exp;
     pow := fun x y => if PrimFloat.eqb y (-1) then 1 / x else nan |}.



(** [NMSlibTransformer(n_neighbors=2, metric='cosine_sparse', n_jobs=1)
    .fit(line_points)] *)
Definition fitted_transformer : NMSlibTransformer.t float :=
  {| NMSlibTransformer.n_neighbors := 2;
     NMSlibTransformer.method := "hnsw";
     NMSlibTransformer.metric := "cosine_sparse";
     NMSlibTransformer.n_jobs := 1;
     NMSlibTransformer.M := 30;
     NMSlibTransformer.efC := 100;
     NMSlibTransformer.efS := 100;
     NMSlibTransformer.p := None;
     NMSlibTransformer.space := "cosinesimil_sparse_fast";
     NMSlibTransformer.n_samples_fit_ := Some 5%nat;
     NMSlibTransformer.nmslib_ :=
       Some {| nmslib.method := "hnsw";
               nmslib.space := "cosinesimil_sparse_fast";
               nmslib.data_type := nmslib.SPARSE_VECTOR;
               nmslib.points := Some line_points;
               nmslib.index_params :=
                 Some {| nmslib.M := 30; nmslib.indexThreadQty := 1;
                         nmslib.efConstruction := 100; nmslib.post := 0 |};
               nmslib.efSearch := None |} |}.

(** A result bundle with four eigenpairs over two samples. *)
Definition small_bundle : bundle float :=
  {| T := [];
     EigenVectors := [[1; 1]; [1; -1]; [0.5; 0.25]; [2; 4]];
     EigenValues := [1; 0.5; 0.25; 0.125];
     kernel := [] |}.

(** [multiscale(n_eigs=m)] *)
Definition multiscale_with (m : option Z) : multiscale.t float :=
  {| multiscale.n_eigs := m; multiscale.sensitivity := 1; multiscale.plot := false |}.

Local Close Scope float_scope.

Definition set_n_components {A : Type} (self : Diffusor.t A) (c : Z) : Diffusor.t A :=
  {| Diffusor.n_components := c;
     Diffusor.n_neighbors := Diffusor.n_neighbors self;
     Diffusor.alpha := Diffusor.alpha self;
     Diffusor.n_jobs := Diffusor.n_jobs self;
     Diffusor.ann := Diffusor.ann self;
     Diffusor.ann_dist := Diffusor.ann_dist self;
     Diffusor.M := Diffusor.M self;
     Diffusor.efC := Diffusor.efC self;
     Diffusor.efS := Diffusor.efS self;
     Diffusor.knn_dist := Diffusor.knn_dist self;
     Diffusor.plot_knee := Diffusor.plot_knee self |}.

Local Open Scope R_scope.

(** The five points 0, 1, 2, 3, 4 in exact arithmetic: the dense sample
    matrix, the neighbour table, and
    [Diffusor(n_components=c, n_neighbors=k, ann=False, knn_dist=metric)]. *)
Definition real_line_points : samples R := Dense [[0]; [1]; [2]; [3]; [4]].

Definition real_line_table : neighbor_table (A := R) :=
  [ ([0; 1; 2; 3; 4]%nat, [0; 1; 2; 3; 4]);
    ([1; 0; 2; 3; 4]%nat, [0; 1; 1; 2; 3]);
    ([2; 1; 3; 0; 4]%nat, [0; 1; 1; 2; 2]);
    ([3; 2; 4; 1; 0]%nat, [0; 1; 1; 2; 3]);
    ([4; 3; 2; 1; 0]%nat, [0; 1; 2; 3; 4]) ].

Definition real_line_externals : externals R := table_externals real_line_table [].

(** Three points on a line at 0, 1, 3. *)
Definition three_points : samples R := Dense [[0]; [1]; [3]].

Definition three_table : neighbor_table (A := R) :=
  [ ([0; 1; 2]%nat, [0; 1; 3]);
    ([1; 0; 2]%nat, [0; 1; 2]);
    ([2; 1; 0]%nat, [0; 2; 3]) ].

Definition three_externals : externals R := table_externals three_table [].

Definition exact_diffusor (c k : Z) (metric : string) : Diffusor.t R :=
  {| Diffusor.n_components := c;
     Diffusor.n_neighbors := k;
     Diffusor.alpha := 1;
     Diffusor.n_jobs := 1;
     Diffusor.ann := false;
     Diffusor.ann_dist := "angular_sparse";
     Diffusor.M := 30;
     Diffusor.efC := 100;
     Diffusor.efS := 100;
     Diffusor.knn_dist := metric;
     Diffusor.plot_knee := None |}.

Local Close Scope R_scope.

(** ** Auxiliary notions for the proofs *)

(** The stored values of a matrix selected by row [i] and a test on the
    column; [row_values] and [entry] are the two instances. *)
Definition pick (i : nat) (q : nat -> bool) (m : coo R) : list R :=
  map snd (filter (fun e => (fst (fst e) =? i) && q (snd (fst e))) m).

(** Every stored value of the matrix is non-negative. *)
Definition nonneg_values (m : coo R) : Prop := Forall (fun e => (0 <= snd e)%R) m.

(** Settles the comparisons of real constants a concrete run meets. *)
Ltac decide_reals :=
  repeat match goal with
         | |- context [Req_dec_T ?a ?b] => destruct (Req_dec_T a b); try lra
         | |- context [Rle_dec ?a ?b] => destruct (Rle_dec a b); try lra
         | |- context [Rlt_dec ?a ?b] => destruct (Rlt_dec a b); try lra
         end.

(** ** Further sample inputs *)

(** [Diffusor(n_components=c, n_neighbors=k, ann=True, ann_dist=metric)]
    in exact arithmetic. *)
Definition ann_diffusor (c k : Z) (metric : string) : Diffusor.t R :=
  {| Diffusor.n_components := c;
     Diffusor.n_neighbors := k;
     Diffusor.alpha := 1%R;
     Diffusor.n_jobs := 1;
     Diffusor.ann := true;
     Diffusor.ann_dist := metric;
     Diffusor.M := 30;
     Diffusor.efC := 100;
     Diffusor.efS := 100;
     Diffusor.knn_dist := "euclidean";
     Diffusor.plot_knee := None |}.

(** [multiscale(n_eigs=m)] in exact arithmetic. *)
Definition real_multiscale_with (m : option Z) : multiscale.t R :=
  {| multiscale.n_eigs := m; multiscale.sensitivity := 1%R; multiscale.plot := false |}.

(** A bundle whose eigenvalues halve at every step: the gaps are 4, 2, 1. *)
Definition ladder_bundle : bundle R :=
  {| T := []; EigenVectors := [[1%R]; [1%R]; [1%R]; [1%R]];
     EigenValues := [8%R; 4%R; 2%R; 1%R]; kernel := [] |}.

(** ** [NMSlibTransformer.test_efficiency]

    The method compares the approximate neighbours with those of an exact
    search and prints the recall; the model returns the printed recall, in
    exact arithmetic. *)

(** The two further collaborators of [test_efficiency]:
    - [train_test_split data test_size], whose two parts the method does
      not use;
    - [sklearn_kneighbors n_neighbors metric algorithm data]:
      [NearestNeighbors(n_neighbors, metric, algorithm).fit(data)
         .kneighbors(data)], the pair of the distances and the ids. *)
Record efficiency_externals : Type := {
  train_test_split : samples R -> R -> result unit;
  sklearn_kneighbors :
    Z -> string -> string -> samples R -> result (list (list R) * list (list nat))
}.

(** [set(ids)] *)
Definition py_set (ids : list nat) : list nat := nodup Nat.eq_dec ids.

(** [a.intersection(b)] *)
Definition set_intersection (a b : list nat) : list nat :=
  filter (fun x => existsb (Nat.eqb x) b) a.

(** Lines 185-189: the loop over the query rows, from the value of
    [recall] before row [i]. *)
Fixpoint recall_loop (knn_ids : list (list nat))
         (ann_results : list (list nat * list R)) (rows : list nat) (recall : R)
  : result R :=
  match rows with
  | [] => Ok recall
  | i :: rest =>
      rbind (py_index knn_ids (Z.of_nat i)) (fun ids =>
      let correct_set := py_set ids in
      rbind (py_index ann_results (Z.of_nat i)) (fun found =>
      let ret_set := py_set (fst found) in
      if (List.length correct_set =? 0)%nat then Raise ZeroDivisionError
      else
        recall_loop knn_ids ann_results rest
          (recall
           + INR (List.length (set_intersection correct_set ret_set))
             / INR (List.length correct_set))%R))
  end.

(** [test_efficiency]: the recall it prints (or the exception), and the
    object after the call with the attribute [data_use] it stores.  The
    timing report after the batch query divides by the number of rows. *)
Definition test_efficiency (ext : externals R) (eff : efficiency_externals)
           (self : NMSlibTransformer.t R) (data : samples R) (data_use : R)
  : result R * (NMSlibTransformer.t R * R) :=
  let query_qty := shape0 data in
  match train_test_split eff data data_use with
  | Raise e => (Raise e, (self, data_use))
  | Ok _ =>
      match NMSlibTransformer.nmslib_ self with
      | None => (Raise AttributeError, (self, data_use))
      | Some ix =>
          let ix := nmslib.setQueryTimeParams ix (NMSlibTransformer.efS self) in
          let k := (NMSlibTransformer.n_neighbors self + 1)%Z in
          let self' :=
            {| NMSlibTransformer.n_neighbors := k;
               NMSlibTransformer.method := NMSlibTransformer.method self;
               NMSlibTransformer.metric := NMSlibTransformer.metric self;
               NMSlibTransformer.n_jobs := NMSlibTransformer.n_jobs self;
               NMSlibTransformer.M := NMSlibTransformer.M self;
               NMSlibTransformer.efC := NMSlibTransformer.efC self;
               NMSlibTransformer.efS := NMSlibTransformer.efS self;
               NMSlibTransformer.p := NMSlibTransformer.p self;
               NMSlibTransformer.space := NMSlibTransformer.space self;
               NMSlibTransformer.n_samples_fit_ :=
                 NMSlibTransformer.n_samples_fit_ self;
               NMSlibTransformer.nmslib_ := Some ix |} in
          (rbind (nmslib_knnQueryBatch ext ix data k
                                       (NMSlibTransformer.n_jobs self))
             (fun ann_results =>
                if (query_qty =? 0)%nat then Raise ZeroDivisionError
                else
                  rbind (sklearn_kneighbors eff k "cosine" "brute" data)
                    (fun knn =>
                  rbind (recall_loop (snd knn) ann_results (seq 0 query_qty) 0%R)
                    (fun recall => Ok (recall / INR query_qty)%R))),
           (self', data_use))
      end
  end.

(** The share of the exact neighbours of row [i] that the approximate
    search found. *)
Definition row_recall (knn_ids : list (list nat))
           (ann_results : list (list nat * list R)) (i : nat) : R :=
  let correct_set := py_set (nth i knn_ids []) in
  let ret_set := py_set (fst (nth i ann_results ([], []))) in
  (INR (List.length (set_intersection correct_set ret_set))
   / INR (List.length correct_set))%R.

(** An exact search answering from a table, and a split that succeeds. *)
Definition table_efficiency (table : neighbor_table (A := R)) : efficiency_externals :=
  {| train_test_split := fun _ _ => Ok tt;
     sklearn_kneighbors := fun k _ _ _ =>
       Ok (map (fun r => firstn (Z.to_nat k) (snd r)) table,
           map (fun r => firstn (Z.to_nat k) (fst r)) table) |}.

(** [NMSlibTransformer(n_neighbors=1, metric='cosine_sparse', n_jobs=1)]
    after [fit] on three samples. *)
Definition real_fitted_transformer : NMSlibTransformer.t R :=
  {| NMSlibTransformer.n_neighbors := 1;
     NMSlibTransformer.method := "hnsw";
     NMSlibTransformer.metric := "cosine_sparse";
     NMSlibTransformer.n_jobs := 1;
     NMSlibTransformer.M := 30;
     NMSlibTransformer.efC := 100;
     NMSlibTransformer.efS := 100;
     NMSlibTransformer.p := None;
     NMSlibTransformer.space := "cosinesimil_sparse_fast";
     NMSlibTransformer.n_samples_fit_ := Some 3%nat;
     NMSlibTransformer.nmslib_ :=
       Some {| nmslib.method := "hnsw";
               nmslib.space := "cosinesimil_sparse_fast";
               nmslib.data_type := nmslib.SPARSE_VECTOR;
               nmslib.points := Some three_points;
               nmslib.index_params :=
                 Some {| nmslib.M := 30; nmslib.indexThreadQty := 1;
                         nmslib.efConstruction := 100; nmslib.post := 0 |};
               nmslib.efSearch := None |} |}.

(** An approximate search that misses the second neighbour of the last
    point. *)
Definition lossy_table : neighbor_table (A := R) :=
  [ ([0; 1; 2]%nat, [0; 1; 3]%R);
    ([1; 0; 2]%nat, [0; 1; 2]%R);
    ([2; 0; 1]%nat, [0; 3; 2]%R) ].

(** ** Eigenpairs

    The product of a sparse matrix with [N] rows and a vector, for saying
    that a column is an eigenvector of [T]. *)
Definition matvec (N : nat) (m : coo R) (v : list R) : list R :=
  map (fun i =>
         np_sum real
           (map (fun e => (snd e * nth (snd (fst e)) v 0)%R)
                (filter (fun e => fst (fst e) =? i) m)))
      (seq 0 N).

(** [T v = lambda v] *)
Definition eigenpair (N : nat) (m : coo R) (lambda : R) (v : list R) : Prop :=
  matvec N m v = map (Rmult lambda) v.

(** The averaging matrix on two points and its two eigenpairs, as an
    eigensolver returns them in ascending order. *)
Definition averaging_matrix : coo R :=
  [ (0, 0, (1 / 2)%R); (0, 1, (1 / 2)%R);
    (1, 0, (1 / 2)%R); (1, 1, (1 / 2)%R) ].

Definition averaging_pairs : list ((R * R) * list (R * R)) :=
  [ ((0%R, 0%R), [(1%R, 0%R); ((-1)%R, 0%R)]);
    ((1%R, 0%R), [(1%R, 0%R); (1%R, 0%R)]) ].

(** * Properties *)

Unset Implicit Arguments.

(** ** Sorting *)

Section SortBy.

Context {X : Type} (le : X -> X -> bool).

Lemma insert_by_perm (x : X) (l : list X) :
  Permutation (insert_by le x l) (x :: l).
Proof.
  induction l as [|y t IH]; simpl.
  - apply Permutation_refl.
  - destruct (le x y).
    + apply Permutation_refl.
    + eapply perm_trans; [apply perm_skip, IH | apply perm_swap].
Qed.

Lemma sort_by_perm (l : list X) : Permutation (sort_by le l) l.
Proof.
  induction l as [|x t IH]; simpl.
  - constructor.
  - eapply perm_trans; [apply insert_by_perm | apply perm_skip, IH].
Qed.

Lemma sort_by_length (l : list X) : List.length (sort_by le l) = List.length l.
Proof. apply Permutation_length, sort_by_perm. Qed.

Hypothesis le_total : forall a b, le a b = true \/ le b a = true.
Hypothesis le_trans : forall a b c, le a b = true -> le b c = true -> le a c = true.

Let leP (a b : X) : Prop := le a b = true.

Lemma insert_by_sorted (x : X) (l : list X) :
  StronglySorted leP l -> StronglySorted leP (insert_by le x l).
Proof.
  induction 1 as [|y t Hs IH Hy]; simpl.
  - repeat constructor.
  - destruct (le x y) eqn:E.
    + constructor; [constructor; assumption|].
      constructor; [exact E|].
      rewrite Forall_forall in *. intros z Hz.
      apply le_trans with y; [exact E | apply Hy; exact Hz].
    + constructor; [exact IH|].
      rewrite Forall_forall in *. intros z Hz.
      apply (Permutation_in _ (insert_by_perm x t)) in Hz.
      destruct Hz as [<-|Hz]; [|auto].
      destruct (le_total x y) as [H|H]; [congruence|exact H].
Qed.

Lemma sort_by_sorted (l : list X) : StronglySorted leP (sort_by le l).
Proof.
  induction l as [|x t IH]; simpl.
  - constructor.
  - apply insert_by_sorted, IH.
Qed.

End SortBy.

(** ** The order of the reals as booleans *)

Lemma Rle_bool_iff (x y : R) : Rle_bool x y = true <-> (x <= y)%R.
Proof. unfold Rle_bool. destruct (Rle_dec x y); split; intros; try easy; lra. Qed.

Lemma Rlt_bool_iff (x y : R) : Rlt_bool x y = true <-> (x < y)%R.
Proof. unfold Rlt_bool. destruct (Rlt_dec x y); split; intros; try easy; lra. Qed.

Lemma Req_bool_iff (x y : R) : Req_bool x y = true <-> x = y.
Proof. unfold Req_bool. destruct (Req_dec_T x y); split; intros; try easy. Qed.

Lemma Rle_bool_total (a b : R) : Rle_bool a b = true \/ Rle_bool b a = true.
Proof. rewrite !Rle_bool_iff. lra. Qed.

Lemma Rle_bool_trans (a b c : R) :
  Rle_bool a b = true -> Rle_bool b c = true -> Rle_bool a c = true.
Proof. rewrite !Rle_bool_iff. lra. Qed.

Lemma np_sort_real_sorted (l : list R) : StronglySorted Rle (np_sort real l).
Proof.
  unfold np_sort. simpl.
  pose proof (sort_by_sorted Rle_bool Rle_bool_total Rle_bool_trans l) as H.
  induction H as [|x t Hs IH Hx]; constructor; auto.
  rewrite Forall_forall in *. intros z Hz. apply Rle_bool_iff; auto.
Qed.

Lemma np_sort_perm {A : Type} (O : dtype A) (l : list A) :
  Permutation (np_sort O l) l.
Proof. apply sort_by_perm. Qed.

(** ** Helpers on results and lists *)

Lemma bind_trace_head {X Y : Type} (m : py X) (f : X -> py Y)
      (e : event) (tr : list event) :
  snd m = e :: tr -> exists tr', snd (bind m f) = e :: tr'.
Proof.
  destruct m as [[x|err] t]; simpl; intros ->.
  - destruct (f x) as [r t']. simpl. eexists; reflexivity.
  - eexists; reflexivity.
Qed.

Lemma result_mapM_Forall2 {X Y : Type} (f : X -> result Y) (P : X -> Y -> Prop)
      (l : list X) :
  (forall x, In x l -> exists y, f x = Ok y /\ P x y) ->
  exists ys, result_mapM f l = Ok ys /\ Forall2 P l ys.
Proof.
  induction l as [|x t IH]; intros H; simpl.
  - exists []. split; [reflexivity | constructor].
  - destruct (H x (or_introl eq_refl)) as [y [Hy Py]].
    destruct IH as [ys [Hys Pys]]; [intros; apply H; right; assumption|].
    exists (y :: ys). rewrite Hy; simpl. rewrite Hys; simpl.
    split; [reflexivity | constructor; assumption].
Qed.

Lemma Forall2_seq_nth {Y : Type} (P : nat -> Y -> Prop) (d : Y) (N : nat) :
  forall (s : nat) (ys : list Y),
    Forall2 P (seq s N) ys ->
    List.length ys = N /\ forall i, i < N -> P (s + i) (nth i ys d).
Proof.
  induction N as [|N IH]; intros s ys H; simpl in H; inversion H; subst; simpl.
  - split; [reflexivity | intros; lia].
  - destruct (IH _ _ H4) as [Hl Hn]. split; [lia|].
    intros [|i] Hi.
    + rewrite Nat.add_0_r. assumption.
    + replace (s + S i) with (S s + i) by lia. apply Hn. lia.
Qed.

Lemma filter_length_perm {X : Type} (f : X -> bool) (l l' : list X) :
  Permutation l l' -> List.length (filter f l) = List.length (filter f l').
Proof.
  induction 1; simpl; repeat (destruct (f _)); simpl; congruence.
Qed.

Lemma filter_none {X : Type} (f : X -> bool) (l : list X) :
  (forall x, In x l -> f x = false) -> filter f l = [].
Proof.
  induction l as [|x t IH]; intros H; simpl; [reflexivity|].
  rewrite (H x (or_introl eq_refl)). apply IH. intros; apply H; right; assumption.
Qed.

Lemma py_index_in_range {X : Type} (l : list X) (k : Z) :
  (1 <= k <= Z.of_nat (List.length l))%Z ->
  exists v, py_index l (k - 1) = Ok v /\ nth_error l (Z.to_nat k - 1) = Some v.
Proof.
  intros Hk. unfold py_index.
  destruct (k - 1 <? 0)%Z eqn:E; [apply Z.ltb_lt in E; lia|].
  replace ((0 <=? k - 1)%Z && (k - 1 <? Z.of_nat (List.length l))%Z) with true
    by (symmetry; apply andb_true_iff; split;
        [apply Z.leb_le | apply Z.ltb_lt]; lia).
  replace (Z.to_nat (k - 1)) with (Z.to_nat k - 1) by lia.
  destruct (nth_error l (Z.to_nat k - 1)) as [v|] eqn:Hn.
  - exists v. split; reflexivity.
  - apply nth_error_None in Hn. lia.
Qed.

(** In an ascending list the element at position [k] has at most [k]
    elements below it and more than [k] not above it. *)
Lemma sorted_nth_rank (l : list R) :
  StronglySorted Rle l ->
  forall k v, nth_error l k = Some v ->
    List.length (filter (fun x => Rlt_bool x v) l) <= k /\
    k < List.length (filter (fun x => Rle_bool x v) l).
Proof.
  induction 1 as [|a t Hs IH Ha]; intros k v Hk.
  - destruct k; discriminate.
  - rewrite Forall_forall in Ha. destruct k as [|k]; simpl in Hk.
    + injection Hk as <-. simpl.
      replace (Rlt_bool a a) with false
        by (symmetry; apply not_true_is_false; rewrite Rlt_bool_iff; lra).
      replace (Rle_bool a a) with true
        by (symmetry; apply Rle_bool_iff; lra).
      split; [|simpl; lia].
      rewrite filter_none; [simpl; lia|].
      intros x Hx. apply not_true_is_false. rewrite Rlt_bool_iff.
      specialize (Ha x Hx). lra.
    + destruct (IH _ _ Hk) as [H1 H2].
      assert (Hav : (a <= v)%R) by (apply Ha; eapply nth_error_In; eauto).
      simpl.
      replace (Rle_bool a v) with true by (symmetry; apply Rle_bool_iff; lra).
      destruct (Rlt_bool a v); simpl; lia.
Qed.

(** ** The sample graphs are what the approximate branch builds *)

Lemma ann_graph_line :
  Diffusor.ann_graph binary64 line_externals (diffusor4 100 true) line_points
  = (Ok line_graph,
     [ NmslibInit "hnsw" "cosinesimil_sparse_fast";
       NmslibAddDataPointBatch 5;
       NmslibCreateIndex;
       NmslibKnnQueryBatch 5 ]).
Proof. vm_compute. reflexivity. Qed.

Lemma ann_graph_duplicate :
  Diffusor.ann_graph binary64 duplicate_externals (diffusor4 100 true)
                     duplicate_points
  = (Ok duplicate_graph,
     [ NmslibInit "hnsw" "cosinesimil_sparse_fast";
       NmslibAddDataPointBatch 5;
       NmslibCreateIndex;
       NmslibKnnQueryBatch 5 ]).
Proof. vm_compute. reflexivity. Qed.

(** ** Adaptive bandwidth of the approximate branch (C5) *)

(** C5, as stated, fails.  On the five points of [line_graph] with
    [n_neighbors = 4] (so [adaptive_k = 2]) the code returns the bandwidth 1
    for row 0: it sorts all five stored distances [0; 1; 2; 3; 4], the zero
    self-distance among them, and takes the second.  The second smallest of
    the nonzero distances [1; 2; 3; 4] is 2. *)
Lemma adaptive_std_counts_self_distance :
  Diffusor.adaptive_std_ann binary64 (diffusor4 100 true) line_graph 5
  = Ok [1; 1; 1; 1; 1]%float
  /\ spec_adaptive_bandwidth binary64 line_graph 5
       (Diffusor.adaptive_k (diffusor4 100 true))
     = Ok [2; 1; 1; 1; 2]%float
  /\ Diffusor.adaptive_std_ann binary64 (diffusor4 100 true) line_graph 5
     <> spec_adaptive_bandwidth binary64 line_graph 5
          (Diffusor.adaptive_k (diffusor4 100 true)).
Proof.
  split; [vm_compute; reflexivity|].
  split; [vm_compute; reflexivity|].
  intros H.
  apply (f_equal (fun r => match r with
                           | Ok (x :: _) => PrimFloat.eqb x 1
                           | _ => false
                           end)) in H.
  vm_compute in H. discriminate H.
Qed.

(** C5, amended: for every row [i] of the graph, when
    [1 <= adaptive_k <= ] the number of distances the row stores, the
    bandwidth [adaptive_std[i]] is the [adaptive_k]-th smallest
    (1-indexed) of all the distances stored in the row, the zero
    self-distance included, with [adaptive_k = floor (n_neighbors / 2)];
    the loop then returns a vector of length [N]. *)
Theorem adaptive_std_ann_kth_smallest
        (self : Diffusor.t R) (akNN : csr R) (N : nat) :
  (forall i, i < N ->
     (1 <= Diffusor.n_neighbors self / 2
        <= Z.of_nat (List.length (csr_row_data akNN i)))%Z) ->
  exists adaptive_std,
    Diffusor.adaptive_std_ann real self akNN N = Ok adaptive_std
    /\ List.length adaptive_std = N
    /\ forall i, i < N ->
         kth_smallest (Z.to_nat (Diffusor.n_neighbors self / 2))
                      (csr_row_data akNN i) (nth i adaptive_std 0%R).
Proof.
  intros Hk. unfold Diffusor.adaptive_std_ann, Diffusor.adaptive_k.
  set (k := (Diffusor.n_neighbors self / 2)%Z) in *.
  destruct (result_mapM_Forall2
              (fun i => py_index (np_sort real (csr_row_data akNN i)) (k - 1))
              (fun i v => kth_smallest (Z.to_nat k) (csr_row_data akNN i) v)
              (seq 0 N)) as [ys [Hys HP]].
  - intros i Hi. apply in_seq in Hi.
    assert (Hki : (1 <= k <= Z.of_nat (List.length (csr_row_data akNN i)))%Z)
      by (apply Hk; lia).
    pose proof (np_sort_perm real (csr_row_data akNN i)) as Hperm.
    destruct (py_index_in_range (np_sort real (csr_row_data akNN i)) k)
      as [v [Hv Hn]].
    { rewrite (Permutation_length Hperm). exact Hki. }
    exists v. split; [exact Hv|].
    destruct (sorted_nth_rank _ (np_sort_real_sorted _) _ _ Hn) as [H1 H2].
    repeat split.
    + eapply Permutation_in; [exact Hperm | eapply nth_error_In; exact Hn].
    + rewrite <- (filter_length_perm _ _ _ Hperm). lia.
    + rewrite <- (filter_length_perm _ _ _ Hperm). lia.
  - exists ys. split; [exact Hys|].
    destruct (Forall2_seq_nth _ 0%R _ _ _ HP) as [Hl Hn].
    split; [exact Hl|]. intros i Hi. exact (Hn i Hi).
Qed.

Lemma adaptive_std_ann_kth_smallest_witness :
  let self : Diffusor.t R :=
    {| Diffusor.n_components := 2; Diffusor.n_neighbors := 2;
       Diffusor.alpha := 1%R; Diffusor.n_jobs := 1; Diffusor.ann := true;
       Diffusor.ann_dist := "cosine_sparse"; Diffusor.M := 30;
       Diffusor.efC := 100; Diffusor.efS := 100;
       Diffusor.knn_dist := "euclidean"; Diffusor.plot_knee := None |} in
  let akNN : csr R :=
    {| csr_data := [0; 1; 3;  0; 1; 2;  0; 2; 3]%R;
       csr_indices := [0; 1; 2;  1; 0; 2;  2; 1; 0];
       csr_indptr := [0; 3; 6; 9];
       csr_shape := (3, 3) |} in
  exists adaptive_std,
    Diffusor.adaptive_std_ann real self akNN 3 = Ok adaptive_std
    /\ List.length adaptive_std = 3
    /\ forall i, i < 3 ->
         kth_smallest (Z.to_nat (Diffusor.n_neighbors self / 2))
                      (csr_row_data akNN i) (nth i adaptive_std 0%R).
Proof.
  intros self akNN. apply (adaptive_std_ann_kth_smallest self akNN).
  intros i Hi.
  destruct i as [|[|[|i]]]; [| | |lia]; vm_compute; split; discriminate.
Defined.

(** ** Division by a zero bandwidth (C3) *)

(** C3, as stated, fails.  In [duplicate_graph] point 1 duplicates point 0;
    with [n_neighbors = 4] rows 0 and 1 get the bandwidth 0.  [find] drops
    the zero distances, so the pair of duplicates gets no kernel entry at
    all, and each remaining edge of row 0 has the normalized distance
    [d / 0 = +infinity], not 0. *)
Lemma zero_bandwidth_distance_is_infinite :
  Diffusor.adaptive_std_ann binary64 (diffusor4 100 true) duplicate_graph 5
  = Ok [0; 0; 1; 1; 1]%float
  /\ filter (fun e => fst (fst e) =? 0)
            (normalize binary64 (find binary64 duplicate_graph)
                       [0; 0; 1; 1; 1]%float)
     = [(0, 2, infinity); (0, 3, infinity); (0, 4, infinity)]
  /\ PrimFloat.eqb infinity 0 = false.
Proof. repeat split; vm_compute; reflexivity. Qed.

Lemma div_by_zero_bandwidth (d : float) :
  PrimFloat.leb 0 d = true -> PrimFloat.eqb d 0 = false ->
  PrimFloat.div d 0 = infinity.
Proof.
  intros Hle Hne.
  rewrite <- (SF2Prim_Prim2SF (PrimFloat.div d 0)). rewrite div_spec.
  rewrite leb_spec in Hle. rewrite eqb_spec in Hne.
  change (Prim2SF 0) with (S754_zero false) in *.
  destruct (Prim2SF d) as [s|s| |s m e]; simpl in *; try discriminate;
    destruct s; try discriminate; reflexivity.
Qed.

(** C3, amended: [find] returns no edge of distance zero, so a zero
    distance (such as the one between duplicated points) is never divided
    and gets no kernel entry; for every edge [(i, j, d)] it does return,
    with [d >= 0] and bandwidth [adaptive_std[i] = 0], the normalized
    distance is the IEEE quotient [d / 0 = +infinity] (kernel weight
    [exp(-infinity)], which is 0), and the division raises nothing. *)
Theorem zero_bandwidth_edge
        (graph : csr float) (adaptive_std : list float)
        (i j : nat) (d : float) :
  In (i, j, d) (find binary64 graph) ->
  nth i adaptive_std 0%float = 0%float ->
  PrimFloat.leb 0 d = true ->
  PrimFloat.eqb d 0 = false
  /\ PrimFloat.div d (nth i adaptive_std 0%float) = infinity
  /\ In (i, j, infinity) (normalize binary64 (find binary64 graph) adaptive_std).
Proof.
  intros Hin Hs Hd.
  assert (Hne : PrimFloat.eqb d 0 = false).
  { unfold find in Hin. apply filter_In in Hin. destruct Hin as [_ H].
    simpl in H. apply negb_true_iff in H. exact H. }
  split; [exact Hne|].
  split; [rewrite Hs; apply div_by_zero_bandwidth; assumption|].
  unfold normalize. apply in_map_iff. exists (i, j, d). split; [|exact Hin].
  simpl. rewrite Hs. now rewrite div_by_zero_bandwidth.
Qed.

Lemma zero_bandwidth_edge_witness :
  PrimFloat.eqb 1 0 = false
  /\ PrimFloat.div 1 (nth 0 [0; 0; 1; 1; 1]%float 0%float) = infinity
  /\ In (0, 2, infinity)
        (normalize binary64 (find binary64 duplicate_graph) [0; 0; 1; 1; 1]%float).
Proof.
  apply (zero_bandwidth_edge duplicate_graph [0; 0; 1; 1; 1]%float 0 2 1%float).
  - vm_compute. left. reflexivity.
  - reflexivity.
  - reflexivity.
Defined.

(** ** The space of the nmslib index (C9) *)

Lemma fit_index_space {A : Type} (self self' : NMSlibTransformer.t A)
      (data : samples A) (tr : list event) :
  NMSlibTransformer.fit self data = (Ok self', tr) ->
  option_map (@nmslib.space A) (NMSlibTransformer.nmslib_ self')
  = Some "cosinesimil_sparse_fast"%string
  /\ NMSlibTransformer.space self' = NMSlibTransformer.space self
  /\ In (NmslibInit "hnsw" "cosinesimil_sparse_fast") tr.
Proof.
  unfold NMSlibTransformer.fit. destruct (issparse data); [|discriminate].
  intros H. injection H as <- <-. simpl. auto.
Qed.

(** C9 on the code: [NMSlibTransformer(metric='euclidean')] records the
    space ['l2'] for its metric, and [fit] builds the index in
    ['cosinesimil_sparse_fast'] all the same; the distances of the graph
    are cosine distances, not Euclidean ones. *)
Theorem fit_ignores_requested_space :
  rbind (NMSlibTransformer.__init__ (A := float) 30 "euclidean" "hnsw" (-1) 30 100 100 None)
        (fun self => Ok (NMSlibTransformer.space self))
  = Ok "l2"%string
  /\ rbind (NMSlibTransformer.__init__ (A := float) 30 "euclidean" "hnsw" (-1) 30 100 100 None)
           (fun self =>
              rbind (fst (NMSlibTransformer.fit self line_points))
                    (fun self' =>
                       Ok (option_map (@nmslib.space float)
                                      (NMSlibTransformer.nmslib_ self'))))
     = Ok (Some "cosinesimil_sparse_fast"%string).
Proof. split; reflexivity. Qed.

(** ** Repeated calls (C8) *)

Lemma fitted_transformer_is_fitted :
  rbind (NMSlibTransformer.__init__ 2 "cosine_sparse" "hnsw" 1 30 100 100 None)
        (fun self => fst (NMSlibTransformer.fit self line_points))
  = Ok fitted_transformer.
Proof. reflexivity. Qed.

(** C8, as stated, fails.  [multiscale(n_eigs=None).transform] stores the
    dimension it selects in [n_eigs] (3 on [small_bundle]).  And
    [NMSlibTransformer.transform] adds one to [n_neighbors] at every call:
    on the fitted estimator with [n_neighbors = 2] the first call asks for
    3 neighbours and the second for 4, so the two graphs differ. *)
Lemma transform_changes_configuration :
  let ms := multiscale_with None in
  let r1 := NMSlibTransformer.transform binary64 line_externals
              fitted_transformer line_points in
  let r2 := NMSlibTransformer.transform binary64 line_externals
              (snd r1) line_points in
  multiscale.n_eigs ms = None
  /\ multiscale.n_eigs (snd (multiscale.transform binary64 ms small_bundle)) = Some 3%Z
  /\ NMSlibTransformer.n_neighbors fitted_transformer = 2%Z
  /\ NMSlibTransformer.n_neighbors (snd r1) = 3%Z
  /\ NMSlibTransformer.n_neighbors (snd r2) = 4%Z
  /\ snd (fst r1) = [NmslibKnnQueryBatch 3]
  /\ snd (fst r2) = [NmslibKnnQueryBatch 4]
  /\ fst r1 <> fst r2.
Proof.
  repeat split; try reflexivity.
  intros H. apply (f_equal snd) in H. vm_compute in H. discriminate H.
Qed.

(** Every call of [transform] on a fitted estimator adds one to
    [n_neighbors] and queries with the new value. *)
Lemma transform_increments_n_neighbors
      {A : Type} (O : dtype A) (ext : externals A)
      (self : NMSlibTransformer.t A) (data : samples A) :
  NMSlibTransformer.nmslib_ self <> None ->
  NMSlibTransformer.n_samples_fit_ self <> None ->
  let r := NMSlibTransformer.transform O ext self data in
  NMSlibTransformer.n_neighbors (snd r)
  = (NMSlibTransformer.n_neighbors self + 1)%Z
  /\ exists tr,
       snd (fst r)
       = NmslibKnnQueryBatch (NMSlibTransformer.n_neighbors self + 1) :: tr.
Proof.
  intros Hix Hn. unfold NMSlibTransformer.transform.
  destruct (NMSlibTransformer.nmslib_ self) as [ix|]; [|congruence].
  destruct (NMSlibTransformer.n_samples_fit_ self) as [n|]; [|congruence].
  cbv zeta. cbn [fst snd NMSlibTransformer.n_neighbors].
  split; [reflexivity|].
  eapply bind_trace_head. reflexivity.
Qed.

Lemma scale_deterministic_state {A : Type} (O : dtype A)
      (self : multiscale.t A) (res : bundle A) (m : Z) :
  multiscale.n_eigs self = Some m ->
  multiscale.transform O self res = (multiscale.scale O res m, self).
Proof.
  intros H. unfold multiscale.transform, multiscale.select. rewrite H. 
  destruct (multiscale.scale O res m); reflexivity.
Qed.

(** C8, amended, for [multiscale.transform]: a call never changes
    [sensitivity] or [plot]; it leaves the object as it is when [n_eigs]
    is set; and when it returns an embedding, [n_eigs] is set afterwards
    and a second call with the same bundle returns the same embedding and
    changes nothing. *)
Theorem multiscale_transform_repeatable
        {A : Type} (O : dtype A) (self : multiscale.t A) (res : bundle A) :
  let r := multiscale.transform O self res in
  multiscale.sensitivity (snd r) = multiscale.sensitivity self
  /\ multiscale.plot (snd r) = multiscale.plot self
  /\ (multiscale.n_eigs self <> None -> snd r = self)
  /\ (forall mms, fst r = Ok mms ->
        multiscale.n_eigs (snd r) <> None
        /\ multiscale.transform O (snd r) res = (Ok mms, snd r)).
Proof.
  unfold multiscale.transform, multiscale.select.
  destruct (multiscale.n_eigs self) as [m|] eqn:En.
  - destruct (multiscale.scale O res m) eqn:Es; simpl;
      (split; [reflexivity|]); (split; [reflexivity|]);
      (split; [reflexivity|]); intros mms Hm; [|discriminate Hm].
    injection Hm as <-. split; [congruence|].
    rewrite En, Es. reflexivity.
  - cbv zeta.
    destruct (py_index (np_argsort O _) (-1)) as [i1|e1] eqn:E1.
    2: { simpl. split; [reflexivity|]. split; [reflexivity|].
         split; [congruence|]. intros mms Hm. discriminate Hm. }
    destruct (Z.of_nat i1 + 1 <? 3)%Z eqn:E3.
    + destruct (py_index (np_argsort O _) (-2)) as [i2|e2] eqn:E2.
      2: { simpl. split; [reflexivity|]. split; [reflexivity|].
           split; [congruence|]. intros mms Hm. discriminate Hm. }
      destruct (multiscale.scale O res (Z.of_nat i2 + 2)) eqn:Es; simpl;
        (split; [reflexivity|]); (split; [reflexivity|]);
        (split; [congruence|]); intros mms Hm; [|discriminate Hm].
      injection Hm as <-. split; [discriminate|]. rewrite Es. reflexivity.
    + destruct (multiscale.scale O res (Z.of_nat i1 + 1)) eqn:Es; simpl;
        (split; [reflexivity|]); (split; [reflexivity|]);
        (split; [congruence|]); intros mms Hm; [|discriminate Hm].
      injection Hm as <-. split; [discriminate|]. rewrite Es. reflexivity.
Qed.

Lemma multiscale_transform_repeatable_witness :
  let r := multiscale.transform binary64 (multiscale_with None) small_bundle in
  exists mms,
    fst r = Ok mms
    /\ multiscale.n_eigs (snd r) <> None
    /\ multiscale.transform binary64 (snd r) small_bundle = (Ok mms, snd r).
Proof.
  cbv zeta. eexists. split; [vm_compute; reflexivity|].
  apply (multiscale_transform_repeatable binary64 (multiscale_with None)
           small_bundle).
  vm_compute. reflexivity.
Defined.

(** ** Traces *)


Lemma dict_get_supported (metric : string) :
  NMSlibTransformer.supported metric = true ->
  exists space, NMSlibTransformer.dict_get NMSlibTransformer.space_table metric = Ok space.
Proof.
  unfold NMSlibTransformer.supported.
  induction NMSlibTransformer.space_table as [|[k v] rest IH]; simpl; [discriminate|].
  destruct (String.eqb k metric); simpl.
  - intros _. eexists; reflexivity.
  - exact IH.
Qed.

Lemma ann_graph_trace_head
      {A : Type} (O : dtype A) (ext : externals A)
      (self : Diffusor.t A) (data : samples A) :
  issparse data = true ->
  NMSlibTransformer.supported (Diffusor.ann_dist self) = true ->
  exists tr,
    snd (Diffusor.ann_graph O ext self data)
    = NmslibInit "hnsw" "cosinesimil_sparse_fast" :: tr.
Proof.
  intros Hsp Hsup. unfold Diffusor.ann_graph, NMSlibTransformer.__init__.
  destruct (dict_get_supported _ Hsup) as [space ->]. simpl rbind.
  unfold lift, bind at 1, NMSlibTransformer.fit. rewrite Hsp.
  match goal with
  | |- context [bind (Ok ?s, ?t) ?h] =>
      destruct (bind_trace_head (Ok s, t) h
                  (NmslibInit "hnsw" "cosinesimil_sparse_fast")
                  [NmslibAddDataPointBatch (shape0 data); NmslibCreateIndex]
                  eq_refl) as [tr Htr];
      destruct (bind (Ok s, t) h) as [r t'] eqn:Eb
  end.
  simpl in Htr. simpl. exists tr. exact Htr.
Qed.

Lemma neighbor_stage_trace_head
      {A : Type} (O : dtype A) (U : ufuncs A) (ext : externals A)
      (self : Diffusor.t A) (data : samples A) (N : nat) :
  Diffusor.ann self = false
  \/ (issparse data = true
      /\ NMSlibTransformer.supported (Diffusor.ann_dist self) = true) ->
  exists e tr,
    snd (Diffusor.neighbor_stage O U ext self data N) = e :: tr
    /\ is_neighbor_search e = true.
Proof.
  intros H. unfold Diffusor.neighbor_stage.
  destruct (Diffusor.ann self) eqn:Hann.
  - destruct H as [H | [Hsp Hsup]]; [discriminate H|].
    destruct (ann_graph_trace_head O ext self data Hsp Hsup) as [tr Htr].
    destruct (bind_trace_head _
                (fun akNN =>
                   bind (lift (Diffusor.adaptive_std_ann O self akNN N))
                        (fun adaptive_std =>
                           lift (Diffusor.weights O U akNN adaptive_std N)))
                _ _ Htr) as [tr' Htr'].
    eexists; eexists; split; [exact Htr' | reflexivity].
  - destruct (bind_trace_head
                (Diffusor.exact_graph ext self data)
                (fun knn =>
                   bind (Diffusor.adaptive_std_exact O ext self data)
                        (fun adaptive_std =>
                           lift (Diffusor.weights O U knn adaptive_std N)))
                (SklearnKneighborsGraph (Diffusor.n_neighbors self)
                                        (Diffusor.knn_dist self)) [])
      as [tr Htr]; [reflexivity|].
    eexists; eexists; split; [exact Htr | reflexivity].
Qed.

(** ** No check of [n_components] (C7) *)

(** C7, as stated, fails.  [Diffusor(n_components=3, n_neighbors=2,
    ann=False)] on three samples runs both exact neighbour searches and
    then calls the eigensolver with [k = 3]; the exception of the run is
    the eigensolver's [TypeError], raised after the searches. *)
Lemma neighbor_search_precedes_failure :
  (Z.of_nat (shape0 three_points)
   <= Diffusor.n_components (exact_diffusor 3 2 "euclidean"))%Z
  /\ fst (Diffusor.fit_transform real real_ufuncs three_externals
            (exact_diffusor 3 2 "euclidean") three_points false)
     = (Raise TypeError,
        [ SklearnKneighborsGraph 2 "euclidean";
          SklearnKneighborsGraph 1 "euclidean";
          ScipyEigs 3 ]).
Proof.
  split; [simpl; lia|].
  unfold Diffusor.fit_transform, Diffusor.neighbor_stage.
  simpl Diffusor.ann. cbv iota.
  unfold Diffusor.exact_graph, Diffusor.adaptive_std_exact, Diffusor.weights.
  simpl. unfold find. simpl. unfold Req_bool.
  decide_reals. reflexivity.
Qed.

(** C7, amended: for an input with [n_components >= N], as for any other,
    [fit_transform] makes no check before the neighbour search.  With the
    exact search, or with a sparse sample matrix and a metric of the
    table, the first external call of the run is a neighbour search; and
    the neighbour stage does not read [n_components], which first reaches
    the eigensolver. *)
Theorem fit_transform_searches_first
        {A : Type} (O : dtype A) (U : ufuncs A) (ext : externals A)
        (self : Diffusor.t A) (data : samples A) (plot_knee : bool) :
  (Z.of_nat (shape0 data) <= Diffusor.n_components self)%Z ->
  Diffusor.ann self = false
  \/ (issparse data = true
      /\ NMSlibTransformer.supported (Diffusor.ann_dist self) = true) ->
  (exists e tr,
      snd (fst (Diffusor.fit_transform O U ext self data plot_knee)) = e :: tr
      /\ is_neighbor_search e = true)
  /\ forall c N,
       Diffusor.neighbor_stage O U ext (set_n_components self c) data N
       = Diffusor.neighbor_stage O U ext self data N.
Proof.
  intros _ H. split.
  - unfold Diffusor.fit_transform. cbv zeta. unfold fst at 1.
    destruct (neighbor_stage_trace_head O U ext
                (Diffusor.set_plot_knee self plot_knee) data (shape0 data) H)
      as [e0 [tr0 [Htr He]]].
    match goal with
    | |- exists _ _, snd (bind ?m ?f) = _ /\ _ =>
        destruct (bind_trace_head m f e0 tr0 Htr) as [tr1 Htr1]
    end.
    exists e0, tr1. split; [exact Htr1 | exact He].
  - intros c N. reflexivity.
Qed.

Lemma fit_transform_searches_first_witness :
  (exists e tr,
      snd (fst (Diffusor.fit_transform real real_ufuncs three_externals
                  (exact_diffusor 3 2 "euclidean") three_points false))
      = e :: tr
      /\ is_neighbor_search e = true)
  /\ forall c N,
       Diffusor.neighbor_stage real real_ufuncs three_externals
         (set_n_components (exact_diffusor 3 2 "euclidean") c) three_points N
       = Diffusor.neighbor_stage real real_ufuncs three_externals
           (exact_diffusor 3 2 "euclidean") three_points N.
Proof.
  apply (fit_transform_searches_first real real_ufuncs three_externals
           (exact_diffusor 3 2 "euclidean") three_points false).
  - simpl. lia.
  - left. reflexivity.
Defined.

(** ** The bandwidth of the exact branch (C10) *)

Lemma fold_left_maximum (t : list R) :
  forall v,
    In (fold_left (np_maximum real) t v) (v :: t)
    /\ forall x, In x (v :: t) -> (x <= fold_left (np_maximum real) t v)%R.
Proof.
  induction t as [|a t IH]; intros v; simpl.
  - split; [left; reflexivity|]. intros x [<-|[]]. lra.
  - destruct (IH (np_maximum real v a)) as [Hin Hub].
    assert (Hm : (v <= np_maximum real v a)%R /\ (a <= np_maximum real v a)%R
                 /\ (np_maximum real v a = v \/ np_maximum real v a = a)).
    { unfold np_maximum. simpl. unfold Rle_bool.
      destruct (Rle_dec v a); repeat split; auto; lra. }
    destruct Hm as [Hv [Ha Hor]].
    split.
    + destruct Hin as [Hin|Hin]; [|right; right; exact Hin].
      destruct Hor as [E|E]; [left | right; left];
        (transitivity (np_maximum real v a); [symmetry; exact E | exact Hin]).
    + intros x [<-|[<-|Hx]].
      * eapply Rle_trans; [exact Hv | apply Hub; left; reflexivity].
      * eapply Rle_trans; [exact Ha | apply Hub; left; reflexivity].
      * apply Hub. right. exact Hx.
Qed.

Lemma nth_map_seq {Y : Type} (f : nat -> Y) (d : Y) (n i : nat) :
  i < n -> nth i (map f (seq 0 n)) d = f i.
Proof.
  intros Hi. rewrite (nth_indep _ d (f 0)) by (rewrite length_map, length_seq; exact Hi).
  rewrite (map_nth f (seq 0 n) 0 i). rewrite seq_nth by exact Hi. reflexivity.
Qed.

Lemma csr_max_axis1_is_max (g : csr R) (i : nat) :
  i < fst (csr_shape g) ->
  csr_row_data g i <> [] ->
  Forall (fun d => (0 <= d)%R) (csr_row_data g i) ->
  In (nth i (csr_max_axis1 real g) 0%R) (csr_row_data g i)
  /\ forall d, In d (csr_row_data g i) -> (d <= nth i (csr_max_axis1 real g) 0%R)%R.
Proof.
  intros Hi Hne Hpos. unfold csr_max_axis1. rewrite nth_map_seq by exact Hi.
  destruct (csr_row_data g i) as [|v t] eqn:Er; [congruence|].
  destruct (fold_left_maximum t v) as [Hin Hub].
  set (mx := fold_left (np_maximum real) t v) in *.
  assert (Hmx : (0 <= mx)%R) by (rewrite Forall_forall in Hpos; apply Hpos, Hin).
  assert (E : np_maximum real mx (zero real) = mx).
  { unfold np_maximum. simpl. unfold Rle_bool. destruct (Rle_dec mx 0); lra. }
  destruct (List.length (v :: t) <? snd (csr_shape g)); [rewrite E|]; split; assumption.
Qed.

(** C10: with [ann = False] the neighbour stage asks scikit-learn for two
    graphs, the neighbour graph under [knn_dist] and a second one with
    [floor (n_neighbors / 2)] neighbours under ['euclidean'], whatever
    [knn_dist] is; the bandwidth of row [i] is the largest distance stored
    in row [i] of the Euclidean graph, and it normalizes the distances of
    the [knn_dist] graph.  (Rows of the Euclidean graph are taken non-empty
    with non-negative distances, as scikit-learn returns them.) *)
Theorem exact_bandwidth_is_euclidean
        (ext : externals R) (self : Diffusor.t R) (data : samples R) (N : nat)
        (knn g : csr R) :
  Diffusor.ann self = false ->
  sklearn_kneighbors_graph ext (Diffusor.n_neighbors self)
    (Diffusor.knn_dist self) (Diffusor.n_jobs self) data = Ok knn ->
  sklearn_kneighbors_graph ext (Diffusor.n_neighbors self / 2)
    "euclidean" (Diffusor.n_jobs self) data = Ok g ->
  (forall i, i < fst (csr_shape g) ->
     csr_row_data g i <> []
     /\ Forall (fun d => (0 <= d)%R) (csr_row_data g i)) ->
  let adaptive_std := csr_max_axis1 real g in
  Diffusor.neighbor_stage real real_ufuncs ext self data N
  = (Diffusor.weights real real_ufuncs knn adaptive_std N,
     [ SklearnKneighborsGraph (Diffusor.n_neighbors self) (Diffusor.knn_dist self);
       SklearnKneighborsGraph (Diffusor.n_neighbors self / 2) "euclidean" ])
  /\ forall i, i < fst (csr_shape g) ->
       In (nth i adaptive_std 0%R) (csr_row_data g i)
       /\ forall d, In d (csr_row_data g i) -> (d <= nth i adaptive_std 0%R)%R.
Proof.
  intros Hann Hknn Hg Hrows adaptive_std. subst adaptive_std. split.
  - unfold Diffusor.neighbor_stage. rewrite Hann.
    unfold Diffusor.exact_graph, Diffusor.adaptive_std_exact, Diffusor.adaptive_k.
    rewrite Hknn, Hg. unfold call, bind, ret, lift. 
    destruct (Diffusor.weights real real_ufuncs knn (csr_max_axis1 real g) N);
      reflexivity.
  - intros i Hi. destruct (Hrows i Hi) as [Hne Hpos].
    apply csr_max_axis1_is_max; assumption.
Qed.

Lemma exact_bandwidth_is_euclidean_witness :
  let self := exact_diffusor 2 4 "cosine" in
  match table_kneighbors_graph real_line_table 4 "cosine" 1 real_line_points,
        table_kneighbors_graph real_line_table 2 "euclidean" 1 real_line_points
  with
  | Ok knn, Ok g =>
      Diffusor.neighbor_stage real real_ufuncs real_line_externals self
        real_line_points 5
      = (Diffusor.weights real real_ufuncs knn (csr_max_axis1 real g) 5,
         [ SklearnKneighborsGraph 4 "cosine";
           SklearnKneighborsGraph 2 "euclidean" ])
      /\ forall i, i < fst (csr_shape g) ->
           In (nth i (csr_max_axis1 real g) 0%R) (csr_row_data g i)
           /\ forall d, In d (csr_row_data g i) ->
                        (d <= nth i (csr_max_axis1 real g) 0%R)%R
  | _, _ => False
  end.
Proof.
  cbv zeta.
  destruct (table_kneighbors_graph real_line_table 4 "cosine" 1 real_line_points)
    as [knn|] eqn:Eknn; [|discriminate Eknn].
  destruct (table_kneighbors_graph real_line_table 2 "euclidean" 1 real_line_points)
    as [g|] eqn:Eg; [|discriminate Eg].
  apply (exact_bandwidth_is_euclidean real_line_externals
           (exact_diffusor 2 4 "cosine") real_line_points 5 knn g).
  - reflexivity.
  - exact Eknn.
  - exact Eg.
  - injection Eg as <-. intros i Hi. simpl in Hi.
    destruct i as [|[|[|[|[|i]]]]]; [| | | | |lia];
      (split; [discriminate | repeat constructor; lra]).
Defined.

(** ** The multiscale embedding (C6) *)

Lemma result_mapM_range {Y : Type} (l : list Y) (e : exn) (d : Y) (n : nat) :
  forall s,
    s + n < List.length l ->
    result_mapM (fun j => match nth_error l (Z.to_nat j) with
                          | Some v => Ok v
                          | None => Raise e
                          end)
                (map (fun i => (1 + Z.of_nat i)%Z) (seq s n))
    = Ok (map (fun i => nth (S i) l d) (seq s n)).
Proof.
  induction n as [|n IH]; intros s Hs; cbn [seq map result_mapM]; [reflexivity|].
  replace (Z.to_nat (1 + Z.of_nat s)) with (S s) by lia.
  destruct (nth_error l (S s)) as [v|] eqn:En.
  - cbn [rbind]. rewrite IH by lia. cbn [rbind].
    rewrite (nth_error_nth _ _ d En). reflexivity.
  - apply nth_error_None in En. lia.
Qed.

Lemma combine_map_seq {X Y : Type} (f : nat -> X) (g : nat -> Y) (sq : list nat) :
  combine (map f sq) (map g sq) = map (fun i => (f i, g i)) sq.
Proof. induction sq as [|i t IH]; simpl; [reflexivity | rewrite IH; reflexivity]. Qed.

Lemma scale_columns {A : Type} (O : dtype A) (res : bundle A) (m : Z) :
  (m <= Z.of_nat (List.length (EigenValues res)))%Z ->
  (m <= Z.of_nat (List.length (EigenVectors res)))%Z ->
  multiscale.scale O res m
  = Ok (map (fun i =>
               map (fun v =>
                      mul O v (div O (nth (S i) (EigenValues res) (zero O))
                                     (sub O (one O)
                                          (nth (S i) (EigenValues res) (zero O)))))
                   (nth (S i) (EigenVectors res) []))
            (seq 0 (Z.to_nat (m - 1)))).
Proof.
  intros Hv Hc. unfold multiscale.scale, py_range.
  destruct (Z.to_nat (m - 1)) as [|n] eqn:En; [reflexivity|].
  rewrite <- En.
  rewrite (result_mapM_range (EigenValues res) KeyError (zero O)) by lia.
  cbn [rbind].
  rewrite (result_mapM_range (EigenVectors res) IndexError []) by lia.
  cbn [rbind]. rewrite map_map, combine_map_seq, map_map. reflexivity.
Qed.

(** C6: with [n_eigs = m] at most the number of eigenpairs of the bundle,
    [multiscale.transform] returns [m - 1] columns, and for
    [j = 1 .. m - 1] column [j - 1] of the result is eigenvector [j]
    multiplied elementwise by [eigenvalue_j / (1 - eigenvalue_j)] (so it
    has the [N] entries of the eigenvector); eigenvector 0 is not among
    them.  The object is left as it was. *)
Theorem multiscale_transform_embedding
        {A : Type} (O : dtype A) (self : multiscale.t A) (res : bundle A) (m : Z) :
  multiscale.n_eigs self = Some m ->
  (m <= Z.of_nat (List.length (EigenValues res)))%Z ->
  (m <= Z.of_nat (List.length (EigenVectors res)))%Z ->
  exists mms,
    multiscale.transform O self res = (Ok mms, self)
    /\ List.length mms = Z.to_nat (m - 1)
    /\ forall j, 1 <= j < Z.to_nat m ->
         nth (j - 1) mms []
         = map (fun v =>
                  mul O v (div O (nth j (EigenValues res) (zero O))
                                 (sub O (one O) (nth j (EigenValues res) (zero O)))))
               (nth j (EigenVectors res) []).
Proof.
  intros Hn Hv Hc.
  eexists. split; [|split].
  - rewrite (scale_deterministic_state O self res m Hn).
    rewrite (scale_columns O res m Hv Hc). reflexivity.
  - rewrite length_map, length_seq. reflexivity.
  - intros j Hj. rewrite nth_map_seq by lia.
    replace (S (j - 1)) with j by lia. reflexivity.
Qed.

Lemma multiscale_transform_embedding_witness :
  exists mms,
    multiscale.transform binary64 (multiscale_with (Some 3%Z)) small_bundle
    = (Ok mms, multiscale_with (Some 3%Z))
    /\ List.length mms = Z.to_nat (3 - 1)
    /\ forall j, 1 <= j < Z.to_nat 3 ->
         nth (j - 1) mms []
         = map (fun v =>
                  mul binary64 v
                      (div binary64 (nth j (EigenValues small_bundle) (zero binary64))
                           (sub binary64 (one binary64)
                                (nth j (EigenValues small_bundle) (zero binary64)))))
               (nth j (EigenVectors small_bundle) []).
Proof.
  apply (multiscale_transform_embedding binary64 (multiscale_with (Some 3%Z))
           small_bundle 3%Z).
  - reflexivity.
  - simpl. lia.
  - simpl. lia.
Defined.

(** ** Sums and sparse products over the reals *)

Local Open Scope R_scope.

Lemma fold_left_Rplus (l : list R) (a : R) :
  fold_left Rplus l a = a + fold_left Rplus l 0.
Proof.
  revert a. induction l as [|x t IH]; intros a; simpl; [lra|].
  rewrite (IH (a + x)), (IH (0 + x)). lra.
Qed.

Lemma np_sum_nil : np_sum real [] = 0.
Proof. reflexivity. Qed.

Lemma np_sum_cons (x : R) (l : list R) : np_sum real (x :: l) = x + np_sum real l.
Proof. unfold np_sum. simpl. rewrite fold_left_Rplus. lra. Qed.

Lemma np_sum_app (l l' : list R) :
  np_sum real (l ++ l') = np_sum real l + np_sum real l'.
Proof.
  induction l as [|x t IH]; simpl.
  - rewrite np_sum_nil. lra.
  - rewrite !np_sum_cons, IH. lra.
Qed.

Lemma np_sum_scale (c : R) (l : list R) :
  np_sum real (map (Rmult c) l) = c * np_sum real l.
Proof.
  induction l as [|x t IH]; simpl.
  - rewrite np_sum_nil. lra.
  - rewrite !np_sum_cons, IH. lra.
Qed.

Lemma np_sum_nonneg (l : list R) :
  Forall (fun x => 0 <= x) l -> 0 <= np_sum real l.
Proof.
  induction 1 as [|x t Hx Ht IH].
  - rewrite np_sum_nil. lra.
  - rewrite np_sum_cons. lra.
Qed.

Lemma row_values_pick (m : coo R) (i : nat) :
  row_values m i = pick i (fun _ => true) m.
Proof.
  unfold row_values, pick. f_equal. apply filter_ext.
  intros e. rewrite andb_true_r. reflexivity.
Qed.

Lemma entry_pick (m : coo R) (i j : nat) :
  entry real m i j = np_sum real (pick i (fun c => (c =? j)%nat) m).
Proof. reflexivity. Qed.

Lemma pick_app (i : nat) (q : nat -> bool) (m m' : coo R) :
  pick i q (m ++ m') = pick i q m ++ pick i q m'.
Proof. unfold pick. rewrite filter_app, map_app. reflexivity. Qed.

Lemma pick_flat_map {X : Type} (i : nat) (q : nat -> bool)
      (g : X -> coo R) (l : list X) :
  pick i q (flat_map g l) = flat_map (fun x => pick i q (g x)) l.
Proof.
  induction l as [|x t IH]; simpl; [reflexivity|].
  rewrite pick_app, IH. reflexivity.
Qed.

Lemma combine_seq_nth (D : list R) :
  forall s,
    combine (seq s (List.length D)) D
    = map (fun i => (i, nth (i - s) D 0)) (seq s (List.length D)).
Proof.
  induction D as [|d t IH]; intros s; simpl; [reflexivity|].
  rewrite Nat.sub_diag. f_equal. rewrite IH.
  apply map_ext_in. intros i Hi. apply in_seq in Hi.
  replace (i - s)%nat with (S (i - S s)) by lia. reflexivity.
Qed.

Lemma diag_nth (N : nat) (D : list R) :
  List.length D = N ->
  diag N D = map (fun i => (i, i, nth i D 0)) (seq 0 N).
Proof.
  intros <-. unfold diag. rewrite combine_seq_nth, map_map.
  apply map_ext. intros i. rewrite Nat.sub_0_r. reflexivity.
Qed.

Lemma flat_map_seq_single {Y : Type} (g : nat -> list Y) (i n : nat) :
  forall s,
    flat_map (fun i' => if (i' =? i)%nat then g i' else []) (seq s n)
    = if ((s <=? i) && (i <? s + n))%nat then g i else [].
Proof.
  induction n as [|n IH]; intros s; cbn [seq flat_map].
  - destruct (Nat.leb_spec s i), (Nat.ltb_spec i (s + 0));
      cbn [andb]; try reflexivity; lia.
  - rewrite IH. destruct (Nat.eqb_spec s i) as [->|Hne].
    + destruct (Nat.leb_spec (S i) i); [lia|].
      destruct (Nat.leb_spec i i); [|lia].
      destruct (Nat.ltb_spec i (i + S n)); [|lia].
      cbn [andb]. apply app_nil_r.
    + destruct (Nat.leb_spec (S s) i), (Nat.leb_spec s i),
        (Nat.ltb_spec i (S s + n)), (Nat.ltb_spec i (s + S n));
        cbn [andb app]; try reflexivity; lia.
Qed.

(** Row [i] of [diag(D).dot(K)]: the stored values of row [i] of [K],
    each multiplied by [D[i]]. *)
Lemma pick_diag_dot (N : nat) (D : list R) (K : coo R) (i : nat) (q : nat -> bool) :
  List.length D = N ->
  pick i q (dot real (diag N D) K)
  = if (i <? N)%nat then map (Rmult (nth i D 0)) (pick i q K) else [].
Proof.
  intros HD. rewrite (diag_nth N D HD). unfold dot.
  rewrite flat_map_concat_map, map_map, <- flat_map_concat_map.
  rewrite pick_flat_map.
  rewrite (flat_map_ext _
             (fun i' => if (i' =? i)%nat
                        then map (Rmult (nth i' D 0)) (pick i' q K) else [])).
  - rewrite flat_map_seq_single. simpl. reflexivity.
  - intros i'. simpl. rewrite pick_flat_map.
    induction K as [|[[r c] v] t IH]; simpl.
    + destruct (i' =? i)%nat; reflexivity.
    + rewrite IH. unfold pick at 1. simpl.
      destruct (i' =? r)%nat eqn:Er; simpl.
      * apply Nat.eqb_eq in Er. subst r.
        destruct (i' =? i)%nat eqn:Ei; simpl.
        -- unfold pick at 2. simpl. rewrite Nat.eqb_refl. simpl.
           destruct (q c); simpl; reflexivity.
        -- reflexivity.
      * destruct (i' =? i)%nat eqn:Ei; [|reflexivity].
        unfold pick at 2. simpl.
        rewrite Nat.eqb_sym, Er. simpl. reflexivity.
Qed.

(** ** The diffusion operator (C1) *)

Lemma sum_axis1_length (N : nat) (m : coo R) :
  List.length (sum_axis1 real N m) = N.
Proof. unfold sum_axis1. rewrite length_map, length_seq. reflexivity. Qed.

Lemma sum_axis1_nth (N : nat) (m : coo R) (i : nat) :
  (i < N)%nat -> nth i (sum_axis1 real N m) 0 = np_sum real (row_values m i).
Proof. intros Hi. unfold sum_axis1. rewrite nth_map_seq by exact Hi. reflexivity. Qed.

Lemma mask_nonzero_length (f : R -> R) (d : list R) :
  List.length (mask_nonzero real f d) = List.length d.
Proof. unfold mask_nonzero. apply length_map. Qed.

Lemma mask_nonzero_nth (f : R -> R) (d : list R) (i : nat) :
  (i < List.length d)%nat ->
  nth i (mask_nonzero real f d) 0
  = if Req_dec_T (nth i d 0) 0 then nth i d 0 else f (nth i d 0).
Proof.
  intros Hi. unfold mask_nonzero.
  rewrite (nth_indep _ 0 ((fun x => if eqb real x (zero real) then x else f x) 0))
    by (rewrite length_map; exact Hi).
  rewrite (map_nth (fun x => if eqb real x (zero real) then x else f x) d 0 i).
  simpl. unfold Req_bool. destruct (Req_dec_T (nth i d 0) 0); reflexivity.
Qed.

Lemma kernel_construction_degrees (alpha : R) (N : nat) (W : coo R) :
  snd (kernel_construction real real_ufuncs alpha N W)
  = sum_axis1 real N (fst (kernel_construction real real_ufuncs alpha N W)).
Proof.
  unfold kernel_construction.
  destruct (ltb real (zero real) alpha); reflexivity.
Qed.

Lemma diffusion_operator_row (N : nat) (K : coo R) (D : list R) (i : nat) :
  List.length D = N -> (i < N)%nat ->
  row_values (diffusion_operator real N K D) i
  = map (Rmult (if Req_dec_T (nth i D 0) 0 then nth i D 0 else 1 / nth i D 0))
        (row_values K i).
Proof.
  intros HD Hi. unfold diffusion_operator.
  rewrite !row_values_pick.
  rewrite pick_diag_dot by (rewrite mask_nonzero_length; exact HD).
  replace (i <? N)%nat with true by (symmetry; apply Nat.ltb_lt; exact Hi).
  rewrite mask_nonzero_nth by (rewrite HD; exact Hi). reflexivity.
Qed.

(** ** Rows of a product with a diagonal matrix, for every scalar type *)












(** ** The kernel (C2) *)

Lemma entry_sp_add (a b : coo R) (i j : nat) :
  entry real (sp_add a b) i j = entry real a i j + entry real b i j.
Proof. rewrite !entry_pick. unfold sp_add. rewrite pick_app. apply np_sum_app. Qed.

Lemma entry_transpose (W : coo R) (i j : nat) :
  entry real (transpose W) i j = entry real W j i.
Proof.
  rewrite !entry_pick. f_equal. unfold pick, transpose.
  induction W as [|[[r c] v] t IH]; simpl; [reflexivity|].
  rewrite (andb_comm (c =? i)%nat (r =? j)%nat).
  destruct ((r =? j)%nat && (c =? i)%nat); simpl; rewrite IH; reflexivity.
Qed.

Lemma entry_diag_dot (N : nat) (D : list R) (K : coo R) (i j : nat) :
  List.length D = N ->
  entry real (dot real (diag N D) K) i j
  = if (i <? N)%nat then nth i D 0 * entry real K i j else 0.
Proof.
  intros HD. rewrite !entry_pick, (pick_diag_dot N D K i _ HD).
  destruct (i <? N)%nat; [apply np_sum_scale | apply np_sum_nil].
Qed.

Lemma dot_diag_right (N : nat) (D : list R) (K : coo R) :
  List.length D = N ->
  dot real K (diag N D)
  = flat_map (fun e =>
                if (snd (fst e) <? N)%nat
                then [(fst (fst e), snd (fst e), snd e * nth (snd (fst e)) D 0)]
                else []) K.
Proof.
  intros HD. rewrite (diag_nth N D HD). unfold dot.
  apply flat_map_ext. intros [[r c] v]. simpl.
  rewrite flat_map_concat_map, map_map, <- flat_map_concat_map.
  rewrite (flat_map_ext _
             (fun k => if (k =? c)%nat then [(r, k, v * nth k D 0)] else [])).
  - rewrite flat_map_seq_single. simpl. reflexivity.
  - intros k. simpl. rewrite (Nat.eqb_sym c k). reflexivity.
Qed.

Lemma entry_dot_diag (N : nat) (D : list R) (K : coo R) (i j : nat) :
  List.length D = N ->
  entry real (dot real K (diag N D)) i j
  = if (j <? N)%nat then entry real K i j * nth j D 0 else 0.
Proof.
  intros HD. rewrite (dot_diag_right N D K HD), !entry_pick.
  induction K as [|[[r c] v] t IH]; simpl.
  - unfold pick. simpl. rewrite np_sum_nil. destruct (j <? N)%nat; lra.
  - rewrite pick_app, np_sum_app, IH. clear IH.
    unfold pick at 1 3. simpl.
    destruct (c <? N)%nat eqn:Ec; simpl.
    + destruct ((r =? i)%nat && (c =? j)%nat) eqn:E; simpl.
      * apply andb_true_iff in E. destruct E as [_ E].
        apply Nat.eqb_eq in E. subst c. rewrite Ec.
        fold (pick i (fun c => (c =? j)%nat) t).
        rewrite !np_sum_cons, np_sum_nil. lra.
      * fold (pick i (fun c => (c =? j)%nat) t).
        rewrite np_sum_nil. destruct (j <? N)%nat; lra.
    + destruct ((r =? i)%nat && (c =? j)%nat) eqn:E; simpl.
      * apply andb_true_iff in E. destruct E as [_ E].
        apply Nat.eqb_eq in E. subst c. rewrite Ec.
        rewrite np_sum_nil. lra.
      * fold (pick i (fun c => (c =? j)%nat) t).
        rewrite np_sum_nil. destruct (j <? N)%nat; lra.
Qed.

Lemma nonneg_dot (a b : coo R) :
  nonneg_values a -> nonneg_values b -> nonneg_values (dot real a b).
Proof.
  unfold nonneg_values. rewrite !Forall_forall. intros Ha Hb e He.
  unfold dot in He. apply in_flat_map in He. destruct He as [ea [Hea He]].
  apply in_flat_map in He. destruct He as [eb [Heb He]].
  destruct (snd (fst ea) =? fst (fst eb))%nat; [|contradiction].
  destruct He as [<-|[]]. simpl.
  apply Rmult_le_pos; [apply Ha | apply Hb]; assumption.
Qed.

Lemma nonneg_diag (N : nat) (D : list R) :
  Forall (fun d => 0 <= d) D -> nonneg_values (diag N D).
Proof.
  unfold nonneg_values, diag. rewrite !Forall_forall. intros HD e He.
  apply in_map_iff in He. destruct He as [[i d] [<- Hin]]. simpl.
  apply HD. eapply in_combine_r. exact Hin.
Qed.

Lemma Rnp_power_nonneg (x y : R) : 0 <= Rnp_power x y.
Proof.
  unfold Rnp_power. destruct (Rlt_dec 0 x).
  - unfold Rpower. left. apply exp_pos.
  - destruct (Req_dec_T y 0); lra.
Qed.

Lemma nonneg_mask_power (alpha : R) (D : list R) :
  Forall (fun d => 0 <= d)
         (mask_nonzero real (fun d => pow real_ufuncs d (neg real alpha)) D).
Proof.
  unfold mask_nonzero. rewrite Forall_forall. intros d Hd.
  apply in_map_iff in Hd. destruct Hd as [x [<- _]]. simpl.
  unfold Req_bool. destruct (Req_dec_T x 0) as [->|_].
  - lra.
  - apply Rnp_power_nonneg.
Qed.

Lemma nonneg_transpose (W : coo R) : nonneg_values W -> nonneg_values (transpose W).
Proof.
  unfold nonneg_values, transpose. rewrite !Forall_forall. intros H e He.
  apply in_map_iff in He. destruct He as [x [<- Hx]]. simpl. apply H, Hx.
Qed.

Lemma nonneg_np_exp_neg (edges : coo R) :
  nonneg_values (np_exp_neg real real_ufuncs edges).
Proof.
  unfold nonneg_values, np_exp_neg. rewrite Forall_forall. intros e He.
  apply in_map_iff in He. destruct He as [x [<- _]]. simpl.
  left. apply exp_pos.
Qed.

(** The kernel of any weight matrix is symmetric, and non-negative when
    the weights are. *)
Lemma kernel_construction_symmetric_nonneg (alpha : R) (N : nat) (W : coo R) :
  (forall i j,
      entry real (fst (kernel_construction real real_ufuncs alpha N W)) i j
      = entry real (fst (kernel_construction real real_ufuncs alpha N W)) j i)
  /\ (nonneg_values W ->
      nonneg_values (fst (kernel_construction real real_ufuncs alpha N W))).
Proof.
  unfold kernel_construction.
  set (K := sp_add W (transpose W)).
  assert (Ksym : forall i j, entry real K i j = entry real K j i).
  { intros i j. unfold K. rewrite !entry_sp_add, !entry_transpose. lra. }
  assert (Kpos : nonneg_values W -> nonneg_values K).
  { intros HW. unfold K, sp_add, nonneg_values. apply Forall_app.
    split; [exact HW | apply nonneg_transpose, HW]. }
  destruct (ltb real (zero real) alpha); simpl fst; [|split; assumption].
  set (D := mask_nonzero real (fun d => pow real_ufuncs d (neg real alpha))
                         (sum_axis1 real N K)).
  assert (HD : List.length D = N).
  { unfold D. rewrite mask_nonzero_length. apply sum_axis1_length. }
  split.
  - intros i j.
    rewrite !(entry_dot_diag N D _ _ _ HD), !(entry_diag_dot N D _ _ _ HD).
    rewrite (Ksym i j).
    destruct (i <? N)%nat, (j <? N)%nat; lra.
  - intros HW. apply nonneg_dot; [apply nonneg_dot|]; auto;
      apply nonneg_diag, nonneg_mask_power.
Qed.

(** ** The kernel in binary64 *)











(** ** Eigenvalue order and unit columns (C4) *)

Lemma sorted_snoc {X : Type} (P : X -> X -> Prop) (l : list X) (x : X) :
  StronglySorted P l -> Forall (fun y => P y x) l -> StronglySorted P (l ++ [x]).
Proof.
  induction 1 as [|a t Hs IH Ha]; intros Hx; simpl.
  - repeat constructor.
  - inversion Hx; subst. constructor; [apply IH; assumption|].
    apply Forall_app. split; [exact Ha | repeat constructor; assumption].
Qed.

Lemma sorted_rev {X : Type} (P : X -> X -> Prop) (l : list X) :
  StronglySorted P l -> StronglySorted (fun a b => P b a) (rev l).
Proof.
  induction 1 as [|a t Hs IH Ha]; simpl; [constructor|].
  apply sorted_snoc; [exact IH|].
  rewrite Forall_forall in *. intros y Hy. apply Ha. apply in_rev. exact Hy.
Qed.

Lemma sorted_map {X Y : Type} (P : Y -> Y -> Prop) (f : X -> Y) (l : list X) :
  StronglySorted (fun a b => P (f a) (f b)) l -> StronglySorted P (map f l).
Proof.
  induction 1 as [|a t Hs IH Ha]; simpl; constructor; [exact IH|].
  rewrite Forall_forall in *. intros y Hy. apply in_map_iff in Hy.
  destruct Hy as [x [<- Hx]]. apply Ha, Hx.
Qed.

Lemma combine_seq_snd (D : list R) (s : nat) :
  map snd (combine (seq s (List.length D)) D) = D.
Proof.
  revert s. induction D as [|d t IH]; intros s; simpl; [reflexivity|].
  rewrite IH. reflexivity.
Qed.

Lemma combine_seq_in {Y : Type} (D : list Y) (d : Y) (i : nat) (v : Y) :
  In (i, v) (combine (seq 0 (List.length D)) D) ->
  (i < List.length D)%nat /\ nth i D d = v.
Proof.
  intros H. destruct (In_nth _ _ (0%nat, d) H) as [n [Hn E]].
  rewrite length_combine, length_seq, Nat.min_id in Hn.
  rewrite combine_nth in E by (rewrite length_seq; reflexivity).
  rewrite seq_nth in E by exact Hn. simpl in E.
  injection E as <- <-. split; [exact Hn | reflexivity].
Qed.

(** The pairs (index, value) of a vector, sorted by value: what
    [np.argsort] orders. *)
Lemma argsort_pairs (D : list R) :
  let S := sort_by (fun p q => leb real (snd p) (snd q))
                   (combine (seq 0 (List.length D)) D) in
  np_argsort real D = map fst S
  /\ map (fun i => nth i D 0) (map fst S) = map snd S
  /\ Permutation (map snd S) D
  /\ StronglySorted Rle (map snd S)
  /\ Forall (fun i => (i < List.length D)%nat) (map fst S).
Proof.
  intros S.
  assert (ES : S = sort_by (fun p q => leb real (snd p) (snd q))
                           (combine (seq 0 (List.length D)) D)) by reflexivity.
  clearbody S.
  assert (HP : Permutation S (combine (seq 0 (List.length D)) D))
    by (rewrite ES; apply sort_by_perm).
  assert (Hin : forall i v, In (i, v) S -> (i < List.length D)%nat /\ nth i D 0 = v).
  { intros i v H. apply (combine_seq_in D 0).
    eapply Permutation_in; [exact HP | exact H]. }
  split; [rewrite ES; reflexivity|]. split; [|split; [|split]].
  - rewrite map_map. apply map_ext_in. intros [i v] H. simpl.
    apply (Hin i v H).
  - eapply perm_trans; [apply Permutation_map; exact HP|].
    rewrite combine_seq_snd. apply Permutation_refl.
  - apply sorted_map.
    pose proof (sort_by_sorted (fun p q : nat * R => leb real (snd p) (snd q))
                  (fun a b => Rle_bool_total (snd a) (snd b))
                  (fun a b c => Rle_bool_trans (snd a) (snd b) (snd c))
                  (combine (seq 0 (List.length D)) D)) as Hs.
    rewrite <- ES in Hs. clear ES HP Hin.
    induction Hs as [|x t Hs IH Hx]; constructor; [exact IH|].
    rewrite Forall_forall in *. intros y Hy. apply Rle_bool_iff. apply Hx, Hy.
  - rewrite Forall_forall. intros i Hi. apply in_map_iff in Hi.
    destruct Hi as [[i' v] [<- H]]. simpl. apply (Hin i' v H).
Qed.

Lemma sum_squares_pos (c : list R) :
  (exists x, In x c /\ x <> 0) -> 0 < np_sum real (map (fun x => x * x) c).
Proof.
  intros [x [Hx Hnz]]. induction c as [|a t IH]; [contradiction|].
  simpl. rewrite np_sum_cons.
  assert (Ht : 0 <= np_sum real (map (fun x => x * x) t)).
  { apply np_sum_nonneg. rewrite Forall_forall. intros y Hy.
    apply in_map_iff in Hy. destruct Hy as [z [<- _]]. nra. }
  destruct Hx as [->|Hx].
  - assert (0 < x * x) by nra. lra.
  - specialize (IH Hx). nra.
Qed.

Lemma sum_squares_scaled (c : list R) (n : R) :
  n <> 0 ->
  np_sum real (map (fun x => x * x) (map (fun x => x / n) c))
  = np_sum real (map (fun x => x * x) c) / (n * n).
Proof.
  intros Hn. induction c as [|a t IH]; simpl.
  - rewrite np_sum_nil. field. exact Hn.
  - rewrite !np_sum_cons, IH. field. exact Hn.
Qed.

(** A column with a nonzero entry, divided by its norm, has norm 1. *)
Lemma normalized_column_norm (c : list R) :
  (exists x, In x c /\ x <> 0) ->
  norm real (map (fun x => div real x (norm real c)) c) = 1.
Proof.
  intros Hc. pose proof (sum_squares_pos c Hc) as Hs.
  assert (Hn : 0 < norm real c)
    by (unfold norm; simpl; apply sqrt_lt_R0; exact Hs).
  assert (Hsq : norm real c * norm real c
                = np_sum real (map (fun x => x * x) c))
    by (unfold norm; simpl; apply sqrt_sqrt; lra).
  set (n := norm real c) in *. clearbody n.
  unfold norm. simpl.
  rewrite (sum_squares_scaled c n) by lra.
  rewrite Hsq.
  replace (np_sum real (map (fun x => x * x) c)
           / np_sum real (map (fun x => x * x) c)) with 1 by (field; lra).
  apply sqrt_1.
Qed.

Lemma eigen_postprocess_shape (pairs : list ((R * R) * list (R * R))) :
  let D := map (fun p => np_real (fst p)) pairs in
  let V := map (fun p => map np_real (snd p)) pairs in
  let S := sort_by (fun p q => leb real (snd p) (snd q))
                   (combine (seq 0 (List.length D)) D) in
  eigen_postprocess real pairs
  = (rev (map snd S),
     map (fun c => map (fun x => x / norm real c) c)
         (map (fun i => nth i V []) (rev (map fst S)))).
Proof.
  intros D V S. unfold eigen_postprocess.
  destruct (argsort_pairs D) as [Ha [Hv _]]. fold S in Ha, Hv.
  fold D. fold V. rewrite Ha. f_equal.
  rewrite map_rev. f_equal. exact Hv.
Qed.

(** C4, in exact arithmetic: whatever eigenpairs the solver returns, the
    [EigenValues] of the bundle are their real parts rearranged in
    non-increasing order; and when the real part of every eigenvector
    returned has a nonzero entry, every column of [EigenVectors] has
    Euclidean norm 1.  There are as many columns as eigenpairs. *)
Theorem eigen_postprocess_sorted_unit (pairs : list ((R * R) * list (R * R))) :
  Forall (fun p => exists z, In z (snd p) /\ np_real z <> 0) pairs ->
  let DV := eigen_postprocess real pairs in
  Permutation (fst DV) (map (fun p => np_real (fst p)) pairs)
  /\ StronglySorted Rge (fst DV)
  /\ List.length (snd DV) = List.length pairs
  /\ Forall (fun c => norm real c = 1) (snd DV).
Proof.
  intros Hnz DV. subst DV. rewrite eigen_postprocess_shape. cbv zeta.
  set (D := map (fun p => np_real (fst p)) pairs).
  set (V := map (fun p => map np_real (snd p)) pairs).
  destruct (argsort_pairs D) as [_ [_ [Hp [Hs Hr]]]].
  set (S := sort_by (fun p q => leb real (snd p) (snd q))
                    (combine (seq 0 (List.length D)) D)) in *.
  cbn [fst snd].
  split; [|split; [|split]].
  - eapply perm_trans; [apply Permutation_sym, Permutation_rev | exact Hp].
  - pose proof (sorted_rev Rle _ Hs) as Hd.
    induction Hd as [|x t Hd IH Hx]; constructor; [exact IH|].
    rewrite Forall_forall in *. intros y Hy. apply Rle_ge, Hx, Hy.
  - rewrite !length_map, length_rev, length_map. unfold S.
    rewrite sort_by_length, length_combine, length_seq, Nat.min_id.
    unfold D. apply length_map.
  - rewrite Forall_forall. intros c Hc.
    apply in_map_iff in Hc. destruct Hc as [c0 [<- Hc0]].
    apply normalized_column_norm.
    apply in_map_iff in Hc0. destruct Hc0 as [i [<- Hi]].
    apply in_rev in Hi.
    assert (Hlt : (i < List.length V)%nat).
    { rewrite Forall_forall in Hr.
      replace (List.length V) with (List.length D)
        by (unfold V, D; rewrite !length_map; reflexivity).
      apply Hr. exact Hi. }
    pose proof (nth_In V [] Hlt) as Hin.
    set (c0 := nth i V []) in *. clearbody c0.
    unfold V in Hin. apply in_map_iff in Hin. destruct Hin as [p [Ep Hp']].
    rewrite Forall_forall in Hnz. destruct (Hnz p Hp') as [z [Hz Hzn]].
    exists (np_real z). split; [|exact Hzn].
    rewrite <- Ep. apply in_map. exact Hz.
Qed.

Lemma eigen_postprocess_sorted_unit_witness :
  let pairs : list ((R * R) * list (R * R)) :=
    [ ((1 / 2, 0), [(1, 0); (-1, 0)]);
      ((1, 0), [(1, 0); (1, 0)]) ] in
  let DV := eigen_postprocess real pairs in
  Permutation (fst DV) (map (fun p => np_real (fst p)) pairs)
  /\ StronglySorted Rge (fst DV)
  /\ List.length (snd DV) = List.length pairs
  /\ Forall (fun c => norm real c = 1) (snd DV).
Proof.
  intros pairs.
  apply (eigen_postprocess_sorted_unit pairs).
  unfold pairs.
  repeat constructor; exists (1, 0); (split; [simpl; auto | simpl; lra]).
Defined.

(** ** The bundle of [fit_transform]

    What the stage theorems above say about a returned bundle: its
    [kernel] and [T] are [kernel_construction] and [diffusion_operator] of
    the weights the neighbour stage returned, and its eigenpairs are
    [eigen_postprocess] of the solver's answer. *)
Lemma fit_transform_bundle
      {A : Type} (O : dtype A) (U : ufuncs A) (ext : externals A)
      (self : Diffusor.t A) (data : samples A) (plot_knee : bool)
      (res : bundle A) (tr : list event) :
  fst (Diffusor.fit_transform O U ext self data plot_knee) = (Ok res, tr) ->
  exists W pairs,
    let N := shape0 data in
    let KD := kernel_construction O U (Diffusor.alpha self) N W in
    fst (Diffusor.neighbor_stage O U ext
           (Diffusor.set_plot_knee self plot_knee) data N) = Ok W
    /\ scipy_eigs ext (T res) (Diffusor.n_components self) = Ok pairs
    /\ kernel res = fst KD
    /\ T res = diffusion_operator O N (fst KD) (snd KD)
    /\ EigenValues res = fst (eigen_postprocess O pairs)
    /\ EigenVectors res = snd (eigen_postprocess O pairs).
Proof.
  unfold Diffusor.fit_transform. cbv zeta. cbn [fst].
  destruct (Diffusor.neighbor_stage O U ext
              (Diffusor.set_plot_knee self plot_knee) data (shape0 data))
    as [[W|e] tr0]; [|discriminate].
  unfold bind, call. cbn [Diffusor.alpha Diffusor.n_components Diffusor.set_plot_knee].
  destruct (scipy_eigs ext _ (Diffusor.n_components self)) as [pairs|e] eqn:Ee;
    [|discriminate].
  destruct (shape0 data =? 0)%nat; [discriminate|].
  unfold ret. intros H. injection H as <- _.
  exists W, pairs. cbn [T kernel EigenValues EigenVectors fst].
  repeat split; try reflexivity. exact Ee.
Qed.

(** * Further properties of the code *)

Local Close Scope R_scope.

(** ** Failures of the approximate branch before any external call *)

Lemma dict_get_unsupported (metric : string) :
  NMSlibTransformer.supported metric = false ->
  NMSlibTransformer.dict_get NMSlibTransformer.space_table metric = Raise KeyError.
Proof.
  unfold NMSlibTransformer.supported.
  induction NMSlibTransformer.space_table as [|[k v] rest IH]; simpl; [reflexivity|].
  destruct (String.eqb k metric); simpl; [discriminate | exact IH].
Qed.

Lemma dict_get_in (d : list (string * string)) (key value : string) :
  NMSlibTransformer.dict_get d key = Ok value -> In (key, value) d.
Proof.
  induction d as [|[k v] rest IH]; simpl; [discriminate|].
  destruct (String.eqb k key) eqn:E.
  - apply String.eqb_eq in E. subst k. intros H. injection H as <-. left. reflexivity.
  - intros H. right. apply IH, H.
Qed.

(** X1: the constructor of [NMSlibTransformer] raises [KeyError] exactly
    for a metric that is not a key of its table; for a key it returns an
    unfitted estimator that records the arguments and the space the table
    gives for the metric. *)
Theorem init_key_error
        {A : Type} (n_neighbors : Z) (metric method : string)
        (n_jobs M efC efS : Z) (p : option A) :
  (NMSlibTransformer.supported metric = false ->
   NMSlibTransformer.__init__ n_neighbors metric method n_jobs M efC efS p
   = Raise KeyError)
  /\ (NMSlibTransformer.supported metric = true ->
      exists self,
        NMSlibTransformer.__init__ n_neighbors metric method n_jobs M efC efS p
        = Ok self
        /\ In (metric, NMSlibTransformer.space self) NMSlibTransformer.space_table
        /\ NMSlibTransformer.metric self = metric
        /\ NMSlibTransformer.n_neighbors self = n_neighbors
        /\ NMSlibTransformer.n_samples_fit_ self = None
        /\ NMSlibTransformer.nmslib_ self = None).
Proof.
  unfold NMSlibTransformer.__init__. split; intros H.
  - rewrite (dict_get_unsupported metric H). reflexivity.
  - destruct (dict_get_supported metric H) as [space Hs]. rewrite Hs.
    cbn [rbind].
    eexists. split; [reflexivity|].
    cbn [NMSlibTransformer.space NMSlibTransformer.metric
         NMSlibTransformer.n_neighbors NMSlibTransformer.n_samples_fit_
         NMSlibTransformer.nmslib_].
    split; [apply dict_get_in; exact Hs|]. repeat split.
Qed.

Lemma neighbor_stage_unknown_metric
      {A : Type} (O : dtype A) (U : ufuncs A) (ext : externals A)
      (self : Diffusor.t A) (data : samples A) (N : nat) :
  Diffusor.ann self = true ->
  NMSlibTransformer.supported (Diffusor.ann_dist self) = false ->
  Diffusor.neighbor_stage O U ext self data N = (Raise KeyError, []).
Proof.
  intros Hann Hun. unfold Diffusor.neighbor_stage. rewrite Hann.
  unfold Diffusor.ann_graph, NMSlibTransformer.__init__.
  rewrite (dict_get_unsupported _ Hun). reflexivity.
Qed.

Lemma neighbor_stage_dense_input
      {A : Type} (O : dtype A) (U : ufuncs A) (ext : externals A)
      (self : Diffusor.t A) (data : samples A) (N : nat) :
  Diffusor.ann self = true ->
  NMSlibTransformer.supported (Diffusor.ann_dist self) = true ->
  issparse data = false ->
  Diffusor.neighbor_stage O U ext self data N = (Raise AttributeError, []).
Proof.
  intros Hann Hsup Hd. unfold Diffusor.neighbor_stage. rewrite Hann.
  unfold Diffusor.ann_graph, NMSlibTransformer.__init__.
  destruct (dict_get_supported _ Hsup) as [space ->].
  unfold NMSlibTransformer.fit. cbn [rbind lift bind]. rewrite Hd. reflexivity.
Qed.

(** X2: with [ann = True] and an [ann_dist] outside the table,
    [fit_transform] raises [KeyError] and has called no external library,
    whatever the data and the other options. *)
Theorem fit_transform_unknown_metric
        {A : Type} (O : dtype A) (U : ufuncs A) (ext : externals A)
        (self : Diffusor.t A) (data : samples A) (plot_knee : bool) :
  Diffusor.ann self = true ->
  NMSlibTransformer.supported (Diffusor.ann_dist self) = false ->
  fst (Diffusor.fit_transform O U ext self data plot_knee) = (Raise KeyError, []).
Proof.
  intros Hann Hun. unfold Diffusor.fit_transform. cbv zeta. cbn [fst].
  rewrite (neighbor_stage_unknown_metric O U ext
             (Diffusor.set_plot_knee self plot_knee) data (shape0 data) Hann Hun).
  reflexivity.
Qed.

Lemma fit_transform_unknown_metric_witness :
  fst (Diffusor.fit_transform real real_ufuncs real_line_externals
         (ann_diffusor 2 4 "manhattan") real_line_points false)
  = (Raise KeyError, []).
Proof.
  apply (fit_transform_unknown_metric real real_ufuncs real_line_externals
           (ann_diffusor 2 4 "manhattan") real_line_points false);
    reflexivity.
Defined.

(** X3: with [ann = True], a metric of the table and a sample matrix that
    is not sparse, [fit_transform] raises [AttributeError] (from
    [data.tocsr()] in [NMSlibTransformer.fit]) before any call to nmslib. *)
Theorem fit_transform_dense_input
        {A : Type} (O : dtype A) (U : ufuncs A) (ext : externals A)
        (self : Diffusor.t A) (data : samples A) (plot_knee : bool) :
  Diffusor.ann self = true ->
  NMSlibTransformer.supported (Diffusor.ann_dist self) = true ->
  issparse data = false ->
  fst (Diffusor.fit_transform O U ext self data plot_knee)
  = (Raise AttributeError, []).
Proof.
  intros Hann Hsup Hd. unfold Diffusor.fit_transform. cbv zeta. cbn [fst].
  rewrite (neighbor_stage_dense_input O U ext
             (Diffusor.set_plot_knee self plot_knee) data (shape0 data)
             Hann Hsup Hd).
  reflexivity.
Qed.

Lemma fit_transform_dense_input_witness :
  fst (Diffusor.fit_transform real real_ufuncs real_line_externals
         (ann_diffusor 2 4 "angular_sparse") real_line_points false)
  = (Raise AttributeError, []).
Proof.
  apply (fit_transform_dense_input real real_ufuncs real_line_externals
           (ann_diffusor 2 4 "angular_sparse") real_line_points false);
    reflexivity.
Defined.

(** X4: [fit_transform] never returns a bundle for a sample matrix with no
    rows: whatever the external libraries answer, the run ends in an
    exception (at the latest the division by [N] of the closing report). *)
Theorem fit_transform_empty_input
        {A : Type} (O : dtype A) (U : ufuncs A) (ext : externals A)
        (self : Diffusor.t A) (data : samples A) (plot_knee : bool) :
  shape0 data = 0 ->
  exists e, fst (fst (Diffusor.fit_transform O U ext self data plot_knee)) = Raise e.
Proof.
  intros HN. unfold Diffusor.fit_transform. cbv zeta. cbn [fst].
  destruct (Diffusor.neighbor_stage O U ext
              (Diffusor.set_plot_knee self plot_knee) data (shape0 data))
    as [[W|e] tr0]; [|exists e; reflexivity].
  unfold bind, call.
  destruct (scipy_eigs ext _ _) as [pairs|e]; [|exists e; reflexivity].
  rewrite HN. cbn [Nat.eqb]. exists ZeroDivisionError. reflexivity.
Qed.

Lemma fit_transform_empty_input_witness :
  exists e,
    fst (fst (Diffusor.fit_transform real real_ufuncs real_line_externals
                (exact_diffusor 2 4 "euclidean") (Dense []) false))
    = Raise e.
Proof.
  apply (fit_transform_empty_input real real_ufuncs real_line_externals
           (exact_diffusor 2 4 "euclidean") (Dense []) false).
  reflexivity.
Defined.

(** ** The graph of [NMSlibTransformer.transform] *)

Lemma np_arange_indptr (n : nat) (k : Z) :
  (0 < k)%Z ->
  np_arange 0 (Z.of_nat n * k + 1) k
  = Ok (map (fun i => (Z.of_nat i * k)%Z) (seq 0 (S n))).
Proof.
  intros Hk. unfold np_arange.
  destruct (k =? 0)%Z eqn:E; [apply Z.eqb_eq in E; lia|].
  assert (Hq : (- (Z.of_nat n * k + 1 - 0) / k = - (Z.of_nat n + 1))%Z).
  { symmetry. apply (Z.div_unique_pos _ _ _ (k - 1)); [lia|]. nia. }
  rewrite Hq.
  replace (Z.to_nat (Z.max 0 (- - (Z.of_nat n + 1)))) with (S n) by lia.
  f_equal.
Qed.

Lemma concat_length_uniform {X : Type} (k : nat) (blocks : list (list X)) :
  Forall (fun b => List.length b = k) blocks ->
  List.length (concat blocks) = List.length blocks * k.
Proof.
  induction 1 as [|b t Hb Ht IH]; simpl; [reflexivity|].
  rewrite length_app, IH, Hb. reflexivity.
Qed.

Lemma concat_block {X : Type} (k : nat) (blocks : list (list X)) :
  Forall (fun b => List.length b = k) blocks ->
  forall i, i < List.length blocks ->
    py_slice (concat blocks) (i * k) (S i * k) = nth i blocks [].
Proof.
  unfold py_slice. induction 1 as [|b t Hb Ht IH]; intros i Hi; simpl in Hi; [lia|].
  replace (S i * k - i * k) with k by lia.
  destruct i as [|i]; simpl.
  - rewrite firstn_app, Hb, Nat.sub_diag. simpl.
    rewrite app_nil_r. rewrite <- Hb. apply firstn_all.
  - rewrite skipn_app, Hb.
    replace (k + i * k - k) with (i * k) by lia.
    rewrite (skipn_all2 b) by lia. simpl.
    specialize (IH i ltac:(lia)).
    replace (S i * k - i * k) with k in IH by lia. exact IH.
Qed.

Lemma combine_concat {X Y : Type} (a : list (list X)) (b : list (list Y)) :
  Forall2 (fun x y => List.length x = List.length y) a b ->
  combine (concat a) (concat b)
  = concat (map (fun xy => combine (fst xy) (snd xy)) (combine a b)).
Proof.
  induction 1 as [|x y ta tb Hxy Ht IH]; simpl; [reflexivity|].
  rewrite <- IH. clear IH Ht.
  revert y Hxy. induction x as [|x0 x IHx]; intros [|y0 y] Hxy; simpl in *;
    try discriminate; [reflexivity|].
  f_equal. apply IHx. lia.
Qed.

Lemma np_vstack_uniform {X : Type} (k : nat) (rows : list (list X)) :
  rows <> [] ->
  Forall (fun r => List.length r = k) rows ->
  np_vstack rows = Ok rows.
Proof.
  intros Hne Hk. destruct rows as [|r t]; [congruence|]. unfold np_vstack.
  replace (forallb (fun r' => List.length r' =? List.length r) (r :: t)) with true;
    [reflexivity|].
  symmetry. apply forallb_forall. intros r' Hr'.
  rewrite Forall_forall in Hk. apply Nat.eqb_eq.
  rewrite (Hk r' Hr'), (Hk r (or_introl eq_refl)). reflexivity.
Qed.

(** X5: on a fitted estimator, when nmslib answers the batch query with
    [k = n_neighbors + 1] ids and distances for each of the [n >= 1] rows
    of [data], [transform] returns a CSR graph of shape
    [(n, n_samples_fit_)] whose row [i] stores exactly the [k] (id,
    distance) pairs answered for row [i], in nmslib's order; with
    [metric = 'sqeuclidean'] each distance is squared. *)
Theorem transform_graph_rows
        {A : Type} (O : dtype A) (ext : externals A)
        (self : NMSlibTransformer.t A) (data : samples A)
        (ix : nmslib.Index A) (n_fit : nat)
        (results : list (list nat * list A)) :
  NMSlibTransformer.nmslib_ self = Some ix ->
  NMSlibTransformer.n_samples_fit_ self = Some n_fit ->
  (0 < NMSlibTransformer.n_neighbors self + 1)%Z ->
  nmslib_knnQueryBatch ext
    (nmslib.setQueryTimeParams ix (NMSlibTransformer.efS self)) data
    (NMSlibTransformer.n_neighbors self + 1) (NMSlibTransformer.n_jobs self)
  = Ok results ->
  List.length results = shape0 data ->
  0 < shape0 data ->
  Forall (fun r =>
            List.length (fst r) = Z.to_nat (NMSlibTransformer.n_neighbors self + 1)
            /\ List.length (snd r) = Z.to_nat (NMSlibTransformer.n_neighbors self + 1))
         results ->
  exists g,
    fst (fst (NMSlibTransformer.transform O ext self data)) = Ok g
    /\ csr_shape g = (shape0 data, n_fit)
    /\ forall i, i < shape0 data ->
         csr_row g i
         = combine (fst (nth i results ([], [])))
                   (if String.eqb (NMSlibTransformer.metric self) "sqeuclidean"
                    then map (fun d => mul O d d) (snd (nth i results ([], [])))
                    else snd (nth i results ([], []))).
Proof.
  intros Hix Hfit Hk Hq Hlen Hn Hrows.
  set (k := (NMSlibTransformer.n_neighbors self + 1)%Z) in *.
  set (kn := Z.to_nat k) in *.
  set (n := shape0 data) in *.
  set (dists := if String.eqb (NMSlibTransformer.metric self) "sqeuclidean"
                then map (map (fun d => mul O d d)) (map snd results)
                else map snd results).
  assert (Hids : Forall (fun r => List.length r = kn) (map fst results)).
  { rewrite Forall_forall in *. intros r Hr. apply in_map_iff in Hr.
    destruct Hr as [x [<- Hx]]. apply (Hrows x Hx). }
  assert (Hds0 : Forall (fun r => List.length r = kn) (map snd results)).
  { rewrite Forall_forall in *. intros r Hr. apply in_map_iff in Hr.
    destruct Hr as [x [<- Hx]]. apply (Hrows x Hx). }
  assert (Hds : Forall (fun r => List.length r = kn) dists).
  { unfold dists. destruct (String.eqb _ _); [|exact Hds0].
    rewrite Forall_forall in *. intros r Hr. apply in_map_iff in Hr.
    destruct Hr as [x [<- Hx]]. rewrite length_map. apply Hds0, Hx. }
  assert (Hdl : List.length dists = n).
  { unfold dists. destruct (String.eqb _ _); rewrite ?length_map; exact Hlen. }
  assert (Hne : results <> []) by (intros ->; simpl in Hlen; lia).
  unfold NMSlibTransformer.transform. rewrite Hix, Hfit. cbv zeta.
  fold k. cbn [fst]. rewrite Hq. unfold call, bind, lift.
  assert (Hv1 : np_vstack (map fst results) = Ok (map fst results)).
  { apply (np_vstack_uniform kn); [|exact Hids].
    destruct results; [congruence | discriminate]. }
  assert (Hv2 : np_vstack (map snd results) = Ok (map snd results)).
  { apply (np_vstack_uniform kn); [|exact Hds0].
    destruct results; [congruence | discriminate]. }
  rewrite Hv1, Hv2.
  cbn [rbind]. fold dists. fold n.
  rewrite (np_arange_indptr n k Hk). cbn [rbind].
  assert (Hli : List.length (np_ravel (map fst results)) = n * kn).
  { unfold np_ravel. rewrite (concat_length_uniform kn _ Hids), length_map, Hlen.
    reflexivity. }
  assert (Hld : List.length (np_ravel dists) = n * kn).
  { unfold np_ravel. rewrite (concat_length_uniform kn _ Hds), Hdl. reflexivity. }
  assert (Hlast : last (map (fun i => (Z.of_nat i * k)%Z) (seq 0 (S n))) 0%Z
                  = (Z.of_nat n * k)%Z).
  { rewrite seq_S, map_app. simpl. apply last_last. }
  unfold csr_matrix. cbn [fst].
  rewrite length_map, length_seq, Nat.eqb_refl. cbn [negb].
  cbn [seq map hd]. rewrite Z.mul_0_l. cbn [Z.eqb negb].
  rewrite Hli, Hld, Nat.eqb_refl. cbn [negb].
  change (0%Z :: map (fun i => (Z.of_nat i * k)%Z) (seq 1 n))
    with (map (fun i => (Z.of_nat i * k)%Z) (seq 0 (S n))).
  rewrite Hlast.
  replace (Z.of_nat (n * kn) <? Z.of_nat n * k)%Z with false
    by (symmetry; apply Z.ltb_ge; unfold kn; lia).
  cbn [rbind].
  replace (n =? 0) with false by (symmetry; apply Nat.eqb_neq; lia).
  cbn [fst snd]. eexists. split; [reflexivity|].
  split; [reflexivity|].
  intros i Hi. unfold csr_row. cbn [csr_indices csr_data csr_indptr].
  replace (Z.to_nat (Z.of_nat n * k)) with (n * kn) by (unfold kn; lia).
  rewrite <- Hli at 1. rewrite firstn_all.
  rewrite <- Hld. rewrite firstn_all.
  rewrite map_map.
  assert (Hptr : forall j, j <= n ->
            nth j (Z.to_nat 0
                   :: map (fun x => Z.to_nat (Z.of_nat x * k)) (seq 1 n)) 0
            = j * kn).
  { intros j Hj.
    change (Z.to_nat 0 :: map (fun x => Z.to_nat (Z.of_nat x * k)) (seq 1 n))
      with (map (fun x => Z.to_nat (Z.of_nat x * k)) (seq 0 (S n))).
    rewrite nth_map_seq by lia. unfold kn. lia. }
  rewrite !Hptr by lia.
  unfold np_ravel.
  assert (HF2 : Forall2 (fun x y => List.length x = List.length y)
                        (map fst results) dists).
  { clear - Hids Hds Hdl Hlen. 
    assert (Hl : List.length (map fst results) = List.length dists)
      by (rewrite length_map; lia).
    revert Hl Hids Hds. generalize (map fst results) as a. generalize dists as b.
    induction b as [|y b IH]; intros [|x a] Hl Ha Hb; simpl in Hl; try discriminate.
    - constructor.
    - inversion Ha; inversion Hb; subst. constructor; [congruence|].
      apply IH; auto. }
  rewrite (combine_concat _ _ HF2).
  assert (Hblocks : Forall (fun b => List.length b = kn)
                           (map (fun xy => combine (fst xy) (snd xy))
                                (combine (map fst results) dists))).
  { rewrite Forall_forall. intros b Hb. apply in_map_iff in Hb.
    destruct Hb as [[x y] [<- Hxy]]. simpl. rewrite length_combine.
    rewrite Forall_forall in Hids, Hds.
    rewrite (Hids x (in_combine_l _ _ _ _ Hxy)), (Hds y (in_combine_r _ _ _ _ Hxy)).
    apply Nat.min_id. }
  rewrite (concat_block kn _ Hblocks i)
    by (rewrite length_map, length_combine, length_map, Hdl, Hlen; lia).
  rewrite (nth_indep _ [] ((fun xy : list nat * list A => combine (fst xy) (snd xy)) ([], [])))
    by (rewrite length_map, length_combine, length_map, Hdl, Hlen; lia).
  rewrite (map_nth (fun xy : list nat * list A => combine (fst xy) (snd xy))).
  rewrite combine_nth by (rewrite length_map; lia). cbn [fst snd].
  rewrite <- (map_nth fst results ([], []) i). f_equal.
  unfold dists. destruct (String.eqb _ _).
  - rewrite map_map.
    exact (map_nth (fun r : list nat * list A =>
                      map (fun d => mul O d d) (snd r)) results ([], []) i).
  - exact (map_nth snd results ([], []) i).
Qed.

Lemma transform_graph_rows_witness :
  let results :=
    map (fun r => (firstn 3 (fst r), firstn 3 (snd r))) line_table in
  exists g,
    fst (fst (NMSlibTransformer.transform binary64 line_externals
                fitted_transformer line_points)) = Ok g
    /\ csr_shape g = (shape0 line_points, 5)
    /\ forall i, i < shape0 line_points ->
         csr_row g i
         = combine (fst (nth i results ([], [])))
                   (if String.eqb (NMSlibTransformer.metric fitted_transformer)
                                  "sqeuclidean"
                    then map (fun d => mul binary64 d d)
                             (snd (nth i results ([], [])))
                    else snd (nth i results ([], []))).
Proof.
  cbv zeta.
  eapply (transform_graph_rows binary64 line_externals fitted_transformer
            line_points).
  - reflexivity.
  - reflexivity.
  - simpl. lia.
  - reflexivity.
  - reflexivity.
  - simpl. lia.
  - repeat constructor.
Defined.

(** ** Edge cases of the bandwidth loop *)

Lemma py_index_raises_index_error {X : Type} (l : list X) (i : Z) :
  py_index l i = Raise IndexError \/ exists x, py_index l i = Ok x.
Proof.
  unfold py_index.
  destruct ((0 <=? _) && (_ <? _))%Z; [|left; reflexivity].
  destruct (nth_error l _) as [x|]; [right; exists x|left]; reflexivity.
Qed.

Lemma py_index_beyond {X : Type} (l : list X) (k : Z) :
  (1 <= k)%Z -> (Z.of_nat (List.length l) < k)%Z ->
  py_index l (k - 1) = Raise IndexError.
Proof.
  intros H1 H2. unfold py_index.
  destruct (k - 1 <? 0)%Z eqn:E; [apply Z.ltb_lt in E; lia|].
  replace (k - 1 <? Z.of_nat (List.length l))%Z with false
    by (symmetry; apply Z.ltb_ge; lia).
  rewrite andb_false_r. reflexivity.
Qed.

Lemma result_mapM_raises {X Y : Type} (f : X -> result Y) (e : exn) (l : list X) :
  (forall x, In x l -> f x = Raise e \/ exists y, f x = Ok y) ->
  (exists x, In x l /\ f x = Raise e) ->
  result_mapM f l = Raise e.
Proof.
  induction l as [|a t IH]; intros Hall [x [Hx Hr]]; [contradiction|].
  simpl. destruct (Hall a (or_introl eq_refl)) as [Ha | [y Ha]]; rewrite Ha; simpl.
  - reflexivity.
  - destruct Hx as [<-|Hx]; [congruence|].
    rewrite IH; [reflexivity | intros; apply Hall; right; assumption |].
    exists x. split; assumption.
Qed.

(** X6: when [adaptive_k >= 1] and some row of the graph stores fewer
    than [adaptive_k] distances, the bandwidth loop raises [IndexError]. *)
Theorem adaptive_std_ann_short_row
        {A : Type} (O : dtype A) (self : Diffusor.t A) (akNN : csr A)
        (N i : nat) :
  (1 <= Diffusor.adaptive_k self)%Z ->
  i < N ->
  (Z.of_nat (List.length (csr_row_data akNN i)) < Diffusor.adaptive_k self)%Z ->
  Diffusor.adaptive_std_ann O self akNN N = Raise IndexError.
Proof.
  intros Hk Hi Hshort. unfold Diffusor.adaptive_std_ann.
  apply result_mapM_raises.
  - intros x _. apply py_index_raises_index_error.
  - exists i. split; [apply in_seq; lia|].
    apply py_index_beyond; [exact Hk|].
    unfold np_sort. rewrite sort_by_length. exact Hshort.
Qed.

Lemma adaptive_std_ann_short_row_witness :
  Diffusor.adaptive_std_ann binary64
    (Diffusor.set_knn_dist (diffusor4 100 true) "euclidean")
    {| csr_data := [0%float; 1%float]; csr_indices := [0; 1];
       csr_indptr := [0; 1; 2]; csr_shape := (2, 2) |} 2
  = Raise IndexError.
Proof.
  apply (adaptive_std_ann_short_row binary64 _ _ 2 0).
  - vm_compute. discriminate.
  - lia.
  - vm_compute. reflexivity.
Defined.

Lemma py_index_minus_one {X : Type} (l : list X) (d : X) :
  l <> [] -> py_index l (-1) = Ok (last l d).
Proof.
  intros Hne. unfold py_index. cbn [Z.ltb Z.compare].
  destruct (exists_last Hne) as [t [x ->]].
  rewrite length_app, last_last. simpl List.length.
  replace ((0 <=? -1 + Z.of_nat (List.length t + 1))
           && (-1 + Z.of_nat (List.length t + 1)
               <? Z.of_nat (List.length t + 1)))%Z with true
    by (symmetry; apply andb_true_iff; split;
        [apply Z.leb_le | apply Z.ltb_lt]; lia).
  replace (Z.to_nat (-1 + Z.of_nat (List.length t + 1))) with (List.length t) by lia.
  rewrite nth_error_app2 by lia. rewrite Nat.sub_diag. reflexivity.
Qed.

Lemma sorted_last_max (l : list R) (d : R) :
  StronglySorted Rle l -> forall x, In x l -> (x <= last l d)%R.
Proof.
  induction 1 as [|a t Hs IH Ha]; intros x Hx; [contradiction|].
  rewrite Forall_forall in Ha.
  destruct t as [|b t'].
  - destruct Hx as [<-|[]]. simpl. lra.
  - change (last (a :: b :: t') d) with (last (b :: t') d).
    destruct Hx as [<-|Hx]; [|apply IH, Hx].
    apply Rle_trans with b; [apply Ha; left; reflexivity|].
    apply IH. left. reflexivity.
Qed.

Lemma last_in {X : Type} (l : list X) (d : X) : l <> [] -> In (last l d) l.
Proof.
  intros Hne. destruct (exists_last Hne) as [t [x ->]].
  rewrite last_last. apply in_or_app. right. left. reflexivity.
Qed.

(** X7: when [floor (n_neighbors / 2) = 0] (so [n_neighbors] is 0 or 1)
    the index [adaptive_k - 1 = -1] wraps around: over rows that are not
    empty the loop raises nothing, and each bandwidth is the largest
    distance stored in its row. *)
Theorem adaptive_std_ann_wraps_to_maximum
        (self : Diffusor.t R) (akNN : csr R) (N : nat) :
  Diffusor.adaptive_k self = 0%Z ->
  (forall i, i < N -> csr_row_data akNN i <> []) ->
  exists adaptive_std,
    Diffusor.adaptive_std_ann real self akNN N = Ok adaptive_std
    /\ List.length adaptive_std = N
    /\ forall i, i < N ->
         In (nth i adaptive_std 0%R) (csr_row_data akNN i)
         /\ forall d, In d (csr_row_data akNN i) -> (d <= nth i adaptive_std 0%R)%R.
Proof.
  intros Hk Hrows. unfold Diffusor.adaptive_std_ann. rewrite Hk.
  destruct (result_mapM_Forall2
              (fun i => py_index (np_sort real (csr_row_data akNN i)) (0 - 1))
              (fun i v => In v (csr_row_data akNN i)
                          /\ forall d, In d (csr_row_data akNN i) -> (d <= v)%R)
              (seq 0 N)) as [ys [Hys HP]].
  - intros i Hi. apply in_seq in Hi.
    pose proof (np_sort_perm real (csr_row_data akNN i)) as Hperm.
    assert (Hne : np_sort real (csr_row_data akNN i) <> []).
    { intros E. rewrite E in Hperm. apply Permutation_nil in Hperm.
      apply (Hrows i); [lia | exact Hperm]. }
    exists (last (np_sort real (csr_row_data akNN i)) 0%R).
    split; [apply (py_index_minus_one _ 0%R Hne)|]. split.
    + eapply Permutation_in; [exact Hperm | apply last_in, Hne].
    + intros d Hd. apply sorted_last_max; [apply np_sort_real_sorted|].
      eapply Permutation_in; [apply Permutation_sym, Hperm | exact Hd].
  - exists ys. split; [exact Hys|].
    destruct (Forall2_seq_nth _ 0%R _ _ _ HP) as [Hl Hn].
    split; [exact Hl|]. intros i Hi. exact (Hn i Hi).
Qed.

Lemma adaptive_std_ann_wraps_to_maximum_witness :
  let self := ann_diffusor 2 1 "cosine_sparse" in
  let akNN : csr R :=
    {| csr_data := [0; 1;  0; 1]%R; csr_indices := [0; 1;  1; 0];
       csr_indptr := [0; 2; 4]; csr_shape := (2, 2) |} in
  exists adaptive_std,
    Diffusor.adaptive_std_ann real self akNN 2 = Ok adaptive_std
    /\ List.length adaptive_std = 2
    /\ forall i, i < 2 ->
         In (nth i adaptive_std 0%R) (csr_row_data akNN i)
         /\ forall d, In d (csr_row_data akNN i) -> (d <= nth i adaptive_std 0%R)%R.
Proof.
  intros self akNN. apply (adaptive_std_ann_wraps_to_maximum self akNN 2).
  - reflexivity.
  - intros i Hi. destruct i as [|[|i]]; [| |lia]; discriminate.
Defined.

(** X8: when [floor (n_neighbors / 2) = 1] (so [n_neighbors] is 2 or 3)
    and every row holds non-negative distances with a zero among them
    (the distance of the point to itself), every bandwidth is 0. *)
Theorem adaptive_std_ann_all_zero
        (self : Diffusor.t R) (akNN : csr R) (N : nat) :
  Diffusor.adaptive_k self = 1%Z ->
  (forall i, i < N ->
     In 0%R (csr_row_data akNN i)
     /\ Forall (fun d => (0 <= d)%R) (csr_row_data akNN i)) ->
  exists adaptive_std,
    Diffusor.adaptive_std_ann real self akNN N = Ok adaptive_std
    /\ List.length adaptive_std = N
    /\ forall i, i < N -> nth i adaptive_std 0%R = 0%R.
Proof.
  intros Hk Hrows. unfold Diffusor.adaptive_std_ann. rewrite Hk.
  destruct (result_mapM_Forall2
              (fun i => py_index (np_sort real (csr_row_data akNN i)) (1 - 1))
              (fun i v => v = 0%R)
              (seq 0 N)) as [ys [Hys HP]].
  - intros i Hi. apply in_seq in Hi.
    destruct (Hrows i ltac:(lia)) as [H0 Hpos].
    pose proof (np_sort_perm real (csr_row_data akNN i)) as Hperm.
    pose proof (np_sort_real_sorted (csr_row_data akNN i)) as Hs.
    destruct (np_sort real (csr_row_data akNN i)) as [|v t] eqn:E.
    { apply Permutation_nil in Hperm. rewrite Hperm in H0. contradiction. }
    exists v. split; [reflexivity|].
    inversion Hs as [|? ? _ Hv]; subst. rewrite Forall_forall in Hv, Hpos.
    assert (Hv0 : (0 <= v)%R)
      by (apply Hpos; eapply Permutation_in; [exact Hperm | left; reflexivity]).
    assert (H0in : In 0%R (v :: t))
      by (eapply Permutation_in; [apply Permutation_sym, Hperm | exact H0]).
    destruct H0in as [->|H0in]; [reflexivity|].
    specialize (Hv _ H0in). lra.
  - exists ys. split; [exact Hys|].
    destruct (Forall2_seq_nth _ 0%R _ _ _ HP) as [Hl Hn].
    split; [exact Hl|]. intros i Hi. exact (Hn i Hi).
Qed.

Lemma adaptive_std_ann_all_zero_witness :
  let self := ann_diffusor 2 3 "cosine_sparse" in
  let akNN : csr R :=
    {| csr_data := [0; 1;  0; 1]%R; csr_indices := [0; 1;  1; 0];
       csr_indptr := [0; 2; 4]; csr_shape := (2, 2) |} in
  exists adaptive_std,
    Diffusor.adaptive_std_ann real self akNN 2 = Ok adaptive_std
    /\ List.length adaptive_std = 2
    /\ forall i, i < 2 -> nth i adaptive_std 0%R = 0%R.
Proof.
  intros self akNN. apply (adaptive_std_ann_all_zero self akNN 2).
  - reflexivity.
  - intros i Hi.
    destruct i as [|[|i]]; [| |lia];
      (split; [left; reflexivity | repeat constructor; lra]).
Defined.

(** ** Automatic choice of the embedding dimension *)

Lemma combine_seq_fst {Y : Type} (l : list Y) (s : nat) :
  map fst (combine (seq s (List.length l)) l) = seq s (List.length l).
Proof.
  revert s. induction l as [|y t IH]; intros s; simpl; [reflexivity|].
  rewrite IH. reflexivity.
Qed.

Lemma np_argsort_perm {A : Type} (O : dtype A) (l : list A) :
  Permutation (np_argsort O l) (seq 0 (List.length l)).
Proof.
  unfold np_argsort. rewrite <- (combine_seq_fst l 0) at 2.
  apply Permutation_map, sort_by_perm.
Qed.

Lemma np_argsort_length {A : Type} (O : dtype A) (l : list A) :
  List.length (np_argsort O l) = List.length l.
Proof.
  rewrite (Permutation_length (np_argsort_perm O l)). apply length_seq.
Qed.

Lemma np_argsort_bound {A : Type} (O : dtype A) (l : list A) (i : nat) :
  In i (np_argsort O l) -> i < List.length l.
Proof.
  intros H. apply (Permutation_in _ (np_argsort_perm O l)) in H.
  apply in_seq in H. lia.
Qed.

Lemma py_index_in {X : Type} (l : list X) (i : Z) (x : X) :
  py_index l i = Ok x -> In x l.
Proof.
  unfold py_index. destruct ((0 <=? _) && (_ <? _))%Z; [|discriminate].
  destruct (nth_error l _) as [y|] eqn:E; [|discriminate].
  intros H. injection H as <-. eapply nth_error_In, E.
Qed.

Lemma py_index_from_end {X : Type} (l : list X) (j : Z) :
  (1 <= j <= Z.of_nat (List.length l))%Z ->
  exists x, py_index l (- j) = Ok x.
Proof.
  intros Hj. unfold py_index.
  destruct (- j <? 0)%Z eqn:E; [|apply Z.ltb_ge in E; lia].
  replace ((0 <=? - j + Z.of_nat (List.length l))
           && (- j + Z.of_nat (List.length l) <? Z.of_nat (List.length l)))%Z
    with true
    by (symmetry; apply andb_true_iff; split;
        [apply Z.leb_le | apply Z.ltb_lt]; lia).
  destruct (nth_error l (Z.to_nat (- j + Z.of_nat (List.length l)))) as [x|] eqn:En.
  - exists x. reflexivity.
  - apply nth_error_None in En. lia.
Qed.

Lemma gaps_length {A : Type} (O : dtype A) (vals : list A) :
  List.length (map (fun ab => sub O (fst ab) (snd ab))
                   (combine (py_slice vals 0 (List.length vals - 1))
                            (skipn 1 vals)))
  = List.length vals - 1.
Proof.
  rewrite length_map, length_combine. unfold py_slice.
  rewrite length_firstn, !length_skipn. simpl. lia.
Qed.

(** X9: with [n_eigs = None], at least three eigenvalues and as many
    eigenvector columns, [multiscale.transform] never raises: it stores a
    dimension [m] with [2 <= m <=] the number of eigenvalues in [n_eigs]
    and returns an embedding of [m - 1] columns (at least one). *)
Theorem multiscale_transform_auto
        {A : Type} (O : dtype A) (self : multiscale.t A) (res : bundle A) :
  multiscale.n_eigs self = None ->
  3 <= List.length (EigenValues res) ->
  List.length (EigenValues res) <= List.length (EigenVectors res) ->
  exists m mms,
    multiscale.transform O self res = (Ok mms, multiscale.set_n_eigs self m)
    /\ (2 <= m <= Z.of_nat (List.length (EigenValues res)))%Z
    /\ List.length mms = Z.to_nat (m - 1).
Proof.
  intros Hn H3 Hc. unfold multiscale.transform, multiscale.select.
  rewrite Hn. cbv zeta.
  set (gaps := map (fun ab => sub O (fst ab) (snd ab))
                   (combine (py_slice (EigenValues res) 0
                                      (List.length (EigenValues res) - 1))
                            (skipn 1 (EigenValues res)))).
  assert (Hg : List.length gaps = List.length (EigenValues res) - 1)
    by apply gaps_length.
  assert (Ho : List.length (np_argsort O gaps) = List.length gaps)
    by apply np_argsort_length.
  destruct (py_index_from_end (np_argsort O gaps) 1) as [i1 E1]; [lia|].
  destruct (py_index_from_end (np_argsort O gaps) 2) as [i2 E2]; [lia|].
  change (- (1))%Z with (-1)%Z in E1. change (- (2))%Z with (-2)%Z in E2.
  rewrite E1.
  pose proof (np_argsort_bound O gaps i1 (py_index_in _ _ _ E1)) as B1.
  pose proof (np_argsort_bound O gaps i2 (py_index_in _ _ _ E2)) as B2.
  destruct (Z.of_nat i1 + 1 <? 3)%Z eqn:E3.
  - rewrite E2.
    rewrite (scale_columns O res (Z.of_nat i2 + 2)) by lia.
    eexists; eexists. split; [reflexivity|].
    split; [lia|]. rewrite length_map, length_seq. reflexivity.
  - apply Z.ltb_ge in E3.
    rewrite (scale_columns O res (Z.of_nat i1 + 1)) by lia.
    eexists; eexists. split; [reflexivity|].
    split; [lia|]. rewrite length_map, length_seq. reflexivity.
Qed.

Lemma multiscale_transform_auto_witness :
  exists m mms,
    multiscale.transform binary64 (multiscale_with None) small_bundle
    = (Ok mms, multiscale.set_n_eigs (multiscale_with None) m)
    /\ (2 <= m <= Z.of_nat (List.length (EigenValues small_bundle)))%Z
    /\ List.length mms = Z.to_nat (m - 1).
Proof.
  apply (multiscale_transform_auto binary64 (multiscale_with None) small_bundle).
  - reflexivity.
  - simpl. lia.
  - simpl. lia.
Defined.

(** X10: with [n_eigs = None] and fewer than two eigenvalues,
    [multiscale.transform] raises [IndexError] and leaves the object as it
    was.  With exactly two eigenvalues it raises [IndexError] too, but
    only after it has stored [n_eigs = 1]; a second call on the object
    then raises nothing and returns an embedding without columns. *)
Theorem multiscale_transform_few_eigenvalues
        {A : Type} (O : dtype A) (self : multiscale.t A) (res : bundle A) :
  multiscale.n_eigs self = None ->
  (List.length (EigenValues res) < 2 ->
   multiscale.transform O self res = (Raise IndexError, self))
  /\ (List.length (EigenValues res) = 2 ->
      multiscale.transform O self res
      = (Raise IndexError, multiscale.set_n_eigs self 1)
      /\ multiscale.transform O (multiscale.set_n_eigs self 1) res
         = (Ok [], multiscale.set_n_eigs self 1)).
Proof.
  intros Hn. unfold multiscale.transform, multiscale.select. rewrite Hn.
  split; intros Hl.
  - destruct (EigenValues res) as [|a [|b t]]; simpl in Hl; [| |lia]; reflexivity.
  - destruct (EigenValues res) as [|a [|b [|c t]]] eqn:Ev; simpl in Hl;
      try lia. split; [reflexivity|].
    cbn [multiscale.n_eigs multiscale.set_n_eigs]. reflexivity.
Qed.

Lemma multiscale_transform_few_eigenvalues_witness :
  let res : bundle float :=
    {| T := []; EigenVectors := [[1%float]; [1%float]];
       EigenValues := [1%float; 0.5%float]; kernel := [] |} in
  (List.length (EigenValues res) < 2 ->
   multiscale.transform binary64 (multiscale_with None) res
   = (Raise IndexError, multiscale_with None))
  /\ (List.length (EigenValues res) = 2 ->
      multiscale.transform binary64 (multiscale_with None) res
      = (Raise IndexError, multiscale.set_n_eigs (multiscale_with None) 1)
      /\ multiscale.transform binary64
           (multiscale.set_n_eigs (multiscale_with None) 1) res
         = (Ok [], multiscale.set_n_eigs (multiscale_with None) 1)).
Proof.
  intros res.
  apply (multiscale_transform_few_eigenvalues binary64 (multiscale_with None) res).
  reflexivity.
Defined.

(** X11: [fit] followed by [transform]: when [n_eigs] is [None] and kneed
    finds the knee [k], [fit] stores [k], and [transform] on the fitted
    object returns the embedding of dimension [k] (or its exception)
    without running its own gap selection and without changing the
    object; a knee that is [None] makes [fit] raise [TypeError]. *)
Theorem multiscale_fit_then_transform
        {A : Type} (O : dtype A) (ext : externals A)
        (self : multiscale.t A) (res : bundle A) :
  multiscale.n_eigs self = None ->
  (forall k,
      kneed_knee ext (EigenValues res) (multiscale.sensitivity self) = Ok (Some k) ->
      multiscale.fit ext self res = Ok (multiscale.set_n_eigs self k)
      /\ multiscale.transform O (multiscale.set_n_eigs self k) res
         = (multiscale.scale O res k, multiscale.set_n_eigs self k))
  /\ (kneed_knee ext (EigenValues res) (multiscale.sensitivity self) = Ok None ->
      multiscale.fit ext self res = Raise TypeError).
Proof.
  intros Hn. unfold multiscale.fit. rewrite Hn. split.
  - intros k Hk. rewrite Hk. split; [reflexivity|].
    apply scale_deterministic_state. reflexivity.
  - intros Hk. rewrite Hk. reflexivity.
Qed.

Lemma multiscale_fit_then_transform_witness :
  let ext := line_externals in
  (forall k,
      kneed_knee ext (EigenValues small_bundle)
                 (multiscale.sensitivity (multiscale_with None)) = Ok (Some k) ->
      multiscale.fit ext (multiscale_with None) small_bundle
      = Ok (multiscale.set_n_eigs (multiscale_with None) k)
      /\ multiscale.transform binary64
           (multiscale.set_n_eigs (multiscale_with None) k) small_bundle
         = (multiscale.scale binary64 small_bundle k,
            multiscale.set_n_eigs (multiscale_with None) k))
  /\ (kneed_knee ext (EigenValues small_bundle)
                 (multiscale.sensitivity (multiscale_with None)) = Ok None ->
      multiscale.fit ext (multiscale_with None) small_bundle = Raise TypeError).
Proof.
  intros ext.
  apply (multiscale_fit_then_transform binary64 ext (multiscale_with None)
           small_bundle).
  reflexivity.
Defined.

Lemma gaps_nth (vals : list R) (j : nat) :
  S j < S (List.length vals - 1) ->
  S j < List.length vals ->
  nth j (map (fun ab => sub real (fst ab) (snd ab))
             (combine (py_slice vals 0 (List.length vals - 1)) (skipn 1 vals)))
        0%R
  = (nth j vals 0 - nth (S j) vals 0)%R.
Proof.
  intros _ Hj.
  assert (Hl : List.length (py_slice vals 0 (List.length vals - 1))
               = List.length (skipn 1 vals)).
  { unfold py_slice. rewrite length_firstn, !length_skipn. simpl. lia. }
  rewrite (nth_indep _ 0%R ((fun ab : R * R => sub real (fst ab) (snd ab)) (0, 0)%R)).
  2: { rewrite length_map, length_combine, Hl, Nat.min_id, length_skipn. lia. }
  rewrite (map_nth (fun ab : R * R => sub real (fst ab) (snd ab))).
  rewrite combine_nth by exact Hl. cbn [fst snd sub real].
  unfold py_slice. cbn [skipn]. rewrite Nat.sub_0_r.
  rewrite nth_firstn.
  replace (j <? List.length vals - 1) with true by (symmetry; apply Nat.ltb_lt; lia).
  rewrite (nth_skipn 1 vals j). reflexivity.
Qed.

Lemma last_map_nonempty {X Y : Type} (f : X -> Y) (l : list X) (d : X) (d' : Y) :
  l <> [] -> last (map f l) d' = f (last l d).
Proof.
  intros Hne. destruct (exists_last Hne) as [t [x ->]].
  rewrite map_app. simpl. rewrite !last_last. reflexivity.
Qed.

Lemma sorted_prefix {X : Type} (P : X -> X -> Prop) (l1 l2 : list X) :
  StronglySorted P (l1 ++ l2) -> StronglySorted P l1.
Proof.
  induction l1 as [|a t IH]; simpl; intros H; [constructor|].
  inversion H as [|? ? Hs Ha]; subst. constructor; [apply IH, Hs|].
  apply Forall_app in Ha. apply Ha.
Qed.

Lemma py_index_last_two {X : Type} (l : list X) (a b : X) :
  py_index l (-2) = Ok a -> py_index l (-1) = Ok b ->
  exists pre, l = pre ++ [a; b].
Proof.
  intros Ha Hb.
  assert (Hlen : 2 <= List.length l).
  { unfold py_index in Ha. cbn [Z.ltb Z.compare] in Ha.
    destruct ((0 <=? -2 + Z.of_nat (List.length l))
              && (-2 + Z.of_nat (List.length l) <? Z.of_nat (List.length l)))%Z
      eqn:E; [|discriminate].
    apply andb_true_iff in E. destruct E as [E _]. apply Z.leb_le in E. lia. }
  assert (Hne : l <> []) by (intros ->; simpl in Hlen; lia).
  destruct (exists_last Hne) as [l' [b' ->]].
  assert (Hne' : l' <> [])
    by (intros ->; simpl in Hlen; lia).
  destruct (exists_last Hne') as [pre [a' ->]].
  exists pre. rewrite <- app_assoc. simpl.
  rewrite <- app_assoc in Ha, Hb. simpl in Ha, Hb.
  rewrite (py_index_minus_one (pre ++ [a'; b']) b') in Hb
    by (destruct pre; discriminate).
  replace (pre ++ [a'; b']) with ((pre ++ [a']) ++ [b']) in Hb
    by (rewrite <- app_assoc; reflexivity).
  rewrite last_last in Hb. injection Hb as ->.
  unfold py_index in Ha. cbn [Z.ltb Z.compare] in Ha.
  rewrite length_app in Ha. simpl List.length in Ha.
  replace ((0 <=? -2 + Z.of_nat (List.length pre + 2))
           && (-2 + Z.of_nat (List.length pre + 2)
               <? Z.of_nat (List.length pre + 2)))%Z with true in Ha
    by (symmetry; apply andb_true_iff; split;
        [apply Z.leb_le | apply Z.ltb_lt]; lia).
  replace (Z.to_nat (-2 + Z.of_nat (List.length pre + 2)))
    with (List.length pre) in Ha by lia.
  rewrite nth_error_app2 in Ha by lia. rewrite Nat.sub_diag in Ha.
  simpl in Ha. injection Ha as ->. reflexivity.
Qed.

Lemma select_ladder :
  multiscale.select real (real_multiscale_with None) ladder_bundle
  = (Ok 3%Z, multiscale.set_n_eigs (real_multiscale_with None) 3).
Proof.
  unfold multiscale.select, ladder_bundle, real_multiscale_with.
  cbn [multiscale.n_eigs EigenValues].
  cbv [py_slice np_argsort sort_by insert_by combine skipn firstn List.length map seq
       fold_right fst snd sub leb real Rle_bool Nat.sub].
  decide_reals. reflexivity.
Qed.

(** X12: what the gap selection of [multiscale.transform] picks, in exact
    arithmetic.  Write [gap j = eigenvalue_j - eigenvalue_(j+1)].  When
    the selection returns [m], there is a position [i1] of a largest gap;
    if [i1 >= 2] then [m = i1 + 1]; otherwise [m = i2 + 2] for a position
    [i2] of a largest gap among the other positions. *)
Theorem multiscale_select_largest_gap
        (self self' : multiscale.t R) (res : bundle R) (m : Z) :
  let vals := EigenValues res in
  let gap := fun j => (nth j vals 0 - nth (S j) vals 0)%R in
  multiscale.n_eigs self = None ->
  multiscale.select real self res = (Ok m, self') ->
  exists i1,
    S i1 < List.length vals
    /\ (forall j, S j < List.length vals -> (gap j <= gap i1)%R)
    /\ ((2 <= i1 /\ m = (Z.of_nat i1 + 1)%Z)
        \/ (i1 < 2
            /\ exists i2,
                 S i2 < List.length vals
                 /\ i2 <> i1
                 /\ (forall j, S j < List.length vals -> j <> i1 ->
                               (gap j <= gap i2)%R)
                 /\ m = (Z.of_nat i2 + 2)%Z)).
Proof.
  intros vals gap Hn. unfold multiscale.select. rewrite Hn. cbv zeta.
  fold vals.
  set (G := map (fun ab => sub real (fst ab) (snd ab))
                (combine (py_slice vals 0 (List.length vals - 1)) (skipn 1 vals))).
  assert (HG : List.length G = List.length vals - 1) by apply gaps_length.
  assert (Hgap : forall j, j < List.length G -> nth j G 0%R = gap j).
  { intros j Hj. apply gaps_nth; lia. }
  destruct (argsort_pairs G) as [Ha [Hv [_ [Hs _]]]].
  set (order := np_argsort real G) in *.
  assert (Hperm : Permutation order (seq 0 (List.length G)))
    by apply np_argsort_perm.
  assert (Hsorted : StronglySorted Rle (map (fun i => nth i G 0%R) order)).
  { rewrite Ha, Hv. exact Hs. }
  assert (Hall : forall j, j < List.length G -> In j order).
  { intros j Hj. eapply Permutation_in; [apply Permutation_sym, Hperm|].
    apply in_seq. lia. }
  assert (Hbound : forall j, In j order -> j < List.length G).
  { intros j Hj. apply (Permutation_in _ Hperm) in Hj. apply in_seq in Hj. lia. }
  destruct (py_index order (-1)) as [i1|e1] eqn:E1; [|discriminate].
  assert (Hne : order <> []) by (intros E; rewrite E in E1; discriminate).
  assert (Hi1 : i1 = last order 0).
  { rewrite (py_index_minus_one order 0 Hne) in E1. congruence. }
  assert (Hmax : forall j, S j < List.length vals -> (gap j <= gap i1)%R).
  { intros j Hj. rewrite <- !Hgap by (try lia; apply Hbound, (py_index_in _ _ _ E1)).
    rewrite Hi1.
    rewrite <- (last_map_nonempty (fun i => nth i G 0%R) order 0 0%R Hne).
    apply sorted_last_max; [exact Hsorted|].
    apply (in_map (fun i => nth i G 0%R)). apply Hall. lia. }
  pose proof (Hbound i1 (py_index_in _ _ _ E1)) as B1.
  intros Hsel. exists i1. split; [lia|]. split; [exact Hmax|]. revert Hsel.
  destruct (Z.of_nat i1 + 1 <? 3)%Z eqn:E3.
  - apply Z.ltb_lt in E3.
    destruct (py_index order (-2)) as [i2|e2] eqn:E2; [|discriminate].
    intros Hsel. injection Hsel as <- _. right. split; [lia|].
    destruct (py_index_last_two order i2 i1 E2 E1) as [pre Hpre].
    pose proof (Hbound i2 (py_index_in _ _ _ E2)) as B2.
    assert (Hnd : NoDup order).
    { eapply Permutation_NoDup; [apply Permutation_sym, Hperm | apply seq_NoDup]. }
    exists i2. split; [lia|].
    replace (pre ++ [i2; i1]) with ((pre ++ [i2]) ++ [i1]) in Hpre
      by (rewrite <- app_assoc; reflexivity).
    rewrite Hpre in Hnd.
    pose proof (NoDup_remove_2 _ _ _ Hnd) as Hnot. rewrite app_nil_r in Hnot.
    split; [intros ->; apply Hnot, in_or_app; right; left; reflexivity|].
    split; [|reflexivity].
    intros j Hj Hji.
    assert (Hjin : In j (pre ++ [i2])).
    { pose proof (Hall j ltac:(lia)) as Hin. rewrite Hpre in Hin.
      apply in_app_or in Hin. destruct Hin as [Hin|[Hin|[]]]; [exact Hin|].
      congruence. }
    rewrite <- !Hgap by lia.
    assert (Hs' : StronglySorted Rle (map (fun i => nth i G 0%R) (pre ++ [i2]))).
    { rewrite Hpre, map_app in Hsorted. eapply sorted_prefix, Hsorted. }
    assert (Hne' : pre ++ [i2] <> []) by (destruct pre; discriminate).
    replace (nth i2 G 0%R)
      with (last (map (fun i => nth i G 0%R) (pre ++ [i2])) 0%R).
    + apply sorted_last_max; [exact Hs'|].
      apply (in_map (fun i => nth i G 0%R)), Hjin.
    + rewrite (last_map_nonempty _ _ 0 0%R Hne'), last_last. reflexivity.
  - apply Z.ltb_ge in E3. intros Hsel. injection Hsel as <- _.
    left. split; [lia | reflexivity].
Qed.

Lemma multiscale_select_largest_gap_witness :
  multiscale.n_eigs (real_multiscale_with None) = None
  /\ multiscale.select real (real_multiscale_with None) ladder_bundle
     = (Ok 3%Z, multiscale.set_n_eigs (real_multiscale_with None) 3)
  /\ exists i1,
    S i1 < List.length (EigenValues ladder_bundle)
    /\ (forall j, S j < List.length (EigenValues ladder_bundle) ->
          (nth j (EigenValues ladder_bundle) 0 - nth (S j) (EigenValues ladder_bundle) 0
           <= nth i1 (EigenValues ladder_bundle) 0 - nth (S i1) (EigenValues ladder_bundle) 0)%R)
    /\ ((2 <= i1 /\ 3%Z = (Z.of_nat i1 + 1)%Z)
        \/ (i1 < 2
            /\ exists i2,
                 S i2 < List.length (EigenValues ladder_bundle)
                 /\ i2 <> i1
                 /\ (forall j, S j < List.length (EigenValues ladder_bundle) -> j <> i1 ->
                       (nth j (EigenValues ladder_bundle) 0 - nth (S j) (EigenValues ladder_bundle) 0
                        <= nth i2 (EigenValues ladder_bundle) 0 - nth (S i2) (EigenValues ladder_bundle) 0)%R)
                 /\ 3%Z = (Z.of_nat i2 + 2)%Z)).
Proof.
  split; [reflexivity|]. split; [exact select_ladder|].
  exact (multiscale_select_largest_gap (real_multiscale_with None)
           (multiscale.set_n_eigs (real_multiscale_with None) 3) ladder_bundle 3%Z
           eq_refl select_ladder).
Defined.

(** ** The kernel and the diffusion operator, entry by entry *)

Lemma np_sum_pos (l : list R) (x : R) :
  Forall (fun y => (0 <= y)%R) l -> In x l -> (0 < x)%R -> (0 < np_sum real l)%R.
Proof.
  induction l as [|y t IH]; intros Hall Hin Hx; [destruct Hin|].
  rewrite np_sum_cons. inversion Hall as [|? ? Hy Ht]; subst.
  pose proof (np_sum_nonneg t Ht) as Hs.
  destruct Hin as [->|Hin].
  - lra.
  - specialize (IH Ht Hin Hx). lra.
Qed.

Lemma row_values_in (m : coo R) (i j : nat) (v : R) :
  In (i, j, v) m -> In v (row_values m i).
Proof.
  intros Hin. unfold row_values.
  apply (in_map snd _ (i, j, v)). apply filter_In. split; [exact Hin|].
  cbn [fst snd]. apply Nat.eqb_refl.
Qed.

Lemma nonneg_row_values (m : coo R) (i : nat) :
  nonneg_values m -> Forall (fun y => (0 <= y)%R) (row_values m i).
Proof.
  intros Hm. unfold row_values. apply Forall_forall. intros v Hv.
  apply in_map_iff in Hv. destruct Hv as [e [<- He]].
  apply filter_In in He. destruct He as [He _].
  unfold nonneg_values in Hm. rewrite Forall_forall in Hm. apply Hm, He.
Qed.

Lemma in_diag_dot (N : nat) (D : list R) (K : coo R) (i j : nat) (v : R) :
  List.length D = N -> i < N -> In (i, j, v) K ->
  In (i, j, (nth i D 0 * v)%R) (dot real (diag N D) K).
Proof.
  intros HD Hi Hin. unfold dot. apply in_flat_map.
  exists (i, i, nth i D 0%R). split.
  - rewrite (diag_nth N D HD). apply (in_map (fun i => (i, i, nth i D 0%R))).
    apply in_seq. lia.
  - apply in_flat_map. exists (i, j, v). split; [exact Hin|].
    cbn [fst snd]. rewrite Nat.eqb_refl. left. reflexivity.
Qed.

Lemma in_dot_diag (N : nat) (D : list R) (K : coo R) (i j : nat) (v : R) :
  List.length D = N -> j < N -> In (i, j, v) K ->
  In (i, j, (v * nth j D 0)%R) (dot real K (diag N D)).
Proof.
  intros HD Hj Hin. rewrite (dot_diag_right N D K HD). apply in_flat_map.
  exists (i, j, v). split; [exact Hin|]. cbn [fst snd].
  destruct (Nat.ltb_spec j N); [|lia]. left. reflexivity.
Qed.

Lemma mask_power_pos (alpha : R) (D : list R) (i : nat) :
  i < List.length D -> (0 < nth i D 0)%R ->
  (0 < nth i (mask_nonzero real (fun d => pow real_ufuncs d (neg real alpha)) D) 0)%R.
Proof.
  intros Hi Hpos. rewrite mask_nonzero_nth by exact Hi.
  destruct (Req_dec_T (nth i D 0%R) 0%R) as [E|_]; [lra|].
  cbn [pow real_ufuncs]. unfold Rnp_power.
  destruct (Rlt_dec 0 (nth i D 0%R)) as [_|n]; [|contradiction].
  unfold Rpower. apply exp_pos.
Qed.

Lemma kernel_positive_edge (alpha : R) (N : nat) (W : coo R) (i j : nat) (w : R) :
  nonneg_values W -> In (i, j, w) W -> (0 < w)%R -> i < N -> j < N ->
  let K := fst (kernel_construction real real_ufuncs alpha N W) in
  (exists u, (0 < u)%R /\ In (i, j, u) K) /\ (exists u, (0 < u)%R /\ In (j, i, u) K).
Proof.
  intros HW Hin Hw Hi Hj K.
  assert (Hij : In (i, j, w) (sp_add W (transpose W))).
  { unfold sp_add. apply in_or_app. left. exact Hin. }
  assert (Hji : In (j, i, w) (sp_add W (transpose W))).
  { unfold sp_add. apply in_or_app. right. unfold transpose.
    apply (in_map (fun e => (snd (fst e), fst (fst e), snd e)) _ (i, j, w)), Hin. }
  subst K. unfold kernel_construction. cbv zeta.
  destruct (ltb real (zero real) alpha).
  - cbn [fst].
    set (K0 := sp_add W (transpose W)) in *.
    set (D0 := sum_axis1 real N K0).
    set (p := mask_nonzero real (fun d => pow real_ufuncs d (neg real alpha)) D0).
    assert (HK0 : nonneg_values K0).
    { unfold K0, sp_add, nonneg_values. apply Forall_app. split;
        [exact HW | apply nonneg_transpose, HW]. }
    assert (HD0 : List.length D0 = N) by apply sum_axis1_length.
    assert (Hp : List.length p = N).
    { unfold p. rewrite mask_nonzero_length. exact HD0. }
    assert (Hdeg : forall a b, In (a, b, w) K0 -> a < N -> (0 < nth a p 0)%R).
    { intros a b Hab Ha. apply mask_power_pos; [lia|].
      unfold D0. rewrite sum_axis1_nth by exact Ha.
      apply (np_sum_pos _ w); [apply nonneg_row_values, HK0| |exact Hw].
      apply (row_values_in _ a b), Hab. }
    pose proof (Hdeg i j Hij Hi) as Pi. pose proof (Hdeg j i Hji Hj) as Pj.
    split.
    + exists (nth i p 0 * w * nth j p 0)%R. split.
      * apply Rmult_lt_0_compat; [apply Rmult_lt_0_compat|]; assumption.
      * apply in_dot_diag; [exact Hp | exact Hj|].
        apply in_diag_dot; [exact Hp | exact Hi | exact Hij].
    + exists (nth j p 0 * w * nth i p 0)%R. split.
      * apply Rmult_lt_0_compat; [apply Rmult_lt_0_compat|]; assumption.
      * apply in_dot_diag; [exact Hp | exact Hi|].
        apply in_diag_dot; [exact Hp | exact Hj | exact Hji].
  - cbn [fst]. split; exists w; split; assumption.
Qed.

Lemma positive_degree_row_sum (alpha : R) (N : nat) (W : coo R) (i j : nat) (u : R) :
  nonneg_values W -> i < N -> (0 < u)%R ->
  In (i, j, u) (fst (kernel_construction real real_ufuncs alpha N W)) ->
  let KD := kernel_construction real real_ufuncs alpha N W in
  (0 < nth i (snd KD) 0)%R
  /\ np_sum real (row_values (diffusion_operator real N (fst KD) (snd KD)) i) = 1%R.
Proof.
  intros HW Hi Hu Hin KD.
  assert (HD : snd KD = sum_axis1 real N (fst KD)) by apply kernel_construction_degrees.
  assert (Hlen : List.length (snd KD) = N).
  { rewrite HD. apply sum_axis1_length. }
  assert (Hdeg : nth i (snd KD) 0%R = np_sum real (row_values (fst KD) i)).
  { rewrite HD. apply sum_axis1_nth, Hi. }
  assert (Hpos : (0 < nth i (snd KD) 0)%R).
  { rewrite Hdeg. apply (np_sum_pos _ u); [|apply (row_values_in _ i j), Hin|exact Hu].
    apply nonneg_row_values.
    apply (proj2 (kernel_construction_symmetric_nonneg alpha N W)), HW. }
  split; [exact Hpos|].
  rewrite (diffusion_operator_row N (fst KD) (snd KD) i Hlen Hi).
  destruct (Req_dec_T (nth i (snd KD) 0%R) 0%R) as [E|_]; [lra|].
  rewrite np_sum_scale, <- Hdeg. field. lra.
Qed.

(** X13: in exact arithmetic, for weights [W] none of which is negative:
    both end points [i, j < N] of a stored edge of positive weight have a
    positive degree, and their rows of [T] sum to one, for every [alpha].
    An edge of weight zero gives no such guarantee. *)
Theorem diffusion_rows_sum_to_one
        (alpha : R) (N : nat) (W : coo R) (i j : nat) (w : R) :
  nonneg_values W -> In (i, j, w) W -> (0 < w)%R -> i < N -> j < N ->
  let KD := kernel_construction real real_ufuncs alpha N W in
  let T := diffusion_operator real N (fst KD) (snd KD) in
  ((0 < nth i (snd KD) 0)%R /\ np_sum real (row_values T i) = 1%R)
  /\ ((0 < nth j (snd KD) 0)%R /\ np_sum real (row_values T j) = 1%R).
Proof.
  intros HW Hin Hw Hi Hj KD T0.
  destruct (kernel_positive_edge alpha N W i j w HW Hin Hw Hi Hj)
    as [[u [Hu Hiu]] [u' [Hu' Hju]]].
  split.
  - exact (positive_degree_row_sum alpha N W i j u HW Hi Hu Hiu).
  - exact (positive_degree_row_sum alpha N W j i u' HW Hj Hu' Hju).
Qed.

Lemma diffusion_rows_sum_to_one_witness :
  let W := [(0, 1, (1 / 2)%R); (1, 0, (1 / 4)%R)] in
  let KD := kernel_construction real real_ufuncs 1%R 2 W in
  let T := diffusion_operator real 2 (fst KD) (snd KD) in
  ((0 < nth 0 (snd KD) 0)%R /\ np_sum real (row_values T 0) = 1%R)
  /\ ((0 < nth 1 (snd KD) 0)%R /\ np_sum real (row_values T 1) = 1%R).
Proof.
  apply (diffusion_rows_sum_to_one 1%R 2 [(0, 1, (1 / 2)%R); (1, 0, (1 / 4)%R)]
           0 1 (1 / 2)%R).
  - repeat constructor; cbn [snd]; lra.
  - left. reflexivity.
  - lra.
  - lia.
  - lia.
Defined.

(** X14: the kernel entry by entry, in exact arithmetic.  With
    [alpha <= 0] the entry at [(i, j)] is [W_ij + W_ji].  With [alpha > 0]
    it is [p_i * (W_ij + W_ji) * p_j] inside the [N x N] block, where
    [p_a] is [D_a ** (-alpha)] for a row sum [D_a <> 0] of [W + W.T] and
    zero otherwise; outside the block it is zero. *)
Theorem kernel_entries (alpha : R) (N : nat) (W : coo R) (i j : nat) :
  let K := fst (kernel_construction real real_ufuncs alpha N W) in
  let D := sum_axis1 real N (sp_add W (transpose W)) in
  let p := fun a => if Req_dec_T (nth a D 0%R) 0%R then 0%R
                    else Rnp_power (nth a D 0%R) (- alpha)%R in
  ((alpha <= 0)%R -> entry real K i j = (entry real W i j + entry real W j i)%R)
  /\ ((0 < alpha)%R -> i < N -> j < N ->
      entry real K i j = (p i * (entry real W i j + entry real W j i) * p j)%R)
  /\ ((0 < alpha)%R -> N <= i \/ N <= j -> entry real K i j = 0%R).
Proof.
  intros K D p. subst K. unfold kernel_construction. cbv zeta. fold D.
  cbn [ltb real zero]. unfold Rlt_bool.
  set (P := mask_nonzero real (fun d => pow real_ufuncs d (neg real alpha)) D).
  assert (HP : List.length P = N).
  { unfold P. rewrite mask_nonzero_length. apply sum_axis1_length. }
  assert (Hp : forall a, a < N -> nth a P 0%R = p a).
  { intros a Ha. unfold P. rewrite mask_nonzero_nth
      by (unfold D; rewrite sum_axis1_length; exact Ha).
    unfold p. destruct (Req_dec_T (nth a D 0%R) 0%R) as [E|_]; [exact E|].
    reflexivity. }
  destruct (Rlt_dec 0 alpha) as [Hpos|Hneg]; cbn [fst].
  - split; [intros; lra|]. split.
    + intros _ Hi Hj.
      rewrite (entry_dot_diag N P _ i j HP).
      destruct (Nat.ltb_spec j N); [|lia].
      rewrite (entry_diag_dot N P _ i j HP).
      destruct (Nat.ltb_spec i N); [|lia].
      rewrite entry_sp_add, entry_transpose, !Hp by assumption. reflexivity.
    + intros _ Hout.
      rewrite (entry_dot_diag N P _ i j HP).
      destruct (Nat.ltb_spec j N); [|reflexivity].
      rewrite (entry_diag_dot N P _ i j HP).
      destruct (Nat.ltb_spec i N); [lia|]. lra.
  - split; [|split; intros; lra].
    intros _. rewrite entry_sp_add, entry_transpose. reflexivity.
Qed.

Lemma nonneg_mask_inverse (D : list R) :
  Forall (fun d => (0 <= d)%R) D ->
  Forall (fun d => (0 <= d)%R) (mask_nonzero real (fun d => div real (one real) d) D).
Proof.
  intros H. unfold mask_nonzero. apply Forall_map.
  eapply Forall_impl; [|exact H]. cbn beta. intros d Hd.
  cbn [eqb real zero one div]. unfold Req_bool.
  destruct (Req_dec_T d 0); [exact Hd|].
  unfold Rdiv. rewrite Rmult_1_l. left. apply Rinv_0_lt_compat. lra.
Qed.

Lemma nonneg_sum_axis1 (N : nat) (m : coo R) :
  nonneg_values m -> Forall (fun d => (0 <= d)%R) (sum_axis1 real N m).
Proof.
  intros Hm. unfold sum_axis1. apply Forall_map, Forall_forall. intros i _.
  apply np_sum_nonneg. unfold row_values. apply Forall_forall. intros v Hv.
  apply in_map_iff in Hv. destruct Hv as [e [<- He]].
  apply filter_In in He. destruct He as [He _].
  unfold nonneg_values in Hm. rewrite Forall_forall in Hm. apply Hm, He.
Qed.

(** X15: the diffusion operator entry by entry, in exact arithmetic:
    [T] stores no negative value; in a row [i < N] of non-zero degree the
    entry is the kernel's entry divided by the degree; rows of degree zero
    and rows from [N] on are zero. *)
Theorem diffusion_operator_entries (alpha : R) (N : nat) (edges : coo R) (i j : nat) :
  let KD := kernel_construction real real_ufuncs alpha N (np_exp_neg real real_ufuncs edges) in
  let T := diffusion_operator real N (fst KD) (snd KD) in
  nonneg_values T
  /\ (i < N -> nth i (snd KD) 0%R <> 0%R ->
      entry real T i j = (entry real (fst KD) i j / nth i (snd KD) 0)%R)
  /\ (i < N -> nth i (snd KD) 0%R = 0%R -> entry real T i j = 0%R)
  /\ (N <= i -> entry real T i j = 0%R).
Proof.
  intros KD T0.
  assert (HD : snd KD = sum_axis1 real N (fst KD)) by apply kernel_construction_degrees.
  assert (Hlen : List.length (snd KD) = N).
  { rewrite HD. apply sum_axis1_length. }
  assert (HK : nonneg_values (fst KD)).
  { apply (proj2 (kernel_construction_symmetric_nonneg alpha N _)),
      nonneg_np_exp_neg. }
  set (Q := mask_nonzero real (fun d => div real (one real) d) (snd KD)).
  assert (HQ : List.length Q = N).
  { unfold Q. rewrite mask_nonzero_length. exact Hlen. }
  assert (HT : forall a b, entry real T0 a b
                 = if (a <? N)%nat then (nth a Q 0 * entry real (fst KD) a b)%R else 0%R).
  { intros a b. apply (entry_diag_dot N Q (fst KD) a b HQ). }
  split; [|split; [|split]].
  - subst T0. unfold diffusion_operator. cbv zeta. apply nonneg_dot; [|exact HK].
    apply nonneg_diag, nonneg_mask_inverse. rewrite HD.
    apply nonneg_sum_axis1, HK.
  - intros Hi Hnz. rewrite HT. destruct (Nat.ltb_spec i N); [|lia].
    unfold Q. rewrite mask_nonzero_nth by lia.
    destruct (Req_dec_T (nth i (snd KD) 0%R) 0%R); [contradiction|].
    cbn [div real one]. field. exact Hnz.
  - intros Hi Hz. rewrite HT. destruct (Nat.ltb_spec i N); [|lia].
    unfold Q. rewrite mask_nonzero_nth by lia.
    destruct (Req_dec_T (nth i (snd KD) 0%R) 0%R); [|contradiction].
    rewrite Hz. lra.
  - intros Hi. rewrite HT. destruct (Nat.ltb_spec i N); [lia|]. reflexivity.
Qed.

(** ** The run of [fit_transform] *)

Lemma bind_ok_inv {X Y : Type} (m : py X) (f : X -> py Y) (y : Y) (tr : list event) :
  bind m f = (Ok y, tr) ->
  exists x tr1 tr2, m = (Ok x, tr1) /\ f x = (Ok y, tr2) /\ tr = tr1 ++ tr2.
Proof.
  unfold bind. destruct m as [[x|e] tr1]; [|discriminate].
  destruct (f x) as [r tr2] eqn:E. intros H. injection H as -> <-.
  exists x, tr1, tr2. split; [reflexivity|]. split; [exact E | reflexivity].
Qed.

Lemma lift_ok_inv {X : Type} (r : result X) (x : X) (tr : list event) :
  lift r = (Ok x, tr) -> r = Ok x /\ tr = [].
Proof. unfold lift. intros H. injection H as -> <-. split; reflexivity. Qed.

Lemma call_ok_inv {X : Type} (e : event) (r : result X) (x : X) (tr : list event) :
  call e r = (Ok x, tr) -> r = Ok x /\ tr = [e].
Proof. unfold call. intros H. injection H as -> <-. split; reflexivity. Qed.

Lemma ann_graph_success_trace
      {A : Type} (O : dtype A) (ext : externals A)
      (self : Diffusor.t A) (data : samples A) (g : csr A) (tr : list event) :
  Diffusor.ann_graph O ext self data = (Ok g, tr) ->
  tr = [ NmslibInit "hnsw" "cosinesimil_sparse_fast";
         NmslibAddDataPointBatch (shape0 data);
         NmslibCreateIndex;
         NmslibKnnQueryBatch (Diffusor.n_neighbors self + 1) ]
  /\ issparse data = true
  /\ exists results,
       nmslib_knnQueryBatch ext
         (nmslib.setQueryTimeParams
            (nmslib.createIndex
               (nmslib.addDataPointBatch
                  (nmslib.init A "hnsw" "cosinesimil_sparse_fast"
                               nmslib.SPARSE_VECTOR) data)
               {| nmslib.M := Diffusor.M self;
                  nmslib.indexThreadQty := Diffusor.n_jobs self;
                  nmslib.efConstruction := Diffusor.efC self;
                  nmslib.post := 0 |})
            (Diffusor.efS self))
         data (Diffusor.n_neighbors self + 1) (Diffusor.n_jobs self)
       = Ok results.
Proof.
  unfold Diffusor.ann_graph. intros H.
  apply bind_ok_inv in H. destruct H as [a0 [t1 [t2 [H1 [H2 ->]]]]].
  apply lift_ok_inv in H1. destruct H1 as [H1 ->].
  apply bind_ok_inv in H2. destruct H2 as [a1 [t3 [t4 [H3 [H4 ->]]]]].
  unfold NMSlibTransformer.__init__ in H1.
  destruct (NMSlibTransformer.dict_get _ _) as [sp|e]; [|discriminate].
  cbn [rbind] in H1. injection H1 as <-.
  unfold NMSlibTransformer.fit in H3.
  destruct (issparse data); [|discriminate].
  injection H3 as <- <-.
  unfold NMSlibTransformer.transform in H4.
  cbn [NMSlibTransformer.nmslib_ NMSlibTransformer.n_samples_fit_ fst
       NMSlibTransformer.n_neighbors NMSlibTransformer.efS
       NMSlibTransformer.n_jobs NMSlibTransformer.M NMSlibTransformer.efC] in H4.
  apply bind_ok_inv in H4. destruct H4 as [rs [t5 [t6 [H5 [H6 ->]]]]].
  apply call_ok_inv in H5. destruct H5 as [H5 ->].
  apply lift_ok_inv in H6. destruct H6 as [_ ->].
  split; [reflexivity|]. split; [reflexivity|].
  exists rs. exact H5.
Qed.

(** X16: the library calls that a run of [fit_transform] records when it
    returns a bundle, in order.  Approximate search: the index is created
    with method [hnsw] and space [cosinesimil_sparse_fast], the [N] samples
    (a sparse matrix) are added, the index is built, and one batch query
    for [n_neighbors + 1] neighbours is answered by that index after
    [setQueryTimeParams] stored [efSearch = efS] in it; then the
    eigensolver is asked for [n_components] pairs.  Exact search: one
    graph of [n_neighbors] neighbours under [knn_dist], one of
    [floor (n_neighbors / 2)] neighbours under the euclidean metric, and
    the eigensolver. *)
Theorem fit_transform_success_trace
        {A : Type} (O : dtype A) (U : ufuncs A) (ext : externals A)
        (self : Diffusor.t A) (data : samples A) (plot_knee : bool)
        (res : bundle A) (tr : list event) :
  fst (Diffusor.fit_transform O U ext self data plot_knee) = (Ok res, tr) ->
  if Diffusor.ann self
  then tr = [ NmslibInit "hnsw" "cosinesimil_sparse_fast";
              NmslibAddDataPointBatch (shape0 data);
              NmslibCreateIndex;
              NmslibKnnQueryBatch (Diffusor.n_neighbors self + 1);
              ScipyEigs (Diffusor.n_components self) ]
       /\ issparse data = true
       /\ exists results,
            nmslib_knnQueryBatch ext
              (nmslib.setQueryTimeParams
                 (nmslib.createIndex
                    (nmslib.addDataPointBatch
                       (nmslib.init A "hnsw" "cosinesimil_sparse_fast"
                                    nmslib.SPARSE_VECTOR) data)
                    {| nmslib.M := Diffusor.M self;
                       nmslib.indexThreadQty := Diffusor.n_jobs self;
                       nmslib.efConstruction := Diffusor.efC self;
                       nmslib.post := 0 |})
                 (Diffusor.efS self))
              data (Diffusor.n_neighbors self + 1) (Diffusor.n_jobs self)
            = Ok results
  else tr = [ SklearnKneighborsGraph (Diffusor.n_neighbors self)
                                     (Diffusor.knn_dist self);
              SklearnKneighborsGraph (Diffusor.n_neighbors self / 2) "euclidean";
              ScipyEigs (Diffusor.n_components self) ].
Proof.
  unfold Diffusor.fit_transform. cbv zeta. cbn [fst]. intros H.
  apply bind_ok_inv in H. destruct H as [W [t1 [t2 [H1 [H2 ->]]]]].
  apply bind_ok_inv in H2. destruct H2 as [pairs [t3 [t4 [H3 [H4 ->]]]]].
  apply call_ok_inv in H3. destruct H3 as [_ ->].
  destruct (shape0 data =? 0); [discriminate|].
  unfold ret in H4. injection H4 as _ <-.
  cbn [Diffusor.n_components Diffusor.set_plot_knee].
  unfold Diffusor.neighbor_stage in H1.
  cbn [Diffusor.ann Diffusor.set_plot_knee] in H1.
  destruct (Diffusor.ann self).
  - apply bind_ok_inv in H1. destruct H1 as [g [t5 [t6 [H5 [H6 ->]]]]].
    apply ann_graph_success_trace in H5. destruct H5 as [-> [Hsp Hq]].
    apply bind_ok_inv in H6. destruct H6 as [sd [t7 [t8 [H7 [H8 ->]]]]].
    apply lift_ok_inv in H7. destruct H7 as [_ ->].
    apply lift_ok_inv in H8. destruct H8 as [_ ->].
    split; [reflexivity|]. split; [exact Hsp | exact Hq].
  - apply bind_ok_inv in H1. destruct H1 as [g [t5 [t6 [H5 [H6 ->]]]]].
    apply call_ok_inv in H5. destruct H5 as [_ ->].
    apply bind_ok_inv in H6. destruct H6 as [sd [t7 [t8 [H7 [H8 ->]]]]].
    apply lift_ok_inv in H8. destruct H8 as [_ ->].
    unfold Diffusor.adaptive_std_exact in H7.
    apply bind_ok_inv in H7. destruct H7 as [g2 [t9 [t10 [H9 [H10 ->]]]]].
    apply call_ok_inv in H9. destruct H9 as [_ ->].
    unfold ret in H10. injection H10 as _ <-.
    reflexivity.
Qed.

Lemma line_exact_run :
  exists res tr,
    fst (Diffusor.fit_transform binary64 sample_ufuncs line_spectrum_externals
           (diffusor4 2 false) line_points false) = (Ok res, tr).
Proof. eexists. eexists. vm_compute. reflexivity. Qed.

Lemma line_ann_run :
  exists res tr,
    fst (Diffusor.fit_transform binary64 sample_ufuncs line_spectrum_externals
           (diffusor4 2 true) line_points false) = (Ok res, tr).
Proof. eexists. eexists. vm_compute. reflexivity. Qed.

Lemma fit_transform_success_trace_witness :
  (exists res tr,
     fst (Diffusor.fit_transform binary64 sample_ufuncs line_spectrum_externals
            (diffusor4 2 false) line_points false) = (Ok res, tr)
     /\ tr = [ SklearnKneighborsGraph 4 "euclidean";
               SklearnKneighborsGraph (4 / 2) "euclidean";
               ScipyEigs 2 ])
  /\ (exists res tr,
        fst (Diffusor.fit_transform binary64 sample_ufuncs line_spectrum_externals
               (diffusor4 2 true) line_points false) = (Ok res, tr)
        /\ tr = [ NmslibInit "hnsw" "cosinesimil_sparse_fast";
                  NmslibAddDataPointBatch 5;
                  NmslibCreateIndex;
                  NmslibKnnQueryBatch (4 + 1);
                  ScipyEigs 2 ]
        /\ issparse line_points = true).
Proof.
  split.
  - destruct line_exact_run as [res [tr H]]. exists res, tr. split; [exact H|].
    exact (fit_transform_success_trace binary64 sample_ufuncs line_spectrum_externals
             (diffusor4 2 false) line_points false res tr H).
  - destruct line_ann_run as [res [tr H]]. exists res, tr. split; [exact H|].
    pose proof (fit_transform_success_trace binary64 sample_ufuncs
                  line_spectrum_externals (diffusor4 2 true) line_points false
                  res tr H) as P.
    cbn [Diffusor.ann diffusor4] in P. destruct P as [P1 [P2 _]].
    split; [exact P1 | exact P2].
Defined.

Lemma eigen_postprocess_pairs {A : Type} (O : dtype A)
      (pairs : list ((A * A) * list (A * A))) :
  let d := ((zero O, zero O), @nil (A * A)) in
  exists inds,
    Permutation inds (seq 0 (List.length pairs))
    /\ fst (eigen_postprocess O pairs)
       = map (fun i => np_real (fst (nth i pairs d))) inds
    /\ snd (eigen_postprocess O pairs)
       = map (fun i =>
                let c := map np_real (snd (nth i pairs d)) in
                map (fun x => div O x (norm O c)) c) inds.
Proof.
  intros d. unfold eigen_postprocess. cbv zeta. cbn [fst snd].
  set (D := map (fun p => np_real (fst p)) pairs).
  exists (rev (np_argsort O D)). split; [|split].
  - rewrite <- Permutation_rev.
    replace (List.length pairs) with (List.length D) by apply length_map.
    apply np_argsort_perm.
  - apply map_ext. intros i. unfold D.
    exact (map_nth (fun p => np_real (fst p)) pairs d i).
  - rewrite map_map. apply map_ext. intros i.
    pose proof (map_nth (fun p => map np_real (snd p)) pairs d i) as E.
    cbv beta in E. cbv zeta. rewrite <- E. reflexivity.
Qed.

(** ** Eigenpairs after sorting and normalising *)

Lemma np_sum_scale_right (c : R) (l : list R) :
  np_sum real (map (fun x => (x * c)%R) l) = (np_sum real l * c)%R.
Proof.
  rewrite (map_ext _ (Rmult c)) by (intros x; apply Rmult_comm).
  rewrite np_sum_scale. apply Rmult_comm.
Qed.

Lemma matvec_scale (N : nat) (m : coo R) (v : list R) (c : R) :
  matvec N m (map (fun x => (x * c)%R) v)
  = map (fun y => (y * c)%R) (matvec N m v).
Proof.
  unfold matvec. rewrite map_map. apply map_ext. intros i.
  rewrite <- np_sum_scale_right, map_map. f_equal. apply map_ext. intros e.
  replace 0%R with ((fun x => (x * c)%R) 0%R) at 1 by (cbv beta; apply Rmult_0_l).
  rewrite (map_nth (fun x => (x * c)%R)). cbv beta. apply eq_sym, Rmult_assoc.
Qed.

Lemma eigenpair_scale (N : nat) (m : coo R) (lambda : R) (v : list R) (n : R) :
  eigenpair N m lambda v ->
  eigenpair N m lambda (map (fun x => (x / n)%R) v).
Proof.
  unfold eigenpair. intros H. unfold Rdiv.
  rewrite matvec_scale, H, !map_map. apply map_ext. intros x.
  apply Rmult_assoc.
Qed.

(** X17: sorting and normalising keep the eigenpairs (exact arithmetic).
    When the real part of every eigenvector the eigensolver returned has a
    non-zero entry (so that no column is divided by a zero norm) and
    satisfies [T v = lambda v] with the real part of its eigenvalue,
    [eigen_postprocess] returns as many eigenvalues and columns as there
    were pairs, and the column at every position [k] is an eigenvector of
    [T] for the eigenvalue at position [k]. *)
Theorem eigen_postprocess_keeps_eigenpairs
        (N : nat) (m : coo R) (pairs : list ((R * R) * list (R * R))) :
  Forall (fun p => exists z, In z (snd p) /\ np_real z <> 0%R) pairs ->
  (forall p, In p pairs ->
             eigenpair N m (np_real (fst p)) (map np_real (snd p))) ->
  let DV := eigen_postprocess real pairs in
  List.length (fst DV) = List.length pairs
  /\ List.length (snd DV) = List.length pairs
  /\ forall k, k < List.length pairs ->
               eigenpair N m (nth k (fst DV) 0%R) (nth k (snd DV) []).
Proof.
  intros _ Hp DV.
  destruct (eigen_postprocess_pairs real pairs) as [inds [Hperm [HD HV]]].
  fold DV in HD, HV. cbv zeta in HV.
  assert (Hlen : List.length inds = List.length pairs).
  { rewrite (Permutation_length Hperm). apply length_seq. }
  rewrite HD, HV, !length_map.
  split; [exact Hlen|]. split; [exact Hlen|].
  intros k Hk.
  assert (Hin : In (nth k inds 0) inds) by (apply nth_In; lia).
  apply (Permutation_in _ Hperm) in Hin. apply in_seq in Hin.
  set (d := ((zero real, zero real), @nil (R * R))) in *.
  rewrite (nth_indep _ 0%R
             ((fun i => np_real (fst (nth i pairs d))) 0)) by (rewrite length_map; lia).
  rewrite (map_nth (fun i => np_real (fst (nth i pairs d)))).
  rewrite (nth_indep _ []
             ((fun i => map (fun x => div real x (norm real (map np_real (snd (nth i pairs d)))))
                            (map np_real (snd (nth i pairs d)))) 0))
    by (rewrite length_map; lia).
  rewrite (map_nth (fun i => map (fun x => div real x (norm real (map np_real (snd (nth i pairs d)))))
                            (map np_real (snd (nth i pairs d))))).
  cbn [div real]. apply eigenpair_scale. apply Hp. apply nth_In. lia.
Qed.

Lemma averaging_pairs_are_eigenpairs :
  forall p, In p averaging_pairs ->
            eigenpair 2 averaging_matrix (np_real (fst p)) (map np_real (snd p)).
Proof.
  intros p [<-|[<-|[]]]; unfold eigenpair, matvec, averaging_matrix, np_real, np_sum;
    cbn [seq map filter fst snd Nat.eqb fold_left nth add zero real];
    repeat (f_equal; try lra).
Qed.

Lemma eigen_postprocess_keeps_eigenpairs_witness :
  let DV := eigen_postprocess real averaging_pairs in
  List.length (fst DV) = List.length averaging_pairs
  /\ List.length (snd DV) = List.length averaging_pairs
  /\ forall k, k < List.length averaging_pairs ->
               eigenpair 2 averaging_matrix (nth k (fst DV) 0%R) (nth k (snd DV) []).
Proof.
  apply (eigen_postprocess_keeps_eigenpairs 2 averaging_matrix averaging_pairs).
  - repeat constructor; exists (1%R, 0%R); (split; [left; reflexivity|]);
      cbn [np_real fst]; lra.
  - exact averaging_pairs_are_eigenpairs.
Defined.

(** ** The recall of [test_efficiency] *)

Lemma py_index_nth {X : Type} (l : list X) (i : nat) (x d : X) :
  py_index l (Z.of_nat i) = Ok x -> i < List.length l /\ nth i l d = x.
Proof.
  unfold py_index. cbv zeta.
  destruct (Z.of_nat i <? 0)%Z eqn:E; [apply Z.ltb_lt in E; lia|].
  destruct ((0 <=? Z.of_nat i) && (Z.of_nat i <? Z.of_nat (List.length l)))%Z eqn:B;
    [|discriminate].
  apply andb_true_iff in B. destruct B as [_ B]. apply Z.ltb_lt in B.
  rewrite Nat2Z.id. destruct (nth_error l i) as [y|] eqn:N; [|discriminate].
  intros H. injection H as <-. split; [lia|]. apply nth_error_nth, N.
Qed.

Lemma set_intersection_length (a b : list nat) :
  List.length (set_intersection a b) <= List.length a.
Proof. apply filter_length_le. Qed.

Lemma row_recall_bounds (knn_ids : list (list nat))
      (ann_results : list (list nat * list R)) (i : nat) :
  py_set (nth i knn_ids []) <> [] ->
  (0 <= row_recall knn_ids ann_results i <= 1)%R.
Proof.
  intros Hne. unfold row_recall. cbv zeta.
  set (c := py_set (nth i knn_ids [])) in *.
  set (r := py_set (fst (nth i ann_results ([], [])))).
  assert (Hc : (0 < INR (List.length c))%R).
  { apply lt_0_INR. destruct c; [contradiction|simpl; lia]. }
  pose proof (set_intersection_length c r) as Hle. apply le_INR in Hle.
  pose proof (pos_INR (List.length (set_intersection c r))) as H0.
  split.
  - apply Rmult_le_pos; [exact H0|]. left. apply Rinv_0_lt_compat, Hc.
  - apply (Rmult_le_reg_r (INR (List.length c))); [exact Hc|].
    unfold Rdiv. rewrite Rmult_assoc, Rinv_l by lra. lra.
Qed.

Lemma recall_loop_sum (knn_ids : list (list nat))
      (ann_results : list (list nat * list R)) (rows : list nat) :
  forall (r0 r : R),
    recall_loop knn_ids ann_results rows r0 = Ok r ->
    r = (r0 + fold_right Rplus 0 (map (row_recall knn_ids ann_results) rows))%R
    /\ Forall (fun i => py_set (nth i knn_ids []) <> []) rows.
Proof.
  induction rows as [|i rest IH]; intros r0 r H.
  - simpl in H. injection H as <-. split; [simpl; lra | constructor].
  - cbn [recall_loop] in H.
    destruct (py_index knn_ids (Z.of_nat i)) as [ids|e] eqn:E1; [|discriminate].
    cbn [rbind] in H. cbv zeta in H.
    destruct (py_index ann_results (Z.of_nat i)) as [found|e] eqn:E2; [|discriminate].
    cbn [rbind] in H.
    destruct (List.length (py_set ids) =? 0) eqn:E3; [discriminate|].
    apply Nat.eqb_neq in E3.
    destruct (py_index_nth knn_ids i ids [] E1) as [_ N1].
    destruct (py_index_nth ann_results i found ([], []) E2) as [_ N2].
    destruct (IH _ _ H) as [Hr Hall]. split.
    + rewrite Hr. cbn [map fold_right]. unfold row_recall at 2. cbv zeta.
      rewrite N1, N2. lra.
    + constructor; [|exact Hall]. rewrite N1. intros Z0. rewrite Z0 in E3.
      apply E3. reflexivity.
Qed.

Lemma sum_bounds (f : nat -> R) (rows : list nat) :
  Forall (fun i => (0 <= f i <= 1)%R) rows ->
  (0 <= fold_right Rplus 0 (map f rows) <= INR (List.length rows))%R.
Proof.
  induction 1 as [|i rest Hi _ IH].
  - simpl. lra.
  - cbn [map fold_right]. change (List.length (i :: rest)) with (S (List.length rest)).
    rewrite S_INR. lra.
Qed.

Lemma sum_full (f : nat -> R) (rows : list nat) :
  Forall (fun i => (0 <= f i <= 1)%R) rows ->
  (fold_right Rplus 0%R (map f rows) = INR (List.length rows)
   <-> Forall (fun i => f i = 1%R) rows).
Proof.
  induction 1 as [|i rest Hi Hrest IH].
  - simpl. split; [constructor | reflexivity].
  - cbn [map fold_right]. change (List.length (i :: rest)) with (S (List.length rest)).
    rewrite S_INR. pose proof (sum_bounds f rest Hrest) as B. split.
    + intros E. assert (f i = 1%R) by lra.
      constructor; [assumption|]. apply IH. lra.
    + intros F. inversion F as [|? ? F1 F2]; subst.
      apply IH in F2. lra.
Qed.

Lemma test_efficiency_ok_inv (ext : externals R) (eff : efficiency_externals)
      (self : NMSlibTransformer.t R) (data : samples R) (data_use r : R) :
  fst (test_efficiency ext eff self data data_use) = Ok r ->
  exists ix ann_results knn total,
    NMSlibTransformer.nmslib_ self = Some ix
    /\ nmslib_knnQueryBatch ext
         (nmslib.setQueryTimeParams ix (NMSlibTransformer.efS self)) data
         (NMSlibTransformer.n_neighbors self + 1) (NMSlibTransformer.n_jobs self)
       = Ok ann_results
    /\ sklearn_kneighbors eff (NMSlibTransformer.n_neighbors self + 1)
         "cosine" "brute" data = Ok knn
    /\ shape0 data <> 0
    /\ recall_loop (snd knn) ann_results (seq 0 (shape0 data)) 0%R = Ok total
    /\ r = (total / INR (shape0 data))%R.
Proof.
  unfold test_efficiency. cbv zeta.
  destruct (train_test_split eff data data_use) as [u|e]; [|discriminate].
  destruct (NMSlibTransformer.nmslib_ self) as [ix|]; [|discriminate].
  cbn [fst].
  destruct (nmslib_knnQueryBatch ext _ data _ _) as [ann_results|e] eqn:E1;
    [|discriminate].
  cbn [rbind]. destruct (shape0 data =? 0) eqn:E0; [discriminate|].
  apply Nat.eqb_neq in E0.
  destruct (sklearn_kneighbors eff _ _ _ data) as [knn|e] eqn:E2; [|discriminate].
  cbn [rbind].
  destruct (recall_loop (snd knn) ann_results _ 0%R) as [total|e] eqn:E3;
    [|discriminate].
  cbn [rbind]. intros H. injection H as <-.
  exists ix, ann_results, knn, total. repeat split; try assumption.
Qed.

Lemma filter_length_all {X : Type} (p : X -> bool) (l : list X) :
  List.length (filter p l) = List.length l <-> forall x, In x l -> p x = true.
Proof.
  induction l as [|a t IH]; [split; [intros _ x []|reflexivity]|].
  cbn [filter]. pose proof (filter_length_le p t) as Hle.
  destruct (p a) eqn:E; cbn [List.length]; split.
  - intros H x [<-|Hx]; [exact E|]. apply IH; [lia | exact Hx].
  - intros H. f_equal. apply IH. intros x Hx. apply H. right. exact Hx.
  - intros H. lia.
  - intros H. specialize (H a (or_introl eq_refl)). congruence.
Qed.

Lemma row_recall_full (knn_ids : list (list nat))
      (ann_results : list (list nat * list R)) (i : nat) :
  py_set (nth i knn_ids []) <> [] ->
  (row_recall knn_ids ann_results i = 1%R
   <-> incl (nth i knn_ids []) (fst (nth i ann_results ([], [])))).
Proof.
  intros Hne. unfold row_recall. cbv zeta.
  set (ids := nth i knn_ids []) in *.
  set (found := fst (nth i ann_results ([], []))).
  assert (Hc : (0 < INR (List.length (py_set ids)))%R).
  { apply lt_0_INR. destruct (py_set ids); [contradiction|simpl; lia]. }
  assert (Hall : List.length (set_intersection (py_set ids) (py_set found))
                 = List.length (py_set ids)
                 <-> incl ids found).
  { unfold set_intersection. rewrite filter_length_all. unfold py_set, incl. split.
    - intros H x Hx.
      specialize (H x (proj2 (nodup_In Nat.eq_dec ids x) Hx)).
      apply existsb_exists in H. destruct H as [y [Hy Exy]].
      apply Nat.eqb_eq in Exy. subst y. apply (nodup_In Nat.eq_dec), Hy.
    - intros H x Hx. apply existsb_exists. exists x. split; [|apply Nat.eqb_refl].
      apply nodup_In, H. apply (nodup_In Nat.eq_dec), Hx. }
  rewrite <- Hall. split.
  - intros E. apply INR_eq.
    apply (Rmult_eq_compat_r (INR (List.length (py_set ids)))) in E.
    unfold Rdiv in E. rewrite Rmult_assoc, Rinv_l, Rmult_1_r, Rmult_1_l in E by lra.
    exact E.
  - intros ->. unfold Rdiv. apply Rinv_r. lra.
Qed.

(** X19: the recall that [test_efficiency] prints, in exact arithmetic.
    When the method gets there, the fitted index answered one batch query
    for [n_neighbors + 1] neighbours and the exact search was asked for
    [n_neighbors + 1] neighbours under the cosine metric by brute force;
    the recall lies between 0 and 1; and it is 1 exactly when, for every
    query row, each id of the exact search is among the ids the index
    returned. *)
Theorem test_efficiency_recall
        (ext : externals R) (eff : efficiency_externals)
        (self : NMSlibTransformer.t R) (data : samples R) (data_use r : R) :
  fst (test_efficiency ext eff self data data_use) = Ok r ->
  exists ix ann_results knn,
    NMSlibTransformer.nmslib_ self = Some ix
    /\ nmslib_knnQueryBatch ext
         (nmslib.setQueryTimeParams ix (NMSlibTransformer.efS self)) data
         (NMSlibTransformer.n_neighbors self + 1) (NMSlibTransformer.n_jobs self)
       = Ok ann_results
    /\ sklearn_kneighbors eff (NMSlibTransformer.n_neighbors self + 1)
         "cosine" "brute" data = Ok knn
    /\ (0 <= r <= 1)%R
    /\ (r = 1%R
        <-> forall i, i < shape0 data ->
              incl (nth i (snd knn) []) (fst (nth i ann_results ([], [])))).
Proof.
  intros H.
  destruct (test_efficiency_ok_inv ext eff self data data_use r H)
    as [ix [ann_results [knn [total [Hix [Hann [Hknn [Hq [Hloop ->]]]]]]]]].
  exists ix, ann_results, knn.
  split; [exact Hix|]. split; [exact Hann|]. split; [exact Hknn|].
  destruct (recall_loop_sum _ _ _ _ _ Hloop) as [Ht Hne].
  rewrite Rplus_0_l in Ht.
  set (q := shape0 data) in *.
  assert (HB : Forall (fun i => (0 <= row_recall (snd knn) ann_results i <= 1)%R)
                      (seq 0 q)).
  { eapply Forall_impl; [|exact Hne]. intros i. apply row_recall_bounds. }
  pose proof (sum_bounds _ _ HB) as B. rewrite <- Ht, length_seq in B.
  pose proof (sum_full _ _ HB) as F. rewrite <- Ht, length_seq in F.
  assert (Hqpos : (0 < INR q)%R) by (apply lt_0_INR; lia).
  split.
  - split.
    + apply Rmult_le_pos; [lra|]. left. apply Rinv_0_lt_compat, Hqpos.
    + apply (Rmult_le_reg_r (INR q)); [exact Hqpos|].
      unfold Rdiv. rewrite Rmult_assoc, Rinv_l by lra. lra.
  - assert (E1 : (total / INR q)%R = 1%R <-> total = INR q).
    { split.
      - intros E. apply (Rmult_eq_compat_r (INR q)) in E.
        unfold Rdiv in E. rewrite Rmult_assoc, Rinv_l in E by lra. lra.
      - intros ->. unfold Rdiv. apply Rinv_r. lra. }
    rewrite E1, F. rewrite Forall_forall in Hne. rewrite Forall_forall. split.
    + intros HF i Hi.
      assert (Hin : In i (seq 0 q)) by (apply in_seq; lia).
      apply (row_recall_full _ ann_results i (Hne i Hin)), HF, Hin.
    + intros HI i Hin. apply (row_recall_full _ _ i (Hne i Hin)), HI.
      apply in_seq in Hin. lia.
Qed.

Lemma lossy_run :
  exists r,
    fst (test_efficiency (table_externals lossy_table []) (table_efficiency three_table)
           real_fitted_transformer three_points (1 / 10)%R) = Ok r.
Proof. eexists. reflexivity. Qed.

Lemma test_efficiency_recall_witness :
  exists r ix ann_results knn,
    fst (test_efficiency (table_externals lossy_table []) (table_efficiency three_table)
           real_fitted_transformer three_points (1 / 10)%R) = Ok r
    /\ NMSlibTransformer.nmslib_ real_fitted_transformer = Some ix
    /\ nmslib_knnQueryBatch (table_externals lossy_table [])
         (nmslib.setQueryTimeParams ix (NMSlibTransformer.efS real_fitted_transformer))
         three_points
         (NMSlibTransformer.n_neighbors real_fitted_transformer + 1)
         (NMSlibTransformer.n_jobs real_fitted_transformer)
       = Ok ann_results
    /\ sklearn_kneighbors (table_efficiency three_table)
         (NMSlibTransformer.n_neighbors real_fitted_transformer + 1)
         "cosine" "brute" three_points = Ok knn
    /\ (0 <= r <= 1)%R
    /\ (r = 1%R
        <-> forall i, i < shape0 three_points ->
              incl (nth i (snd knn) []) (fst (nth i ann_results ([], [])))).
Proof.
  destruct lossy_run as [r H]. exists r.
  destruct (test_efficiency_recall _ _ _ _ _ r H) as [ix [a [k P]]].
  exists ix, a, k. split; [exact H | exact P].
Defined.

(** X20: [test_efficiency] returns no recall for a sample matrix without
    rows.  On a fitted object, when the split and the batch query succeed,
    the run stops with [ZeroDivisionError] in the timing report, after
    [n_neighbors] was incremented. *)
Theorem test_efficiency_empty_input
        (ext : externals R) (eff : efficiency_externals)
        (self : NMSlibTransformer.t R) (data : samples R) (data_use : R) :
  shape0 data = 0 ->
  (forall r, fst (test_efficiency ext eff self data data_use) <> Ok r)
  /\ (forall u ix ann_results,
        train_test_split eff data data_use = Ok u ->
        NMSlibTransformer.nmslib_ self = Some ix ->
        nmslib_knnQueryBatch ext
          (nmslib.setQueryTimeParams ix (NMSlibTransformer.efS self)) data
          (NMSlibTransformer.n_neighbors self + 1) (NMSlibTransformer.n_jobs self)
        = Ok ann_results ->
        fst (test_efficiency ext eff self data data_use) = Raise ZeroDivisionError
        /\ NMSlibTransformer.n_neighbors
             (fst (snd (test_efficiency ext eff self data data_use)))
           = (NMSlibTransformer.n_neighbors self + 1)%Z).
Proof.
  intros H0. split.
  - intros r Hr.
    destruct (test_efficiency_ok_inv ext eff self data data_use r Hr)
      as [ix [ann_results [knn [total [_ [_ [_ [Hq _]]]]]]]].
    apply Hq, H0.
  - intros u ix ann_results Hs Hix Hann. unfold test_efficiency. cbv zeta.
    rewrite Hs, Hix. cbn [fst snd]. rewrite Hann. cbn [rbind].
    rewrite H0. split; reflexivity.
Qed.

Lemma test_efficiency_empty_input_witness :
  let data : samples R := Dense [] in
  (forall r,
      fst (test_efficiency (table_externals lossy_table []) (table_efficiency three_table)
             real_fitted_transformer data (1 / 10)%R) <> Ok r)
  /\ (forall u ix ann_results,
        train_test_split (table_efficiency three_table) data (1 / 10)%R = Ok u ->
        NMSlibTransformer.nmslib_ real_fitted_transformer = Some ix ->
        nmslib_knnQueryBatch (table_externals lossy_table [])
          (nmslib.setQueryTimeParams ix (NMSlibTransformer.efS real_fitted_transformer))
          data
          (NMSlibTransformer.n_neighbors real_fitted_transformer + 1)
          (NMSlibTransformer.n_jobs real_fitted_transformer)
        = Ok ann_results ->
        fst (test_efficiency (table_externals lossy_table []) (table_efficiency three_table)
               real_fitted_transformer data (1 / 10)%R) = Raise ZeroDivisionError
        /\ NMSlibTransformer.n_neighbors
             (fst (snd (test_efficiency (table_externals lossy_table [])
                          (table_efficiency three_table)
                          real_fitted_transformer data (1 / 10)%R)))
           = (NMSlibTransformer.n_neighbors real_fitted_transformer + 1)%Z).
Proof.
  exact (test_efficiency_empty_input (table_externals lossy_table [])
           (table_efficiency three_table) real_fitted_transformer (Dense [])
           (1 / 10)%R eq_refl).
Defined.

(** ** Fitting again *)

Lemma fit_ok_inv {A : Type} (self self' : NMSlibTransformer.t A)
      (data : samples A) (tr : list event) :
  NMSlibTransformer.fit self data = (Ok self', tr) ->
  NMSlibTransformer.n_neighbors self' = NMSlibTransformer.n_neighbors self
  /\ NMSlibTransformer.n_samples_fit_ self' = Some (shape0 data)
  /\ NMSlibTransformer.nmslib_ self' <> None.
Proof.
  unfold NMSlibTransformer.fit. destruct (issparse data); [|discriminate].
  intros H. injection H as <- _.
  cbn [NMSlibTransformer.n_neighbors NMSlibTransformer.n_samples_fit_
       NMSlibTransformer.nmslib_].
  split; [reflexivity|]. split; [reflexivity | discriminate].
Qed.

(** X21: [fit] does not restore [n_neighbors].  When an estimator is
    fitted, used by [transform], and fitted again, the second [fit] keeps
    the incremented value, and the next [transform] asks nmslib for
    [n_neighbors + 2] neighbours, [n_neighbors] being the value the
    estimator was built with. *)
Theorem refit_keeps_increment
        {A : Type} (O : dtype A) (ext : externals A)
        (self self1 self2 : NMSlibTransformer.t A) (data : samples A)
        (tr1 tr2 : list event) :
  NMSlibTransformer.fit self data = (Ok self1, tr1) ->
  NMSlibTransformer.fit (snd (NMSlibTransformer.transform O ext self1 data)) data
  = (Ok self2, tr2) ->
  NMSlibTransformer.n_neighbors self2 = (NMSlibTransformer.n_neighbors self + 1)%Z
  /\ exists tr,
       snd (fst (NMSlibTransformer.transform O ext self2 data))
       = NmslibKnnQueryBatch (NMSlibTransformer.n_neighbors self + 2) :: tr.
Proof.
  intros H1 H2.
  destruct (fit_ok_inv self self1 data tr1 H1) as [N1 [S1 I1]].
  destruct (fit_ok_inv _ self2 data tr2 H2) as [N2 [S2 I2]].
  assert (S1' : NMSlibTransformer.n_samples_fit_ self1 <> None)
    by (rewrite S1; discriminate).
  assert (S2' : NMSlibTransformer.n_samples_fit_ self2 <> None)
    by (rewrite S2; discriminate).
  destruct (transform_increments_n_neighbors O ext self1 data I1 S1') as [E1 _].
  destruct (transform_increments_n_neighbors O ext self2 data I2 S2') as [_ [tr E2]].
  assert (N : NMSlibTransformer.n_neighbors self2
              = (NMSlibTransformer.n_neighbors self + 1)%Z).
  { rewrite N2, E1, N1. reflexivity. }
  split; [exact N|]. exists tr. rewrite E2, N. do 2 f_equal. lia.
Qed.

Lemma refit_keeps_increment_witness :
  exists self1 self2 tr1 tr2,
    NMSlibTransformer.fit fitted_transformer line_points = (Ok self1, tr1)
    /\ NMSlibTransformer.fit
         (snd (NMSlibTransformer.transform binary64 line_externals self1 line_points))
         line_points
       = (Ok self2, tr2)
    /\ NMSlibTransformer.n_neighbors self2
       = (NMSlibTransformer.n_neighbors fitted_transformer + 1)%Z
    /\ exists tr,
         snd (fst (NMSlibTransformer.transform binary64 line_externals self2 line_points))
         = NmslibKnnQueryBatch (NMSlibTransformer.n_neighbors fitted_transformer + 2)
             :: tr.
Proof.
  eexists. eexists. eexists. eexists.
  split; [reflexivity|]. split; [reflexivity|].
  exact (refit_keeps_increment binary64 line_externals fitted_transformer _ _
           line_points _ _ eq_refl eq_refl).
Defined.
